(** * belux-backend: premium ledger, calendar gate and quiz scorer

    A shallow embedding of the request handlers of [server.py] that carry
    the business rules of the service, and the properties they satisfy.

    Conventions of the embedding.
    - A [datetime] (naive UTC) is the number of microseconds since the epoch,
      an integer; a [timedelta] is a difference of two of them.  The bounds
      of Python's [datetime] (years 1 to 9999) are not modelled.
    - A MongoDB collection is the list of its documents in insertion order:
      [find_one] returns the first match, [update_one] rewrites the first
      match and is silent when nothing matches, [insert_one] appends.  The
      [_id] field and the store's rounding of datetimes are left out, and
      the operations of the store do not fail.
    - Every handler takes the store and returns the new store together with
      either its JSON answer or the [HTTPException] it raises.  Values read
      from the environment (the clock, fresh uuids, the answer of an external
      service) are arguments of the handler, one per read. *)

From Stdlib Require Import ZArith List Bool Lia Ascii String.
From stdpp Require Import base gmap strings list fin_maps.

Local Open Scope string_scope.
Local Open Scope list_scope.
Local Open Scope Z_scope.

(** ** Dates *)

Module datetime.

(** Microseconds since the epoch. *)
Definition t : Type := Z.

Definition us_per_day : Z := 86400000000.

(** [timedelta(days=n)]. *)
Definition timedelta_days (n : Z) : Z := n * us_per_day.

(** [d.replace(hour=0, minute=0, second=0, microsecond=0)]. *)
Definition replace_midnight (d : t) : t := d - d mod us_per_day.

(** [delta.days] of a timedelta: whole days, rounded towards minus
    infinity as Python normalises a timedelta. *)
Definition days (delta : Z) : Z := delta / us_per_day.

(** [d.strftime("%Y-%m-%d")].  The text names the calendar day of [d] and
    two datetimes get the same text exactly when they fall on the same
    day, so the key of a dictionary indexed by that text is modelled as
    the index of the day. *)
Definition strftime_ymd (d : t) : Z := d / us_per_day.

End datetime.

(** ** Strings *)

(** [p in s] on Python strings: [p] occurs in [s] as a substring.  Strings
    are sequences of bytes (UTF-8); a substring test on the bytes agrees
    with the one on code points. *)
Fixpoint str_in (p s : string) : bool :=
  String.prefix p s ||
  match s with
  | EmptyString => false
  | String _ s' => str_in p s'
  end.

(** Truth value of a string: the empty string is false. *)
Definition truthy (s : string) : bool :=
  match s with EmptyString => false | _ => true end.

(** Truth value of [d.get(key)] for a string value: a missing key gives
    [None], which is false. *)
Definition truthy_opt (o : option string) : bool :=
  match o with Some s => truthy s | None => false end.

(** ASCII instances of [str.lower], [str.upper] and [str.strip], used to run
    the handlers on concrete requests.  The handlers themselves are
    parametric in these three methods. *)
Module ascii_str.

Definition lower_char (c : ascii) : ascii :=
  let n := nat_of_ascii c in
  if (Nat.leb 65 n && Nat.leb n 90)%bool then ascii_of_nat (n + 32) else c.

Definition upper_char (c : ascii) : ascii :=
  let n := nat_of_ascii c in
  if (Nat.leb 97 n && Nat.leb n 122)%bool then ascii_of_nat (n - 32) else c.

Fixpoint map_chars (f : ascii -> ascii) (s : string) : string :=
  match s with
  | EmptyString => EmptyString
  | String c s' => String (f c) (map_chars f s')
  end.

Definition lower : string -> string := map_chars lower_char.
Definition upper : string -> string := map_chars upper_char.

Definition is_space (c : ascii) : bool :=
  let n := nat_of_ascii c in
  (Nat.eqb n 32 || (Nat.leb 9 n && Nat.leb n 13) ||
   (Nat.leb 28 n && Nat.leb n 31))%bool.

Fixpoint lstrip (s : string) : string :=
  match s with
  | EmptyString => EmptyString
  | String c s' => if is_space c then lstrip s' else s
  end.

Fixpoint rstrip (s : string) : string :=
  match s with
  | EmptyString => EmptyString
  | String c s' =>
      match rstrip s' with
      | EmptyString => if is_space c then EmptyString else String c EmptyString
      | r => String c r
      end
  end.

Definition strip (s : string) : string := rstrip (lstrip s).

End ascii_str.

(** ** Collections *)

Section Collection.
Context {A : Type}.

(** [collection.find_one(filter)]. *)
Definition find_one (p : A -> bool) (c : list A) : option A := List.find p c.

(** [collection.update_one(filter, {"$set": ...})]: the first document
    that matches is rewritten; nothing is inserted when none matches. *)
Fixpoint update_one (p : A -> bool) (f : A -> A) (c : list A) : list A :=
  match c with
  | [] => []
  | x :: c' => if p x then f x :: c' else x :: update_one p f c'
  end.

(** [collection.insert_one(doc)]. *)
Definition insert_one (x : A) (c : list A) : list A := c ++ [x].

(** [collection.find(filter).to_list(n)]. *)
Definition find_to_list (p : A -> bool) (n : nat) (c : list A) : list A :=
  take n (List.filter p c).

(** [collection.count_documents(filter)]. *)
Definition count_documents (p : A -> bool) (c : list A) : nat :=
  length (List.filter p c).

End Collection.

(** ** Answers of a handler *)

Inductive result (A : Type) : Type :=
| Ok (a : A)
| HTTPException (status_code : Z) (detail : string).
Arguments Ok {A} a.
Arguments HTTPException {A} status_code detail.


(** The three [str] methods the handlers call.  They are Python built-ins,
    not code of the service: the handlers are stated for any behaviour of
    them, and [ascii_methods] is the instance used on concrete requests. *)
Class StrMethods : Type := {
  lower : string -> string;
  upper : string -> string;
  strip : string -> string
}.

Definition ascii_methods : StrMethods :=
  {| lower := ascii_str.lower;
     upper := ascii_str.upper;
     strip := ascii_str.strip |}.

(** ** Documents *)

(** [class User(BaseModel)], with the three [last_payment_*] keys that the
    payment webhook adds to a user document. *)
Module User.
Record t : Type := mk {
  id : string;
  full_name : string;
  email : option string;
  phone : option string;
  is_premium : bool;
  is_subscriber : bool;
  premium_activated_at : option datetime.t;
  subscription_started_at : option datetime.t;
  trial_ends_at : option datetime.t;
  premium_code : option string;
  premium_code_expires_at : option datetime.t;
  created_at : datetime.t;
  last_payment_id : option string;
  last_payment_status : option string;
  last_payment_amount : option string
}.

(** [User(full_name=..., email=..., is_premium=..., premium_activated_at=...,
    trial_ends_at=...)]: the other fields take the defaults of the class;
    [id] and [created_at] come from [uuid.uuid4()] and [datetime.utcnow()]. *)
Definition create (new_id : string) (created : datetime.t)
    (name mail : string) (premium : bool)
    (activated trial : option datetime.t) : t :=
  {| id := new_id; full_name := name; email := Some mail; phone := None;
     is_premium := premium; is_subscriber := false;
     premium_activated_at := activated; subscription_started_at := None;
     trial_ends_at := trial; premium_code := None;
     premium_code_expires_at := None; created_at := created;
     last_payment_id := None; last_payment_status := None;
     last_payment_amount := None |}.

(** [{"$set": {"is_premium": True, "premium_activated_at": a,
    "trial_ends_at": e}}]. *)
Definition set_premium (a e : datetime.t) (u : t) : t :=
  {| id := id u; full_name := full_name u; email := email u; phone := phone u;
     is_premium := true; is_subscriber := is_subscriber u;
     premium_activated_at := Some a;
     subscription_started_at := subscription_started_at u;
     trial_ends_at := Some e; premium_code := premium_code u;
     premium_code_expires_at := premium_code_expires_at u;
     created_at := created_at u;
     last_payment_id := last_payment_id u;
     last_payment_status := last_payment_status u;
     last_payment_amount := last_payment_amount u |}.

(** [{"$set": {"is_premium": True, "premium_activated_at": a,
    "trial_ends_at": e, "premium_code": c, "premium_code_expires_at": e}}]. *)
Definition set_premium_code (a e : datetime.t) (c : string) (u : t) : t :=
  {| id := id u; full_name := full_name u; email := email u; phone := phone u;
     is_premium := true; is_subscriber := is_subscriber u;
     premium_activated_at := Some a;
     subscription_started_at := subscription_started_at u;
     trial_ends_at := Some e; premium_code := Some c;
     premium_code_expires_at := Some e;
     created_at := created_at u;
     last_payment_id := last_payment_id u;
     last_payment_status := last_payment_status u;
     last_payment_amount := last_payment_amount u |}.

(** [{"$set": {"is_premium": True, "premium_activated_at": a,
    "trial_ends_at": e, "last_payment_id": p,
    "last_payment_status": "approved", "last_payment_amount": amount}}]. *)
Definition set_premium_payment (a e : datetime.t) (p : string)
    (amount : option string) (u : t) : t :=
  {| id := id u; full_name := full_name u; email := email u; phone := phone u;
     is_premium := true; is_subscriber := is_subscriber u;
     premium_activated_at := Some a;
     subscription_started_at := subscription_started_at u;
     trial_ends_at := Some e; premium_code := premium_code u;
     premium_code_expires_at := premium_code_expires_at u;
     created_at := created_at u;
     last_payment_id := Some p;
     last_payment_status := Some "approved";
     last_payment_amount := amount |}.

(** [{"$set": {"is_premium": False}}]. *)
Definition set_not_premium (u : t) : t :=
  {| id := id u; full_name := full_name u; email := email u; phone := phone u;
     is_premium := false; is_subscriber := is_subscriber u;
     premium_activated_at := premium_activated_at u;
     subscription_started_at := subscription_started_at u;
     trial_ends_at := trial_ends_at u; premium_code := premium_code u;
     premium_code_expires_at := premium_code_expires_at u;
     created_at := created_at u;
     last_payment_id := last_payment_id u;
     last_payment_status := last_payment_status u;
     last_payment_amount := last_payment_amount u |}.

(** [{"$set": {"is_subscriber": True, "subscription_started_at": s}}]. *)
Definition set_subscriber (s : datetime.t) (u : t) : t :=
  {| id := id u; full_name := full_name u; email := email u; phone := phone u;
     is_premium := is_premium u; is_subscriber := true;
     premium_activated_at := premium_activated_at u;
     subscription_started_at := Some s;
     trial_ends_at := trial_ends_at u; premium_code := premium_code u;
     premium_code_expires_at := premium_code_expires_at u;
     created_at := created_at u;
     last_payment_id := last_payment_id u;
     last_payment_status := last_payment_status u;
     last_payment_amount := last_payment_amount u |}.

(** The filters [{"id": i}] and [{"email": e}]. *)
Definition has_id (i : string) (u : t) : bool := bool_decide (id u = i).
Definition has_email (e : string) (u : t) : bool :=
  bool_decide (email u = Some e).
End User.

(** A document of the [premium_codes] collection. *)
Module PremiumCode.
Record t : Type := mk {
  code : string;
  created_at : datetime.t;
  used : bool;
  used_by : option string;
  used_at : option datetime.t
}.

(** [{"$set": {"used": True, "used_by": user_id, "used_at": now}}]. *)
Definition set_used (user_id : string) (now : datetime.t) (c : t) : t :=
  {| code := code c; created_at := created_at c;
     used := true; used_by := Some user_id; used_at := Some now |}.

(** The filter [{"code": c}]. *)
Definition has_code (c : string) (p : t) : bool := bool_decide (code p = c).
End PremiumCode.

(** [class DailyChecklistItem(BaseModel)]. *)
Record DailyChecklistItem : Type := {
  task : string;
  completed : bool
}.

(** [class DailyEntry(BaseModel)]. *)
Module DailyEntry.
Record t : Type := mk {
  id : string;
  user_id : string;
  date : datetime.t;
  face_photo_base64 : option string;
  face_analysis : option string;
  products_photos : list string;
  products_analysis : list string;
  checklist : list DailyChecklistItem;
  observations : string;
  skin_metrics : option (list (string * string));
  created_at : datetime.t;
  updated_at : datetime.t
}.

(** [DailyEntry(user_id=..., date=..., checklist=...)]: the other fields
    take the defaults of the class, the two product lists are empty. *)
Definition create (new_id : string) (created updated : datetime.t)
    (uid : string) (d : datetime.t) (items : list DailyChecklistItem) : t :=
  {| id := new_id; user_id := uid; date := d;
     face_photo_base64 := None; face_analysis := None;
     products_photos := []; products_analysis := [];
     checklist := items; observations := ""; skin_metrics := None;
     created_at := created; updated_at := updated |}.

(** [{"$set": {"products_photos": photos, "products_analysis": analysis,
    "updated_at": now}}]. *)
Definition set_products (photos analysis : list string) (now : datetime.t)
    (e : t) : t :=
  {| id := id e; user_id := user_id e; date := date e;
     face_photo_base64 := face_photo_base64 e;
     face_analysis := face_analysis e;
     products_photos := photos; products_analysis := analysis;
     checklist := checklist e; observations := observations e;
     skin_metrics := skin_metrics e;
     created_at := created_at e; updated_at := now |}.

(** The filters [{"id": i}], [{"user_id": u}] and
    [{"user_id": u, "date": {"$gte": lo, "$lt": hi}}]. *)
Definition has_id (i : string) (e : t) : bool := bool_decide (id e = i).
Definition of_user (u : string) (e : t) : bool := bool_decide (user_id e = u).
Definition of_user_on (u : string) (lo hi : datetime.t) (e : t) : bool :=
  bool_decide (user_id e = u) && (lo <=? date e) && (date e <? hi).
End DailyEntry.

(** The body of a payment notification, as far as the webhook reads it:
    [request["type"]], [request["action"]] and [request["data"]["id"]]. *)
Record WebhookRequest : Type := {
  event_type : option string;
  action : option string;
  data_id : option string
}.

(** A document of the [payment_notifications] collection. *)
Record PaymentNotification : Type := {
  n_type : option string;
  n_action : option string;
  n_data : WebhookRequest;
  n_created_at : datetime.t
}.

(** The database: the collections the modelled handlers touch. *)
Record DB : Type := {
  users : list User.t;
  premium_codes : list PremiumCode.t;
  daily_entries : list DailyEntry.t;
  payment_notifications : list PaymentNotification
}.

Definition with_users (us : list User.t) (db : DB) : DB :=
  {| users := us; premium_codes := premium_codes db;
     daily_entries := daily_entries db;
     payment_notifications := payment_notifications db |}.

Definition with_premium_codes (cs : list PremiumCode.t) (db : DB) : DB :=
  {| users := users db; premium_codes := cs;
     daily_entries := daily_entries db;
     payment_notifications := payment_notifications db |}.

Definition with_daily_entries (es : list DailyEntry.t) (db : DB) : DB :=
  {| users := users db; premium_codes := premium_codes db;
     daily_entries := es;
     payment_notifications := payment_notifications db |}.

Definition with_payment_notifications (ns : list PaymentNotification)
    (db : DB) : DB :=
  {| users := users db; premium_codes := premium_codes db;
     daily_entries := daily_entries db;
     payment_notifications := ns |}.

(** ** Quiz scorer *)

(** [class QuizAnswer(BaseModel)]. *)
Record QuizAnswer : Type := {
  question : string;
  answer : string
}.

(** The dictionary [analyze_quiz] returns. *)
Record QuizAnalysis : Type := {
  skin_type : string;
  characteristics : string;
  recommendations : string
}.

(** The four counters of [analyze_quiz]. *)
Record Scores : Type := {
  oily_score : Z;
  dry_score : Z;
  acne_score : Z;
  sensitive_score : Z
}.

Section Quiz.
Context `{StrMethods}.

(** The test [if "acne" in q and "sim" in a]. *)
Definition acne_affirmative (x : QuizAnswer) : bool :=
  str_in "acne" (lower (question x)) && str_in "sim" (lower (answer x)).

(** One turn of the loop [for answer in answers]. *)
Definition score_answer (s : Scores) (x : QuizAnswer) : Scores :=
  let q := lower (question x) in
  let a := lower (answer x) in
  let oily1 :=
    if str_in "brilha" q && str_in "sim" a then oily_score s + 2
    else oily_score s in
  let oily2 :=
    if str_in "oleosidade" q && str_in "sim" a then oily1 + 2 else oily1 in
  let dry :=
    if str_in "ressecamento" q && str_in "sim" a then dry_score s + 2
    else dry_score s in
  let acne :=
    if str_in "acne" q && str_in "sim" a then acne_score s + 2
    else acne_score s in
  let sens1 :=
    if str_in "ardência" q || str_in "sensível" q then
      if str_in "sim" a then sensitive_score s + 2 else sensitive_score s
    else sensitive_score s in
  let sens2 :=
    if str_in "manchas" q && str_in "sim" a then sens1 + 1 else sens1 in
  {| oily_score := oily2; dry_score := dry; acne_score := acne;
     sensitive_score := sens2 |}.

Definition scores (answers : list QuizAnswer) : Scores :=
  fold_left score_answer answers
    {| oily_score := 0; dry_score := 0; acne_score := 0;
       sensitive_score := 0 |}.

Definition analyze_quiz (answers : list QuizAnswer) : QuizAnalysis :=
  let s := scores answers in
  if 2 <=? acne_score s then
    {| skin_type := "Acneica";
       characteristics := "Pele com tendência a acne, pode ter oleosidade aumentada e poros dilatados.";
       recommendations := "Produtos específicos para acne, limpeza suave e hidratação oil-free." |}
  else if 2 <=? sensitive_score s then
    {| skin_type := "Sensível";
       characteristics := "Pele reativa, pode apresentar vermelhidão e ardência com produtos inadequados.";
       recommendations := "Produtos hipoalergênicos, sem fragrância, com ingredientes calmantes." |}
  else if 3 <=? oily_score s then
    {| skin_type := "Oleosa";
       characteristics := "Pele com produção aumentada de sebo, brilho excessivo, principalmente na zona T.";
       recommendations := "Produtos matificantes, limpeza profunda, hidratação oil-free." |}
  else if 2 <=? dry_score s then
    {| skin_type := "Seca";
       characteristics := "Pele com baixa produção de oleosidade, pode ter sensação de repuxamento.";
       recommendations := "Hidratação intensa, produtos nutritivos, evitar limpeza agressiva." |}
  else if (1 <=? oily_score s) && (1 <=? dry_score s) then
    {| skin_type := "Mista";
       characteristics := "Oleosidade na zona T (testa, nariz, queixo) e ressecamento nas bochechas.";
       recommendations := "Tratamento específico por zona, equilíbrio da oleosidade." |}
  else
    {| skin_type := "Normal";
       characteristics := "Pele equilibrada, sem excesso de oleosidade ou ressecamento.";
       recommendations := "Manutenção com produtos suaves, hidratação regular, proteção solar." |}.

End Quiz.

(** ** Premium ledger *)

(** The handlers also write to the application log; only the log of the
    payment webhook is modelled, the other logging calls change neither the
    store nor the answer.  An exception that is not an [HTTPException] is
    turned by every handler into status 500 with the text of the exception
    as detail; that text is not modelled and is left empty. *)
Definition internal_error {A : Type} : result A := HTTPException 500 "".

(** The JSON body [user_data] of the activation requests: a missing key is
    [None]. *)
Module UserData.
Record t : Type := mk {
  email : option string;
  full_name : option string
}.
End UserData.

(** Answer of [activate_premium_auto]. *)
Module AutoActivation.
Record t : Type := mk {
  success : bool;
  user : User.t;
  expires_at : datetime.t;
  days_remaining : Z;
  message : string
}.
End AutoActivation.

(** Answer of [activate_premium_code]. *)
Module CodeActivation.
Record t : Type := mk {
  message : string;
  expires_at : datetime.t;
  days_remaining : Z
}.
End CodeActivation.

(** Answer of [check_premium_status]. *)
Module PremiumStatus.
Record t : Type := mk {
  is_premium : bool;
  status : string;
  message : option string;
  expired_at : option datetime.t;
  expires_at : option datetime.t;
  days_remaining : option Z
}.
End PremiumStatus.

(** [POST /users/register]. *)
Definition register_user (db : DB) (full_name email : string)
    (new_id : string) (created : datetime.t) : DB * result User.t :=
  match find_one (User.has_email email) (users db) with
  | Some existing => (db, Ok existing)
  | None =>
      let user := User.create new_id created full_name email false None None in
      (with_users (insert_one user (users db)) db, Ok user)
  end.

Section Ledger.
Context `{StrMethods}.

(** [POST /users/activate-premium-auto].  [now] is the clock read by the
    handler; [new_id] and [created] are the uuid and the clock read by the
    constructor of [User] when a user is created. *)
Definition activate_premium_auto (db : DB) (user_data : UserData.t)
    (now : datetime.t) (new_id : string) (created : datetime.t)
    : DB * result AutoActivation.t :=
  let email := lower (strip (default "" (UserData.email user_data))) in
  let full_name := strip (default "" (UserData.full_name user_data)) in
  if negb (truthy email) || negb (truthy full_name) then
    (db, HTTPException 400 "Email e nome são obrigatórios")
  else
    let user := find_one (User.has_email email) (users db) in
    let expires_at := now + datetime.timedelta_days 30 in
    let db' :=
      match user with
      | Some _ =>
          with_users
            (update_one (User.has_email email)
               (User.set_premium now expires_at) (users db)) db
      | None =>
          let new_user :=
            User.create new_id created full_name email true
              (Some now) (Some expires_at) in
          with_users (insert_one new_user (users db)) db
      end in
    match find_one (User.has_email email) (users db') with
    | Some updated_user =>
        (db', Ok {| AutoActivation.success := true;
                    AutoActivation.user := updated_user;
                    AutoActivation.expires_at := expires_at;
                    AutoActivation.days_remaining := 30;
                    AutoActivation.message := "Premium ativado com sucesso!" |})
    | None => (db', internal_error)
    end.

(** [POST /users/{user_id}/activate-premium-code]; [code_data] is the value
    of the key ["code"] of the body, [None] when the key is missing. *)
Definition activate_premium_code (db : DB) (user_id : string)
    (code_data : option string) (now : datetime.t)
    : DB * result CodeActivation.t :=
  let code := upper (strip (default "" code_data)) in
  if negb (truthy code) then
    (db, HTTPException 400 "Código não fornecido")
  else
    match find_one (User.has_id user_id) (users db) with
    | None => (db, HTTPException 404 "Usuário não encontrado")
    | Some user =>
        match find_one (PremiumCode.has_code code) (premium_codes db) with
        | None =>
            (db, HTTPException 400
                   "Código inválido. Este código não existe no sistema.")
        | Some premium_code =>
            if PremiumCode.used premium_code then
              (db, HTTPException 400
                     "Código já foi utilizado por outro usuário.")
            else
              let expires_at := now + datetime.timedelta_days 30 in
              let db1 :=
                with_users
                  (update_one (User.has_id user_id)
                     (User.set_premium_code now expires_at code) (users db))
                  db in
              let db2 :=
                with_premium_codes
                  (update_one (PremiumCode.has_code code)
                     (PremiumCode.set_used user_id now) (premium_codes db1))
                  db1 in
              (db2, Ok {| CodeActivation.message := "Código ativado com sucesso!";
                          CodeActivation.expires_at := expires_at;
                          CodeActivation.days_remaining := 30 |})
        end
    end.

End Ledger.

(** Answer of [generate_and_activate_code]. *)
Module GeneratedCode.
Record t : Type := mk {
  success : bool;
  code : string;
  user : User.t;
  expires_at : datetime.t;
  days_remaining : Z;
  message : string
}.
End GeneratedCode.

Section CodeGeneration.
Context `{StrMethods}.

(** [POST /users/generate-and-activate-code].  [new_id] and [created] are
    the uuid and the clock read by the constructor of [User] when a user is
    created, [hex] is [uuid.uuid4().hex[:8]], and [t_created], [t_used] and
    [now] are the three reads of the clock, in that order. *)
Definition generate_and_activate_code (db : DB) (user_data : UserData.t)
    (new_id : string) (created : datetime.t) (hex : string)
    (t_created t_used now : datetime.t) : DB * result GeneratedCode.t :=
  let email := lower (strip (default "" (UserData.email user_data))) in
  let full_name := strip (default "" (UserData.full_name user_data)) in
  let activate (db1 : DB) (user : User.t) : DB * result GeneratedCode.t :=
    let user_id := User.id user in
    let code := "BELUX" +:+ upper hex in
    let db2 :=
      with_premium_codes
        (insert_one
           {| PremiumCode.code := code; PremiumCode.created_at := t_created;
              PremiumCode.used := true; PremiumCode.used_by := Some user_id;
              PremiumCode.used_at := Some t_used |}
           (premium_codes db1)) db1 in
    let expires_at := now + datetime.timedelta_days 30 in
    let db3 :=
      with_users
        (update_one (User.has_email email)
           (User.set_premium_code now expires_at code) (users db2)) db2 in
    match find_one (User.has_email email) (users db3) with
    | Some updated_user =>
        (db3, Ok {| GeneratedCode.success := true;
                    GeneratedCode.code := code;
                    GeneratedCode.user := updated_user;
                    GeneratedCode.expires_at := expires_at;
                    GeneratedCode.days_remaining := 30;
                    GeneratedCode.message :=
                      "Código gerado e ativado com sucesso!" |})
    | None => (db3, internal_error)
    end in
  if negb (truthy email) then
    (db, HTTPException 400 "Email não fornecido")
  else
    match find_one (User.has_email email) (users db) with
    | Some user => activate db user
    | None =>
        if negb (truthy full_name) then
          (db, HTTPException 400 "Nome completo necessário para novo usuário")
        else
          let new_user :=
            User.create new_id created full_name email false None None in
          activate (with_users (insert_one new_user (users db)) db) new_user
    end.

End CodeGeneration.

(** No two user documents carry the same email. *)
Definition unique_emails (db : DB) : Prop :=
  forall e, (count_documents (User.has_email e) (users db) <= 1)%nat.

Definition empty_db : DB :=
  {| users := []; premium_codes := []; daily_entries := [];
     payment_notifications := [] |}.

(** The expiry [check_premium_status] looks at:
    [user.get("premium_code_expires_at") or user.get("trial_ends_at")]
    (a datetime is always true). *)
Definition effective_expiry (u : User.t) : option datetime.t :=
  match User.premium_code_expires_at u with
  | Some e => Some e
  | None => User.trial_ends_at u
  end.

(** [GET /users/{user_id}/check-premium-status]. *)
Definition check_premium_status (db : DB) (user_id : string)
    (now : datetime.t) : DB * result PremiumStatus.t :=
  match find_one (User.has_id user_id) (users db) with
  | None => (db, HTTPException 404 "Usuário não encontrado")
  | Some user =>
      match User.is_premium user, effective_expiry user with
      | true, Some expires_dt =>
          if expires_dt <? now then
            (with_users
               (update_one (User.has_id user_id) User.set_not_premium
                  (users db)) db,
             Ok {| PremiumStatus.is_premium := false;
                   PremiumStatus.status := "expired";
                   PremiumStatus.message :=
                     Some "Seu acesso premium expirou. Renove sua assinatura!";
                   PremiumStatus.expired_at := Some expires_dt;
                   PremiumStatus.expires_at := None;
                   PremiumStatus.days_remaining := None |})
          else
            (db,
             Ok {| PremiumStatus.is_premium := true;
                   PremiumStatus.status := "active";
                   PremiumStatus.message := None;
                   PremiumStatus.expired_at := None;
                   PremiumStatus.expires_at := Some expires_dt;
                   PremiumStatus.days_remaining :=
                     Some (datetime.days (expires_dt - now)) |})
      | _, _ =>
          (db,
           Ok {| PremiumStatus.is_premium := false;
                 PremiumStatus.status := "no_premium";
                 PremiumStatus.message :=
                   Some "Você precisa de acesso premium para usar esta área.";
                 PremiumStatus.expired_at := None;
                 PremiumStatus.expires_at := None;
                 PremiumStatus.days_remaining := None |})
      end
  end.

(** [POST /subscription/activate]. *)
Definition activate_subscription (db : DB) (user_id : string)
    (now : datetime.t) : DB * result string :=
  (with_users
     (update_one (User.has_id user_id) (User.set_subscriber now) (users db))
     db,
   Ok "Assinatura ativada com sucesso").

(** ** Payment webhook *)

(** What the payment SDK answers for a payment id, as far as the webhook
    reads it: [payment_data["status"]],
    [payment_data["metadata"]["user_email"]],
    [payment_data["external_reference"]] and
    [payment_data["transaction_amount"]] (a JSON number, kept as text). *)
Record PaymentData : Type := {
  pd_status : option string;
  pd_metadata_user_email : option string;
  pd_external_reference : option string;
  pd_transaction_amount : option string
}.

(** The calls of the webhook to the logger. *)
Inductive log_level : Type := INFO | WARNING | ERROR.

Inductive log_record : Type :=
| LogWebhookReceived (request : WebhookRequest)
| LogTokenNotConfigured
| LogUserActivated (user_email : string)
| LogUserNotFound (user_email : string)
| LogEmailNotFound
| LogPaymentStatus (payment_id : string) (status : option string)
| LogWebhookError.

Definition levelname (r : log_record) : log_level :=
  match r with
  | LogWebhookReceived _ => INFO
  | LogTokenNotConfigured => WARNING
  | LogUserActivated _ => INFO
  | LogUserNotFound _ => WARNING
  | LogEmailNotFound => WARNING
  | LogPaymentStatus _ _ => INFO
  | LogWebhookError => ERROR
  end.

(** Answer of the webhook: [{"message": ...}], with the key ["error"] when
    an exception was caught. *)
Record WebhookResponse : Type := {
  wr_message : string;
  wr_error : bool
}.

(** The test [event_type == "payment" or action in ["payment.created",
    "payment.updated"]]. *)
Definition is_payment_event (request : WebhookRequest) : bool :=
  bool_decide (event_type request = Some "payment") ||
  bool_decide (action request = Some "payment.created") ||
  bool_decide (action request = Some "payment.updated").

(** [a or b] on two optional strings. *)
Definition or_else (a b : option string) : option string :=
  if truthy_opt a then a else b.

(** [POST /webhook/mercadopago].  [access_token] is the environment variable
    [MERCADO_PAGO_ACCESS_TOKEN]; [sdk_get] is [sdk.payment().get] followed by
    [.get("response", {})], [None] when the call raises; [t_log], [t_act]
    and [t_exp] are the three reads of the clock, in that order.  The result
    is the new store, the answer (always a 200) and the log records. *)
Definition mercadopago_webhook (db : DB) (request : WebhookRequest)
    (access_token : option string) (sdk_get : string -> option PaymentData)
    (t_log t_act t_exp : datetime.t)
    : DB * WebhookResponse * list log_record :=
  let log0 := [LogWebhookReceived request] in
  let db1 :=
    with_payment_notifications
      (insert_one
         {| n_type := event_type request; n_action := action request;
            n_data := request; n_created_at := t_log |}
         (payment_notifications db)) db in
  let received := {| wr_message := "Evento recebido"; wr_error := false |} in
  if is_payment_event request then
    match data_id request with
    | Some payment_id =>
        if truthy payment_id then
          if negb (truthy_opt access_token) then
            (db1,
             {| wr_message := "Webhook recebido, mas sem token configurado";
                wr_error := false |},
             log0 ++ [LogTokenNotConfigured])
          else
            match sdk_get payment_id with
            | None =>
                (db1,
                 {| wr_message := "Erro processado"; wr_error := true |},
                 log0 ++ [LogWebhookError])
            | Some payment_data =>
                if bool_decide (pd_status payment_data = Some "approved") then
                  let user_email :=
                    or_else (pd_metadata_user_email payment_data)
                      (pd_external_reference payment_data) in
                  match user_email with
                  | Some user_email =>
                      if truthy user_email then
                        match find_one (User.has_email user_email)
                                (users db1) with
                        | Some _ =>
                            (with_users
                               (update_one (User.has_email user_email)
                                  (User.set_premium_payment t_act
                                     (t_exp + datetime.timedelta_days 7)
                                     payment_id
                                     (pd_transaction_amount payment_data))
                                  (users db1)) db1,
                             {| wr_message :=
                                  "Pagamento aprovado e usuário ativado";
                                wr_error := false |},
                             log0 ++ [LogUserActivated user_email])
                        | None =>
                            (db1,
                             {| wr_message := "Usuário não encontrado";
                                wr_error := false |},
                             log0 ++ [LogUserNotFound user_email])
                        end
                      else
                        (db1,
                         {| wr_message := "Email não identificado";
                            wr_error := false |},
                         log0 ++ [LogEmailNotFound])
                  | None =>
                      (db1,
                       {| wr_message := "Email não identificado";
                          wr_error := false |},
                       log0 ++ [LogEmailNotFound])
                  end
                else
                  (db1,
                   {| wr_message :=
                        "Pagamento com status: " +:+
                        default "None" (pd_status payment_data);
                      wr_error := false |},
                   log0 ++ [LogPaymentStatus payment_id
                              (pd_status payment_data)])
            end
        else (db1, received, log0)
    | None => (db1, received, log0)
    end
  else (db1, received, log0).

(** ** Daily entries *)

(** The checklist of a new entry. *)
Definition default_checklist : list DailyChecklistItem :=
  [ {| task := "Lavei o rosto"; completed := false |};
    {| task := "Usei tratamento adequado"; completed := false |};
    {| task := "Usei hidratante"; completed := false |};
    {| task := "Usei protetor solar"; completed := false |};
    {| task := "Bebi água"; completed := false |} ].

(** [POST /daily-entries/create]; [entry_date] is the optional [date] of
    the body, [now] the clock read when it is missing, [new_id], [created]
    and [updated] the uuid and the clock reads of the constructor. *)
Definition create_daily_entry (db : DB) (entry_user_id : string)
    (entry_date : option datetime.t) (now : datetime.t)
    (new_id : string) (created updated : datetime.t)
    : DB * result DailyEntry.t :=
  let date_start :=
    match entry_date with
    | Some d => datetime.replace_midnight d
    | None => datetime.replace_midnight now
    end in
  let date_end := date_start + datetime.timedelta_days 1 in
  match find_one (DailyEntry.of_user_on entry_user_id date_start date_end)
          (daily_entries db) with
  | Some existing => (db, Ok existing)
  | None =>
      let new_entry :=
        DailyEntry.create new_id created updated entry_user_id date_start
          default_checklist in
      (with_daily_entries (insert_one new_entry (daily_entries db)) db,
       Ok new_entry)
  end.

(** [POST /daily-entries/{entry_id}/analyze-product].  [analysis] is the
    answer of the language model to the picture, [None] when the call
    raises; [now] is the clock read for [updated_at]. *)
Definition analyze_product_in_entry (db : DB) (entry_id : string)
    (image_base64 : string) (analysis : option string) (now : datetime.t)
    : DB * result string :=
  match find_one (DailyEntry.has_id entry_id) (daily_entries db) with
  | None => (db, HTTPException 404 "Entrada não encontrada")
  | Some entry =>
      match analysis with
      | None => (db, internal_error)
      | Some analysis =>
          let products_photos :=
            DailyEntry.products_photos entry ++ [image_base64] in
          let products_analysis :=
            DailyEntry.products_analysis entry ++ [analysis] in
          (with_daily_entries
             (update_one (DailyEntry.has_id entry_id)
                (DailyEntry.set_products products_photos products_analysis
                   now) (daily_entries db)) db,
           Ok analysis)
      end
  end.

(** The two product lists of an entry go in step. *)
Definition balanced (e : DailyEntry.t) : Prop :=
  length (DailyEntry.products_photos e) =
  length (DailyEntry.products_analysis e).

(** ** Calendar gate *)

(** The two values of ["status"]: unlocked and blocked. *)
Inductive day_status : Type := liberado | bloqueado.

(** A value of [entries_dict]. *)
Record EntrySummary : Type := {
  has_photo : bool;
  has_checklist : bool;
  is_complete : bool
}.

(** A value of [calendar_status]. *)
Record DayInfo : Type := {
  status : day_status;
  entryExists : bool;
  isComplete : bool;
  hasPhoto : bool;
  hasChecklist : bool
}.

(** Answer of [get_calendar_status]; the dictionary ["calendar_status"] is
    keyed by the day (see [datetime.strftime_ymd]). *)
Module CalendarStatus.
Record t : Type := mk {
  user_id : string;
  is_subscriber : bool;
  trial_ends_at : option datetime.t;
  calendar_status : gmap Z DayInfo
}.
End CalendarStatus.

(** [range(lo, hi)]. *)
Definition py_range (lo hi : Z) : list Z :=
  (fun k : nat => lo + Z.of_nat k) <$> seq 0 (Z.to_nat (hi - lo)).

Definition entry_summary (entry : DailyEntry.t) : EntrySummary :=
  let photo := truthy_opt (DailyEntry.face_photo_base64 entry) in
  let checked := existsb completed (DailyEntry.checklist entry) in
  {| has_photo := photo; has_checklist := checked;
     is_complete := photo && checked |}.

(** The loop [for entry in entries] that fills [entries_dict]. *)
Definition entries_dict (entries : list DailyEntry.t) : gmap Z EntrySummary :=
  fold_left
    (fun (d : gmap Z EntrySummary) entry =>
       <[datetime.strftime_ymd (DailyEntry.date entry) := entry_summary entry]> d)
    entries ∅.

(** The decision taken for one day in the loop of the branch
    [if premium_activated_at]. *)
Definition gate_status (is_subscriber : bool)
    (trial_ends_at : option datetime.t)
    (activation_date check_date : datetime.t) : day_status :=
  if is_subscriber then liberado
  else
    match trial_ends_at with
    | Some t =>
        let trial_end := datetime.replace_midnight t in
        if (check_date <=? trial_end) && (activation_date <=? check_date)
        then liberado else bloqueado
    | None =>
        if (activation_date <=? check_date) &&
           (check_date <? activation_date + datetime.timedelta_days 7)
        then liberado else bloqueado
    end.

(** The value stored under [date_str] in that loop. *)
Definition day_info (st : day_status) (entries : gmap Z EntrySummary)
    (date_str : Z) : DayInfo :=
  match entries !! date_str with
  | Some entry_data =>
      {| status := st; entryExists := true;
         isComplete := is_complete entry_data;
         hasPhoto := has_photo entry_data;
         hasChecklist := has_checklist entry_data |}
  | None =>
      {| status := st; entryExists := false; isComplete := false;
         hasPhoto := false; hasChecklist := false |}
  end.

(** The value stored for every day in the branch of a user whose premium
    was never activated. *)
Definition blocked_day : DayInfo :=
  {| status := bloqueado; entryExists := false; isComplete := false;
     hasPhoto := false; hasChecklist := false |}.

(** The dictionary [calendar_status] that [get_calendar_status] builds for
    the user document [user]. *)
Definition build_calendar (db : DB) (user_id : string) (user : User.t)
    (now : datetime.t) : gmap Z DayInfo :=
  let is_subscriber := User.is_subscriber user in
  let trial_ends_at := User.trial_ends_at user in
  let today := datetime.replace_midnight now in
  match User.premium_activated_at user with
  | Some premium_activated_at =>
      let activation_date := datetime.replace_midnight premium_activated_at in
      let days_to_check := 60 in
      let entries :=
        find_to_list (DailyEntry.of_user user_id) 200 (daily_entries db) in
      let dict := entries_dict entries in
      fold_left
        (fun (calendar : gmap Z DayInfo) i =>
           let check_date := today + datetime.timedelta_days i in
           let date_str := datetime.strftime_ymd check_date in
           let st :=
             gate_status is_subscriber trial_ends_at activation_date
               check_date in
           <[date_str := day_info st dict date_str]> calendar)
        (py_range (-30) days_to_check) ∅
  | None =>
      fold_left
        (fun (calendar : gmap Z DayInfo) i =>
           let check_date := today + datetime.timedelta_days i in
           let date_str := datetime.strftime_ymd check_date in
           <[date_str := blocked_day]> calendar)
        (py_range (-30) 30) ∅
  end.

(** [GET /daily-entries/{user_id}/calendar-status]. *)
Definition get_calendar_status (db : DB) (user_id : string)
    (now : datetime.t) : result CalendarStatus.t :=
  match find_one (User.has_id user_id) (users db) with
  | None => HTTPException 404 "Usuário não encontrado"
  | Some user =>
      Ok {| CalendarStatus.user_id := user_id;
            CalendarStatus.is_subscriber := User.is_subscriber user;
            CalendarStatus.trial_ends_at := User.trial_ends_at user;
            CalendarStatus.calendar_status :=
              build_calendar db user_id user now |}
  end.

(** The status the gate reports for the day [day], if it reports one. *)
Definition reported_status (r : result CalendarStatus.t) (day : Z)
    : option day_status :=
  match r with
  | Ok resp => status <$> CalendarStatus.calendar_status resp !! day
  | HTTPException _ _ => None
  end.

(** ** Sample requests and stores

    Concrete inputs on which the handlers are run below. *)

Definition quiz_two_acne : list QuizAnswer :=
  [ {| question := "Sua pele brilha muito?"; answer := "Sim" |};
    {| question := "Você tem ACNE com frequência?"; answer := "sim" |};
    {| question := "Sente ardência ou tem pele sensível?"; answer := "Sim" |};
    {| question := "A acne piora com o calor?"; answer := "SIM, bastante" |} ].

(** A clock reading: one o'clock in the morning of day 20000. *)
Definition sample_now : datetime.t := 20000 * datetime.us_per_day + 3600000000.

(** A user as [register_user] creates it. *)
Definition sample_user (uid mail : string) : User.t :=
  User.create uid 0 "Ana" mail false None None.

(** A subscriber whose premium was never activated: registered, then
    [activate_subscription]. *)
Definition user_subscribed_only : User.t :=
  User.set_subscriber sample_now (sample_user "u1" "u1@x.com").

(** A subscriber whose premium was activated a hundred days ago. *)
Definition user_subscribed_premium : User.t :=
  User.set_subscriber sample_now
    (User.set_premium (sample_now - datetime.timedelta_days 100)
       (sample_now - datetime.timedelta_days 70)
       (sample_user "u2" "u2@x.com")).

(** A registered user without premium. *)
Definition user_registered : User.t := sample_user "u3" "u3@x.com".

(** A user whose premium was activated two days ago and whose document has
    no [trial_ends_at]. *)
Definition user_trial : User.t :=
  {| User.id := "u4"; User.full_name := "Bia"; User.email := Some "u4@x.com";
     User.phone := None; User.is_premium := true; User.is_subscriber := false;
     User.premium_activated_at :=
       Some (sample_now - datetime.timedelta_days 2);
     User.subscription_started_at := None; User.trial_ends_at := None;
     User.premium_code := None; User.premium_code_expires_at := None;
     User.created_at := 0; User.last_payment_id := None;
     User.last_payment_status := None; User.last_payment_amount := None |}.

(** A user whose premium, granted by a code, ran out yesterday. *)
Definition user_expired : User.t :=
  User.set_premium_code (sample_now - datetime.timedelta_days 31)
    (sample_now - datetime.timedelta_days 1) "BELUXAB12CD34"
    (sample_user "u5" "u5@x.com").

Definition code_used : PremiumCode.t :=
  {| PremiumCode.code := "BELUXAB12CD34"; PremiumCode.created_at := 0;
     PremiumCode.used := true; PremiumCode.used_by := Some "u5";
     PremiumCode.used_at := Some (sample_now - datetime.timedelta_days 31) |}.

Definition code_fresh : PremiumCode.t :=
  {| PremiumCode.code := "BELUX0000FFFF"; PremiumCode.created_at := 0;
     PremiumCode.used := false; PremiumCode.used_by := None;
     PremiumCode.used_at := None |}.

(** An entry of today with one product already analysed. *)
Definition entry_today : DailyEntry.t :=
  DailyEntry.set_products ["photo0"] ["analysis0"] sample_now
    (DailyEntry.create "e1" sample_now sample_now "u4"
       (datetime.replace_midnight sample_now) default_checklist).

Definition sample_db : DB :=
  {| users := [user_subscribed_only; user_subscribed_premium;
               user_registered; user_trial; user_expired];
     premium_codes := [code_used; code_fresh];
     daily_entries := [entry_today];
     payment_notifications := [] |}.

(** A payment notification, and an answer of the payment SDK that reports
    the payment approved for the email [mail]. *)
Definition sample_request : WebhookRequest :=
  {| event_type := Some "payment"; action := Some "payment.updated";
     data_id := Some "123456" |}.

Definition sample_payment (mail : string) : PaymentData :=
  {| pd_status := Some "approved"; pd_metadata_user_email := None;
     pd_external_reference := Some mail;
     pd_transaction_amount := Some "29.9" |}.

Definition sample_sdk (mail : string) (payment_id : string)
    : option PaymentData :=
  Some (sample_payment mail).

(** * The other handlers

    The collections below are those that the handlers above do not touch;
    they are kept in a second record beside [DB]. *)

(** [class FacialAnalysis(BaseModel)]. *)
Module FacialAnalysis.
Record t : Type := mk {
  id : string;
  user_id : string;
  image_base64 : string;
  skin_type : string;
  oiliness : string;
  pores : string;
  texture : string;
  fine_lines : string;
  spots : string;
  acne : string;
  sensitivity : string;
  recommendations : string;
  created_at : datetime.t
}.
End FacialAnalysis.

(** [class ProductRecommendation(BaseModel)]. *)
Module ProductRecommendation.
Record t : Type := mk {
  id : string;
  user_id : string;
  analysis_id : string;
  products : list string;
  reasoning : string;
  created_at : datetime.t
}.
End ProductRecommendation.

(** [class DailyRoutine(BaseModel)]. *)
Module DailyRoutine.
Record t : Type := mk {
  id : string;
  user_id : string;
  day : Z;
  date : datetime.t;
  checklist : list DailyChecklistItem;
  photo_base64 : option string;
  product_analysis : option string;
  completed : bool
}.

(** [{"$set": {"photo_base64": p, "product_analysis": a}}]. *)
Definition set_product (p a : string) (r : t) : t :=
  {| id := id r; user_id := user_id r; day := day r; date := date r;
     checklist := checklist r; photo_base64 := Some p;
     product_analysis := Some a; completed := completed r |}.

(** The filters [{"id": i}] and [{"user_id": u}]. *)
Definition has_id (i : string) (r : t) : bool := bool_decide (id r = i).
Definition of_user (u : string) (r : t) : bool :=
  bool_decide (user_id r = u).
End DailyRoutine.

(** [class QuizResult(BaseModel)]. *)
Module QuizResult.
Record t : Type := mk {
  id : string;
  skin_type : string;
  characteristics : string;
  recommendations : string;
  created_at : datetime.t
}.
End QuizResult.

Record AnalysisDB : Type := {
  facial_analyses : list FacialAnalysis.t;
  product_recommendations : list ProductRecommendation.t;
  daily_routines : list DailyRoutine.t;
  quiz_results : list QuizResult.t
}.

Definition empty_analysis_db : AnalysisDB :=
  {| facial_analyses := []; product_recommendations := [];
     daily_routines := []; quiz_results := [] |}.

(** ** Facial analysis *)

(** [s.split(sep)] for a separator of one character: the pieces of [s]
    between the occurrences of [sep], at least one piece. *)
Fixpoint split_on (sep : ascii) (s : string) : list string :=
  match s with
  | EmptyString => [EmptyString]
  | String c s' =>
      if Ascii.eqb c sep then EmptyString :: split_on sep s'
      else
        match split_on sep s' with
        | piece :: pieces => String c piece :: pieces
        | [] => [String c EmptyString]
        end
  end.

(** [line.split(":")[-1]]. *)
Definition after_last_colon (line : string) : string :=
  List.last (split_on ":" line) EmptyString.

(** The dictionary [analyze_face_with_ai] returns. *)
Module AIAnalysis.
Record t : Type := mk {
  skin_type : string;
  oiliness : string;
  pores : string;
  texture : string;
  fine_lines : string;
  spots : string;
  acne : string;
  sensitivity : string;
  recommendations : string
}.

(** The dictionary before the lines are read. *)
Definition initial (analysis_text : string) : t :=
  {| skin_type := "Mista"; oiliness := "Moderada"; pores := "Médios";
     texture := "Lisa"; fine_lines := "Leves"; spots := "Leves";
     acne := "Ausente"; sensitivity := "Baixa";
     recommendations := analysis_text |}.

Definition set_skin_type (v : string) (r : t) : t :=
  {| skin_type := v; oiliness := oiliness r; pores := pores r;
     texture := texture r; fine_lines := fine_lines r; spots := spots r;
     acne := acne r; sensitivity := sensitivity r;
     recommendations := recommendations r |}.

Definition set_oiliness (v : string) (r : t) : t :=
  {| skin_type := skin_type r; oiliness := v; pores := pores r;
     texture := texture r; fine_lines := fine_lines r; spots := spots r;
     acne := acne r; sensitivity := sensitivity r;
     recommendations := recommendations r |}.

Definition set_pores (v : string) (r : t) : t :=
  {| skin_type := skin_type r; oiliness := oiliness r; pores := v;
     texture := texture r; fine_lines := fine_lines r; spots := spots r;
     acne := acne r; sensitivity := sensitivity r;
     recommendations := recommendations r |}.

Definition set_texture (v : string) (r : t) : t :=
  {| skin_type := skin_type r; oiliness := oiliness r; pores := pores r;
     texture := v; fine_lines := fine_lines r; spots := spots r;
     acne := acne r; sensitivity := sensitivity r;
     recommendations := recommendations r |}.

Definition set_fine_lines (v : string) (r : t) : t :=
  {| skin_type := skin_type r; oiliness := oiliness r; pores := pores r;
     texture := texture r; fine_lines := v; spots := spots r;
     acne := acne r; sensitivity := sensitivity r;
     recommendations := recommendations r |}.

Definition set_spots (v : string) (r : t) : t :=
  {| skin_type := skin_type r; oiliness := oiliness r; pores := pores r;
     texture := texture r; fine_lines := fine_lines r; spots := v;
     acne := acne r; sensitivity := sensitivity r;
     recommendations := recommendations r |}.

Definition set_acne (v : string) (r : t) : t :=
  {| skin_type := skin_type r; oiliness := oiliness r; pores := pores r;
     texture := texture r; fine_lines := fine_lines r; spots := spots r;
     acne := v; sensitivity := sensitivity r;
     recommendations := recommendations r |}.

Definition set_sensitivity (v : string) (r : t) : t :=
  {| skin_type := skin_type r; oiliness := oiliness r; pores := pores r;
     texture := texture r; fine_lines := fine_lines r; spots := spots r;
     acne := acne r; sensitivity := v;
     recommendations := recommendations r |}.
End AIAnalysis.

(** The dictionary [recommend_belux_products] returns. *)
Module Recommendation.
Record t : Type := mk {
  products : list string;
  reasoning : string
}.
End Recommendation.

Section FacialAnalysisHelpers.
Context `{StrMethods}.

(** One turn of the loop [for line in lines] of [analyze_face_with_ai]. *)
Definition parse_line (result : AIAnalysis.t) (line : string)
    : AIAnalysis.t :=
  let value := strip (after_last_colon line) in
  if str_in "TIPO DE PELE" (upper line) then
    AIAnalysis.set_skin_type value result
  else if str_in "OLEOSIDADE" (upper line) then
    AIAnalysis.set_oiliness value result
  else if str_in "POROS" (upper line) then
    AIAnalysis.set_pores value result
  else if str_in "TEXTURA" (upper line) then
    AIAnalysis.set_texture value result
  else if str_in "LINHAS FINAS" (upper line) then
    AIAnalysis.set_fine_lines value result
  else if str_in "MANCHAS" (upper line) then
    AIAnalysis.set_spots value result
  else if str_in "ACNE" (upper line) then
    AIAnalysis.set_acne value result
  else if str_in "SENSIBILIDADE" (upper line) then
    AIAnalysis.set_sensitivity value result
  else result.

(** What [analyze_face_with_ai] makes of the text the model answers. *)
Definition parse_analysis (analysis_text : string) : AIAnalysis.t :=
  fold_left parse_line (split_on "010" analysis_text)
    (AIAnalysis.initial analysis_text).

(** [analyze_face_with_ai]; [response] is the answer of the language model,
    [None] when the call (or the read of the API key) raises, which the
    function turns into status 500. *)
Definition analyze_face_with_ai (response : option string)
    : result AIAnalysis.t :=
  match response with
  | Some analysis_text => Ok (parse_analysis analysis_text)
  | None => HTTPException 500 "Erro na análise: "
  end.

(** [recommend_belux_products], on a dictionary that has the five keys it
    reads, as the one of [analyze_face_with_ai] has. *)
Definition recommend_belux_products (analysis : AIAnalysis.t)
    : Recommendation.t :=
  let skin_type := lower (AIAnalysis.skin_type analysis) in
  let oiliness := lower (AIAnalysis.oiliness analysis) in
  let spots := lower (AIAnalysis.spots analysis) in
  let texture := lower (AIAnalysis.texture analysis) in
  let step1 : list string * string :=
    if str_in "oleosa" skin_type || str_in "acneica" skin_type ||
       str_in "alta" oiliness
    then (["Sérum Oil Control Belux"],
          "Sérum Oil Control para controlar oleosidade e reduzir brilho. ")
    else ([], "") in
  let step2 : list string * string :=
    if str_in "seca" skin_type || str_in "irregular" texture ||
       str_in "áspera" texture
    then (step1.1 ++ ["Sérum Hidratante Belux"],
          step1.2 +:+
          "Sérum Hidratante para melhorar textura e hidratação profunda. ")
    else step1 in
  let step3 : list string * string :=
    if str_in "manchas" (lower spots) || str_in "moderadas" spots ||
       str_in "intensas" spots
    then (step2.1 ++ ["Sérum Glow Face Belux"; "Nanovitaminacida Belux"],
          step2.2 +:+
          "Sérum Glow Face e Nanovitaminacida juntos para clareamento e uniformização do tom. ")
    else step2 in
  match step3.1 with
  | [] =>
      {| Recommendation.products := ["Sérum Hidratante Belux"];
         Recommendation.reasoning :=
           "Sérum Hidratante para manter a pele saudável e equilibrada." |}
  | _ :: _ =>
      {| Recommendation.products := step3.1;
         Recommendation.reasoning := step3.2 |}
  end.

End FacialAnalysisHelpers.

Definition with_facial_analyses (l : list FacialAnalysis.t)
    (adb : AnalysisDB) : AnalysisDB :=
  {| facial_analyses := l;
     product_recommendations := product_recommendations adb;
     daily_routines := daily_routines adb;
     quiz_results := quiz_results adb |}.

Definition with_product_recommendations (l : list ProductRecommendation.t)
    (adb : AnalysisDB) : AnalysisDB :=
  {| facial_analyses := facial_analyses adb;
     product_recommendations := l;
     daily_routines := daily_routines adb;
     quiz_results := quiz_results adb |}.

Definition with_daily_routines (l : list DailyRoutine.t)
    (adb : AnalysisDB) : AnalysisDB :=
  {| facial_analyses := facial_analyses adb;
     product_recommendations := product_recommendations adb;
     daily_routines := l;
     quiz_results := quiz_results adb |}.

Definition with_quiz_results (l : list QuizResult.t)
    (adb : AnalysisDB) : AnalysisDB :=
  {| facial_analyses := facial_analyses adb;
     product_recommendations := product_recommendations adb;
     daily_routines := daily_routines adb;
     quiz_results := l |}.

(** Answer of [create_facial_analysis]. *)
Module FacialAnalysisResponse.
Record t : Type := mk {
  analysis : FacialAnalysis.t;
  recommendations : ProductRecommendation.t
}.
End FacialAnalysisResponse.

Section FacialAnalysisHandler.
Context `{StrMethods}.

(** [POST /analysis/facial].  [response] is the answer of the language
    model ([None] when the call raises); [analysis_id], [analysis_created],
    [recommendation_id] and [recommendation_created] are the uuids and the
    clock reads of the two constructors.  The handler reads the users and
    writes to the other collections only. *)
Definition create_facial_analysis (db : DB) (adb : AnalysisDB)
    (user_id image_base64 : string) (response : option string)
    (analysis_id : string) (analysis_created : datetime.t)
    (recommendation_id : string) (recommendation_created : datetime.t)
    : AnalysisDB * result FacialAnalysisResponse.t :=
  match find_one (User.has_id user_id) (users db) with
  | None => (adb, HTTPException 404 "Usuário não encontrado")
  | Some user =>
      if negb (User.is_premium user) && negb (User.is_subscriber user) then
        (adb, HTTPException 403 "Acesso premium necessário")
      else
        match analyze_face_with_ai response with
        | HTTPException status_code detail =>
            (adb, HTTPException status_code detail)
        | Ok ai_analysis =>
            let analysis :=
              {| FacialAnalysis.id := analysis_id;
                 FacialAnalysis.user_id := user_id;
                 FacialAnalysis.image_base64 := image_base64;
                 FacialAnalysis.skin_type := AIAnalysis.skin_type ai_analysis;
                 FacialAnalysis.oiliness := AIAnalysis.oiliness ai_analysis;
                 FacialAnalysis.pores := AIAnalysis.pores ai_analysis;
                 FacialAnalysis.texture := AIAnalysis.texture ai_analysis;
                 FacialAnalysis.fine_lines :=
                   AIAnalysis.fine_lines ai_analysis;
                 FacialAnalysis.spots := AIAnalysis.spots ai_analysis;
                 FacialAnalysis.acne := AIAnalysis.acne ai_analysis;
                 FacialAnalysis.sensitivity :=
                   AIAnalysis.sensitivity ai_analysis;
                 FacialAnalysis.recommendations :=
                   AIAnalysis.recommendations ai_analysis;
                 FacialAnalysis.created_at := analysis_created |} in
            let adb1 :=
              with_facial_analyses
                (insert_one analysis (facial_analyses adb)) adb in
            let product_rec := recommend_belux_products ai_analysis in
            let recommendation :=
              {| ProductRecommendation.id := recommendation_id;
                 ProductRecommendation.user_id := user_id;
                 ProductRecommendation.analysis_id :=
                   FacialAnalysis.id analysis;
                 ProductRecommendation.products :=
                   Recommendation.products product_rec;
                 ProductRecommendation.reasoning :=
                   Recommendation.reasoning product_rec;
                 ProductRecommendation.created_at :=
                   recommendation_created |} in
            let adb2 :=
              with_product_recommendations
                (insert_one recommendation (product_recommendations adb1))
                adb1 in
            (adb2,
             Ok {| FacialAnalysisResponse.analysis := analysis;
                   FacialAnalysisResponse.recommendations :=
                     recommendation |})
        end
  end.

(** [POST /quiz/submit]; [new_id] and [created] are the uuid and the clock
    read of the constructor of [QuizResult]. *)
Definition submit_quiz (adb : AnalysisDB) (answers : list QuizAnswer)
    (new_id : string) (created : datetime.t)
    : AnalysisDB * result QuizResult.t :=
  let analysis := analyze_quiz answers in
  let result :=
    {| QuizResult.id := new_id;
       QuizResult.skin_type := skin_type analysis;
       QuizResult.characteristics := characteristics analysis;
       QuizResult.recommendations := recommendations analysis;
       QuizResult.created_at := created |} in
  (with_quiz_results (insert_one result (quiz_results adb)) adb, Ok result).

End FacialAnalysisHandler.

(** [GET /users/{user_id}]. *)
Definition get_user (db : DB) (user_id : string) : result User.t :=
  match find_one (User.has_id user_id) (users db) with
  | None => HTTPException 404 "Usuário não encontrado"
  | Some user => Ok user
  end.

(** [GET /users/{user_id}/analyses]. *)
Definition get_user_analyses (adb : AnalysisDB) (user_id : string)
    : list FacialAnalysis.t :=
  find_to_list
    (fun a => bool_decide (FacialAnalysis.user_id a = user_id)) 100
    (facial_analyses adb).

(** [GET /users/{user_id}/recommendations]. *)
Definition get_user_recommendations (adb : AnalysisDB) (user_id : string)
    : list ProductRecommendation.t :=
  find_to_list
    (fun r => bool_decide (ProductRecommendation.user_id r = user_id)) 100
    (product_recommendations adb).

Section ParsedFrom.
Context `{StrMethods}.

(** Where a field of [parse_analysis] can come from: it keeps its initial
    value, or it is the stripped text after the last colon of a line of the
    answer whose upper-case form contains the keyword of the field. *)
Definition parsed_from (analysis_text initial keyword value : string)
    : Prop :=
  value = initial \/
  exists line,
    line ∈ split_on "010" analysis_text /\
    str_in keyword (upper line) = true /\
    value = strip (after_last_colon line).

(** What the loop of [analyze_face_with_ai] keeps true of the dictionary
    for the answer [text]. *)
Definition parse_invariant (text : string) (r : AIAnalysis.t) : Prop :=
  parsed_from text "Mista" "TIPO DE PELE" (AIAnalysis.skin_type r) /\
  parsed_from text "Moderada" "OLEOSIDADE" (AIAnalysis.oiliness r) /\
  parsed_from text "Médios" "POROS" (AIAnalysis.pores r) /\
  parsed_from text "Lisa" "TEXTURA" (AIAnalysis.texture r) /\
  parsed_from text "Leves" "LINHAS FINAS" (AIAnalysis.fine_lines r) /\
  parsed_from text "Leves" "MANCHAS" (AIAnalysis.spots r) /\
  parsed_from text "Ausente" "ACNE" (AIAnalysis.acne r) /\
  parsed_from text "Baixa" "SENSIBILIDADE" (AIAnalysis.sensitivity r) /\
  AIAnalysis.recommendations r = text.

End ParsedFrom.

(** [sep.join(pieces)] for a separator of one character. *)
Fixpoint join_with (sep : ascii) (pieces : list string) : string :=
  match pieces with
  | [] => EmptyString
  | [piece] => piece
  | piece :: pieces' => piece +:+ String sep (join_with sep pieces')
  end.

(** The character [c] occurs in [s]. *)
Definition has_char (c : ascii) (s : string) : bool :=
  str_in (String c EmptyString) s.

(** ** Premium codes and payments *)

(** Answer of [generate_premium_code]. *)
Module AdminCode.
Record t : Type := mk {
  code : string;
  message : string;
  created_at : datetime.t
}.
End AdminCode.

Section AdminCodes.
Context `{StrMethods}.

(** [POST /admin/generate-premium-code].  [admin_password] is the value of
    the key of that name in the body and [env_password] the environment
    variable [ADMIN_PASSWORD], each [None] when missing; [hex] is
    [uuid.uuid4().hex[:8]] and [now] the clock. *)
Definition generate_premium_code (db : DB)
    (admin_password env_password : option string) (hex : string)
    (now : datetime.t) : DB * result AdminCode.t :=
  if negb (bool_decide (admin_password = env_password)) then
    (db, HTTPException 403 "Acesso negado")
  else
    let code := "BELUX" +:+ upper hex in
    let premium_code_data :=
      {| PremiumCode.code := code; PremiumCode.created_at := now;
         PremiumCode.used := false; PremiumCode.used_by := None;
         PremiumCode.used_at := None |} in
    (with_premium_codes
       (insert_one premium_code_data (premium_codes db)) db,
     Ok {| AdminCode.code := code;
           AdminCode.message := "Código gerado com sucesso!";
           AdminCode.created_at := now |}).

End AdminCodes.

(** [POST /payment/validate].  [email] and [confirmed] are the values of
    the keys ["email"] and ["confirmed"] of the body (the latter [false]
    when missing); [t_act] and [t_exp] are the two reads of the clock.  The
    answer is the user document, which the handler wraps with the fixed
    message "Pagamento validado". *)
Definition validate_payment (db : DB) (email : option string)
    (confirmed : bool) (t_act t_exp : datetime.t) : DB * result User.t :=
  match email with
  | Some email =>
      if negb (truthy email) || negb confirmed then
        (db, HTTPException 400 "Dados incompletos")
      else
        match find_one (User.has_email email) (users db) with
        | Some _ =>
            let db' :=
              with_users
                (update_one (User.has_email email)
                   (User.set_premium t_act
                      (t_exp + datetime.timedelta_days 7)) (users db)) db in
            match find_one (User.has_email email) (users db') with
            | Some updated_user => (db', Ok updated_user)
            | None => (db', internal_error)
            end
        | None => (db, HTTPException 404 "Usuário não encontrado")
        end
  | None => (db, HTTPException 400 "Dados incompletos")
  end.

(** ** Daily entries and routines *)

(** [class DailyEntryUpdate(BaseModel)], as [update.dict(exclude_unset=True)]
    sees it: a field is [None] when the body does not have the key.  The
    photo of the face may also be sent as null, the inner [None].  For the
    three other keys a null is not modelled: the handler would store it in
    a field of the entry that holds no null. *)
Module DailyEntryUpdate.
Record t : Type := mk {
  face_photo_base64 : option (option string);
  products_photos : option (list string);
  observations : option string;
  checklist : option (list DailyChecklistItem)
}.
End DailyEntryUpdate.

(** The text stored when the analysis of the daily photo fails. *)
Definition face_analysis_fallback : string :=
  "Não foi possível analisar a foto neste momento. Tente novamente mais tarde.".

(** [{"$set": update_data}] of [update_daily_entry]: the keys of the body,
    [updated_at], and [face_analysis] when a photo was analysed. *)
Definition set_update_data (update : DailyEntryUpdate.t)
    (face_analysis : option string) (now : datetime.t) (e : DailyEntry.t)
    : DailyEntry.t :=
  {| DailyEntry.id := DailyEntry.id e;
     DailyEntry.user_id := DailyEntry.user_id e;
     DailyEntry.date := DailyEntry.date e;
     DailyEntry.face_photo_base64 :=
       match DailyEntryUpdate.face_photo_base64 update with
       | Some photo => photo
       | None => DailyEntry.face_photo_base64 e
       end;
     DailyEntry.face_analysis :=
       match face_analysis with
       | Some text => Some text
       | None => DailyEntry.face_analysis e
       end;
     DailyEntry.products_photos :=
       default (DailyEntry.products_photos e)
         (DailyEntryUpdate.products_photos update);
     DailyEntry.products_analysis := DailyEntry.products_analysis e;
     DailyEntry.checklist :=
       default (DailyEntry.checklist e) (DailyEntryUpdate.checklist update);
     DailyEntry.observations :=
       default (DailyEntry.observations e)
         (DailyEntryUpdate.observations update);
     DailyEntry.skin_metrics := DailyEntry.skin_metrics e;
     DailyEntry.created_at := DailyEntry.created_at e;
     DailyEntry.updated_at := now |}.

(** [PUT /daily-entries/{entry_id}/update].  [response] is the answer of
    the language model to the photo of the face, [None] when the call
    raises; it is only asked when the body has a non-empty photo. *)
Definition update_daily_entry (db : DB) (entry_id : string)
    (update : DailyEntryUpdate.t) (response : option string)
    (now : datetime.t) : DB * result DailyEntry.t :=
  match find_one (DailyEntry.has_id entry_id) (daily_entries db) with
  | None => (db, HTTPException 404 "Entrada não encontrada")
  | Some _ =>
      let face_analysis :=
        match DailyEntryUpdate.face_photo_base64 update with
        | Some (Some photo) =>
            if truthy photo then
              Some (default face_analysis_fallback response)
            else None
        | _ => None
        end in
      let db' :=
        with_daily_entries
          (update_one (DailyEntry.has_id entry_id)
             (set_update_data update face_analysis now) (daily_entries db))
          db in
      match find_one (DailyEntry.has_id entry_id) (daily_entries db') with
      | Some updated_entry => (db', Ok updated_entry)
      | None => (db', internal_error)
      end
  end.

(** The checklist of a routine. *)
Definition base_checklist : list DailyChecklistItem :=
  [ {| task := "Lavar o rosto"; completed := false |};
    {| task := "Aplicar sérum recomendado"; completed := false |};
    {| task := "Usar protetor solar"; completed := false |};
    {| task := "Hidratar a pele"; completed := false |};
    {| task := "Beber água (2L)"; completed := false |} ].

(** [POST /routine/create].  [new_id day] and [clock day] are the uuid and
    the clock read in the turn [day] of the loop.  The handler writes the
    seven routines with one [insert_many] and does not read the users.  It
    returns the dictionaries it gave to [insert_many], to which the driver
    has added their [_id]; what becomes of them in the reply is outside the
    handler. *)
Definition create_routine (adb : AnalysisDB) (user_id : string)
    (new_id : Z -> string) (clock : Z -> datetime.t)
    : AnalysisDB * result (string * list DailyRoutine.t) :=
  let routines :=
    (fun day =>
       {| DailyRoutine.id := new_id day;
          DailyRoutine.user_id := user_id;
          DailyRoutine.day := day;
          DailyRoutine.date := clock day + datetime.timedelta_days (day - 1);
          DailyRoutine.checklist := base_checklist;
          DailyRoutine.photo_base64 := None;
          DailyRoutine.product_analysis := None;
          DailyRoutine.completed := false |}) <$> py_range 1 8 in
  (with_daily_routines (daily_routines adb ++ routines) adb,
   Ok ("Rotina de 7 dias criada com sucesso", routines)).

(** The text [analyze_product_with_ai] returns when the call raises. *)
Definition product_analysis_fallback : string :=
  "Não foi possível identificar o produto nesta foto. Tente novamente com uma foto mais clara.".

(** [analyze_product_with_ai]; [response] is the answer of the language
    model, [None] when the call raises. *)
Definition analyze_product_with_ai (response : option string) : string :=
  default product_analysis_fallback response.

(** [POST /routine/analyze-product]. *)
Definition analyze_product_photo (adb : AnalysisDB)
    (routine_id image_base64 : string) (response : option string)
    : AnalysisDB * result string :=
  let analysis := analyze_product_with_ai response in
  (with_daily_routines
     (update_one (DailyRoutine.has_id routine_id)
        (DailyRoutine.set_product image_base64 analysis)
        (daily_routines adb)) adb,
   Ok analysis).

(** ** The reprocessing script ([update_analyses.py]) *)

(** A document of the collection [analyses], as far as the script reads and
    writes it.  [photo_base64] is [None] when the document has no such key;
    the store keeps the [_id] of the documents distinct. *)
Module Analysis.
Record t : Type := mk {
  _id : string;
  user_id : option string;
  photo_base64 : option string;
  ai_analysis_text : option string;
  updated_at : option datetime.t;
  reprocessed : option bool;
  reprocess_date : option datetime.t
}.

(** [{"$set": {"ai_analysis_text": response, "updated_at": t1,
    "reprocessed": True, "reprocess_date": t2}}]. *)
Definition set_reprocessed (response : string) (t1 t2 : datetime.t) (a : t)
    : t :=
  {| _id := _id a; user_id := user_id a; photo_base64 := photo_base64 a;
     ai_analysis_text := Some response; updated_at := Some t1;
     reprocessed := Some true; reprocess_date := Some t2 |}.

(** The filters [{"_id": i}] and [{"photo_base64": {"$exists": True}}]. *)
Definition has_oid (i : string) (a : t) : bool := bool_decide (_id a = i).
Definition has_photo (a : t) : bool :=
  match photo_base64 a with Some _ => true | None => false end.
End Analysis.

(** The state of the loop of [update_all_analyses]: the collection, the two
    counters and the number [i] of the turn. *)
Record ReprocessState : Type := {
  rs_analyses : list Analysis.t;
  updated_count : nat;
  error_count : nat;
  rs_turn : nat
}.

(** One turn of the loop [for i, analysis in enumerate(analyses, 1)].
    [ai i] is the answer of the language model in turn [i], [None] when the
    call raises; [clock i] are the two reads of the clock of that turn. *)
Definition reprocess_turn (ai : nat -> option string)
    (clock : nat -> datetime.t * datetime.t) (s : ReprocessState)
    (analysis : Analysis.t) : ReprocessState :=
  let i := rs_turn s in
  match ai i with
  | Some response =>
      {| rs_analyses :=
           update_one (Analysis.has_oid (Analysis._id analysis))
             (Analysis.set_reprocessed response (clock i).1 (clock i).2)
             (rs_analyses s);
         updated_count := S (updated_count s);
         error_count := error_count s;
         rs_turn := S i |}
  | None =>
      {| rs_analyses := rs_analyses s;
         updated_count := updated_count s;
         error_count := S (error_count s);
         rs_turn := S i |}
  end.

(** [update_all_analyses]: the collection after the run, and the two
    counters the script prints. *)
Definition update_all_analyses (collection : list Analysis.t)
    (ai : nat -> option string) (clock : nat -> datetime.t * datetime.t)
    : ReprocessState :=
  let analyses := List.filter Analysis.has_photo collection in
  fold_left (reprocess_turn ai clock) analyses
    {| rs_analyses := collection; updated_count := 0; error_count := 0;
       rs_turn := 1 |}.

(** What the run makes of the document read in turn [i]. *)
Definition reprocessed_as (ai : nat -> option string)
    (clock : nat -> datetime.t * datetime.t) (i : nat) (a : Analysis.t)
    : Analysis.t :=
  match ai i with
  | Some response =>
      Analysis.set_reprocessed response (clock i).1 (clock i).2 a
  | None => a
  end.

(** Three analyses, the second without photo; a model that answers in the
    first turn and fails in the second. *)
Definition sample_analysis (oid : string) (photo : option string)
    : Analysis.t :=
  {| Analysis._id := oid; Analysis.user_id := Some "u4";
     Analysis.photo_base64 := photo; Analysis.ai_analysis_text := None;
     Analysis.updated_at := None; Analysis.reprocessed := None;
     Analysis.reprocess_date := None |}.

Definition sample_analyses : list Analysis.t :=
  [ sample_analysis "o1" (Some "p1"); sample_analysis "o2" None;
    sample_analysis "o3" (Some "p3") ].

Definition sample_ai (i : nat) : option string :=
  match i with 1%nat => Some "nova análise" | _ => None end.

Definition sample_clock (i : nat) : datetime.t * datetime.t :=
  (sample_now + Z.of_nat i, sample_now + Z.of_nat i + 1).

(** ** Stores that the handlers build *)

Section Reachable.
Context `{StrMethods}.

(** The stores reached from the empty one by requests handled one after the
    other; every handler that writes to [DB] has its constructor. *)
Inductive reachable : DB -> Prop :=
| reach_empty : reachable empty_db
| reach_register_user db full_name email new_id created :
    reachable db ->
    reachable (register_user db full_name email new_id created).1
| reach_activate_premium_auto db user_data now new_id created :
    reachable db ->
    reachable (activate_premium_auto db user_data now new_id created).1
| reach_activate_premium_code db user_id code_data now :
    reachable db ->
    reachable (activate_premium_code db user_id code_data now).1
| reach_generate_and_activate_code db user_data new_id created hex
    t_created t_used now :
    reachable db ->
    reachable
      (generate_and_activate_code db user_data new_id created hex t_created
         t_used now).1
| reach_generate_premium_code db admin_password env_password hex now :
    reachable db ->
    reachable
      (generate_premium_code db admin_password env_password hex now).1
| reach_check_premium_status db user_id now :
    reachable db -> reachable (check_premium_status db user_id now).1
| reach_activate_subscription db user_id now :
    reachable db -> reachable (activate_subscription db user_id now).1
| reach_mercadopago_webhook db request access_token sdk_get t_log t_act
    t_exp :
    reachable db ->
    reachable
      (mercadopago_webhook db request access_token sdk_get t_log t_act
         t_exp).1.1
| reach_validate_payment db email confirmed t_act t_exp :
    reachable db ->
    reachable (validate_payment db email confirmed t_act t_exp).1
| reach_create_daily_entry db uid d clock new_id created updated :
    reachable db ->
    reachable (create_daily_entry db uid d clock new_id created updated).1
| reach_update_daily_entry db entry_id update response now :
    reachable db ->
    reachable (update_daily_entry db entry_id update response now).1
| reach_analyze_product_in_entry db entry_id image_base64 analysis now :
    reachable db ->
    reachable
      (analyze_product_in_entry db entry_id image_base64 analysis now).1.

End Reachable.



(** ** Bodies of [update_daily_entry] that carry a null *)

(** The body of [update_daily_entry] as it is sent: each key is absent
    ([None]), null ([Some None]) or has a value.  [DailyEntryUpdate] accepts
    a null for every key, and [update.dict(exclude_unset=True)] keeps it. *)
Module DailyEntryUpdateBody.
Record t : Type := mk {
  face_photo_base64 : option (option string);
  products_photos : option (option (list string));
  observations : option (option string);
  checklist : option (option (list DailyChecklistItem))
}.
End DailyEntryUpdateBody.




(** * Properties *)

(** ** Collections *)

Section CollectionFacts.
Context {A : Type}.
Implicit Types (p q : A -> bool) (f : A -> A) (c : list A).

Lemma find_one_matches p c x : find_one p c = Some x -> p x = true.
Proof. unfold find_one. intros Hf. by apply find_some in Hf as [_ ?]. Qed.

Lemma update_one_no_match p f c : find_one p c = None -> update_one p f c = c.
Proof.
  unfold find_one. induction c as [|y c IH]; simpl; [done|].
  destruct (p y); [done|]. intros Hn. by rewrite IH.
Qed.

Lemma find_one_update_one p f c x :
  find_one p c = Some x -> p (f x) = true ->
  find_one p (update_one p f c) = Some (f x).
Proof.
  unfold find_one. induction c as [|y c IH]; simpl; [done|].
  destruct (p y) eqn:Hy.
  - intros [= ->] Hfx. simpl. by rewrite Hfx.
  - intros Hc Hfx. simpl. rewrite Hy. by apply IH.
Qed.

Lemma length_update_one p f c : length (update_one p f c) = length c.
Proof.
  induction c as [|y c IH]; simpl; [done|].
  destruct (p y); simpl; by rewrite ?IH.
Qed.

Lemma count_update_one p q f c :
  (forall x, q (f x) = q x) ->
  count_documents q (update_one p f c) = count_documents q c.
Proof.
  intros Hq. unfold count_documents.
  induction c as [|y c IH]; simpl; [done|].
  destruct (p y); simpl.
  - rewrite Hq. by destruct (q y).
  - destruct (q y); simpl; by rewrite IH.
Qed.

Lemma count_insert_one q x c :
  count_documents q (insert_one x c) =
  (count_documents q c + (if q x then 1 else 0))%nat.
Proof.
  unfold count_documents, insert_one.
  rewrite List.filter_app, length_app. simpl. by destruct (q x).
Qed.

Lemma count_no_match q c : find_one q c = None -> count_documents q c = 0%nat.
Proof.
  unfold find_one, count_documents.
  induction c as [|y c IH]; simpl; [done|].
  destruct (q y); [done|]. apply IH.
Qed.

Lemma find_one_insert_one_fresh q x c :
  find_one q c = None -> q x = true -> find_one q (insert_one x c) = Some x.
Proof.
  unfold find_one, insert_one.
  induction c as [|y c IH]; simpl; intros Hn Hx.
  - by rewrite Hx.
  - destruct (q y); [done|]. by apply IH.
Qed.

End CollectionFacts.

(** ** Quiz scorer *)

Section QuizFacts.
Context `{StrMethods}.

(** Every answer that names acne and says yes adds two to the acne counter,
    and nothing else changes it. *)
Lemma acne_score_fold (answers : list QuizAnswer) (s : Scores) :
  acne_score (fold_left score_answer answers s) =
  acne_score s + 2 * Z.of_nat (length (List.filter acne_affirmative answers)).
Proof.
  revert s. induction answers as [|x answers IH]; intros s; simpl.
  - lia.
  - rewrite IH. unfold acne_affirmative at 2.
    unfold score_answer at 1. simpl.
    destruct (str_in "acne" (lower (question x)) &&
              str_in "sim" (lower (answer x))); simpl length; lia.
Qed.

Lemma acne_score_count (answers : list QuizAnswer) :
  acne_score (scores answers) =
  2 * Z.of_nat (length (List.filter acne_affirmative answers)).
Proof. unfold scores. by rewrite acne_score_fold. Qed.

(** C9.  Whenever the acne counter of a submission reaches 2, and in
    particular whenever at least two of its answers name acne in the
    question and say yes, [analyze_quiz] returns the skin type "Acneica",
    whatever the oily, dry and sensitive counters are. *)
Theorem analyze_quiz_acne_first (answers : list QuizAnswer) :
  2 <= acne_score (scores answers) \/
  (2 <= length (List.filter acne_affirmative answers))%nat ->
  skin_type (analyze_quiz answers) = "Acneica".
Proof.
  intros Hacne.
  assert (2 <= acne_score (scores answers)) as Hs.
  { destruct Hacne as [?|Hn]; [done|]. rewrite acne_score_count. lia. }
  unfold analyze_quiz.
  destruct (Z.leb_spec 2 (acne_score (scores answers))); [done | lia].
Qed.

End QuizFacts.

Example quiz_two_acne_scores :
  @scores ascii_methods quiz_two_acne =
  {| oily_score := 2; dry_score := 0; acne_score := 4; sensitive_score := 2 |}.
Proof. reflexivity. Qed.

Lemma analyze_quiz_acne_first_witness :
  (2 <= acne_score (@scores ascii_methods quiz_two_acne) \/
   (2 <= length (List.filter (@acne_affirmative ascii_methods) quiz_two_acne))%nat) /\
  skin_type (@analyze_quiz ascii_methods quiz_two_acne) = "Acneica".
Proof.
  split.
  - left. vm_compute. discriminate.
  - apply (@analyze_quiz_acne_first ascii_methods quiz_two_acne).
    left. vm_compute. discriminate.
Defined.

(** ** Dates *)

Lemma replace_midnight_eq (d : datetime.t) :
  datetime.replace_midnight d = datetime.us_per_day * (d / datetime.us_per_day).
Proof.
  unfold datetime.replace_midnight.
  pose proof (Z.div_mod d datetime.us_per_day) as Hd.
  unfold datetime.us_per_day in *. lia.
Qed.

Lemma strftime_ymd_day (q : Z) :
  datetime.strftime_ymd (datetime.us_per_day * q) = q.
Proof.
  unfold datetime.strftime_ymd. rewrite Z.mul_comm. by apply Z.div_mul.
Qed.

(** The key of the day that lies [i] days after today. *)
Lemma strftime_ymd_offset (now : datetime.t) (i : Z) :
  datetime.strftime_ymd
    (datetime.replace_midnight now + datetime.timedelta_days i) =
  datetime.strftime_ymd now + i.
Proof.
  rewrite replace_midnight_eq. unfold datetime.timedelta_days.
  replace (datetime.us_per_day * (now / datetime.us_per_day) +
           i * datetime.us_per_day)
    with (datetime.us_per_day * (now / datetime.us_per_day + i)) by lia.
  by rewrite strftime_ymd_day.
Qed.

Lemma elem_of_py_range (lo hi j : Z) : j ∈ py_range lo hi <-> lo <= j < hi.
Proof.
  unfold py_range. rewrite list_elem_of_fmap. split.
  - intros (k & -> & Hk). apply elem_of_seq in Hk. lia.
  - intros Hj. exists (Z.to_nat (j - lo)). split; [lia|].
    apply elem_of_seq. lia.
Qed.

(** ** Calendar gate *)

(** A loop that stores [val i] under [key i] for each [i] of a list, with
    keys that tell the [i] apart, leaves [val j] under [key j]. *)
Lemma lookup_fold_insert {V : Type} (key : Z -> Z) (val : Z -> V)
    (l : list Z) (m0 : gmap Z V) (j : Z) :
  (forall a b, key a = key b -> a = b) ->
  fold_left (fun (m : gmap Z V) i => <[key i := val i]> m) l m0 !! key j =
  if decide (j ∈ l) then Some (val j) else m0 !! key j.
Proof.
  intros Hinj. revert m0.
  induction l as [|a l IH]; intros m0; cbn [fold_left].
  - destruct (decide (j ∈ [])) as [Hin|_]; [|done].
    by apply elem_of_nil in Hin.
  - rewrite IH. destruct (decide (j ∈ l)) as [Hin|Hnin].
    + rewrite decide_True; [done|]. by apply elem_of_cons; right.
    + destruct (decide (a = j)) as [->|Hne].
      * rewrite lookup_insert_eq, decide_True; [done|].
        by apply elem_of_cons; left.
      * rewrite lookup_insert_ne by (intros Hk; by apply Hinj in Hk).
        rewrite decide_False; [done|].
        intros [?|?]%elem_of_cons; congruence.
Qed.

Lemma strftime_ymd_offset_inj (now : datetime.t) (a b : Z) :
  datetime.strftime_ymd
    (datetime.replace_midnight now + datetime.timedelta_days a) =
  datetime.strftime_ymd
    (datetime.replace_midnight now + datetime.timedelta_days b) ->
  a = b.
Proof. rewrite !strftime_ymd_offset. lia. Qed.

(** What the gate stores for the day [i] days after today when the premium
    of the user was activated: days -30 to 59 get an answer, the others
    none. *)
Lemma build_calendar_activated (db : DB) (user_id : string) (user : User.t)
    (now activated : datetime.t) (i : Z) :
  User.premium_activated_at user = Some activated ->
  build_calendar db user_id user now !! (datetime.strftime_ymd now + i) =
  if decide (-30 <= i < 60) then
    Some (day_info
            (gate_status (User.is_subscriber user) (User.trial_ends_at user)
               (datetime.replace_midnight activated)
               (datetime.replace_midnight now + datetime.timedelta_days i))
            (entries_dict
               (find_to_list (DailyEntry.of_user user_id) 200
                  (daily_entries db)))
            (datetime.strftime_ymd now + i))
  else None.
Proof.
  intros Hact. unfold build_calendar. rewrite Hact.
  rewrite <- (strftime_ymd_offset now i).
  rewrite (lookup_fold_insert
             (fun i => datetime.strftime_ymd
                         (datetime.replace_midnight now +
                          datetime.timedelta_days i))
             (fun i => day_info
                         (gate_status (User.is_subscriber user)
                            (User.trial_ends_at user)
                            (datetime.replace_midnight activated)
                            (datetime.replace_midnight now +
                             datetime.timedelta_days i))
                         (entries_dict
                            (find_to_list (DailyEntry.of_user user_id) 200
                               (daily_entries db)))
                         (datetime.strftime_ymd
                            (datetime.replace_midnight now +
                             datetime.timedelta_days i))))
    by apply strftime_ymd_offset_inj.
  rewrite lookup_empty.
  destruct (decide (i ∈ py_range (-30) 60)) as [Hin|Hnin];
    rewrite elem_of_py_range in *.
  - by rewrite decide_True.
  - by rewrite decide_False.
Qed.

(** What the gate stores when the premium of the user was never activated:
    days -30 to 29 are blocked, the others get no answer. *)
Lemma build_calendar_never_activated (db : DB) (user_id : string)
    (user : User.t) (now : datetime.t) (i : Z) :
  User.premium_activated_at user = None ->
  build_calendar db user_id user now !! (datetime.strftime_ymd now + i) =
  if decide (-30 <= i < 30) then Some blocked_day else None.
Proof.
  intros Hact. unfold build_calendar. rewrite Hact.
  rewrite <- (strftime_ymd_offset now i).
  rewrite (lookup_fold_insert
             (fun i => datetime.strftime_ymd
                         (datetime.replace_midnight now +
                          datetime.timedelta_days i))
             (fun _ => blocked_day))
    by apply strftime_ymd_offset_inj.
  rewrite lookup_empty.
  destruct (decide (i ∈ py_range (-30) 30)) as [Hin|Hnin];
    rewrite elem_of_py_range in *.
  - by rewrite decide_True.
  - by rewrite decide_False.
Qed.

Lemma reported_status_found (db : DB) (user_id : string) (user : User.t)
    (now : datetime.t) (day : Z) :
  find_one (User.has_id user_id) (users db) = Some user ->
  reported_status (get_calendar_status db user_id now) day =
  status <$> build_calendar db user_id user now !! day.
Proof. intros Hu. unfold get_calendar_status. by rewrite Hu. Qed.

Lemma status_day_info (st : day_status) (entries : gmap Z EntrySummary)
    (date_str : Z) : status (day_info st entries date_str) = st.
Proof. unfold day_info. by destruct (entries !! date_str). Qed.

(** The status reported for the day [i] days after today, for a user whose
    premium was activated. *)
Lemma reported_status_activated (db : DB) (user_id : string) (user : User.t)
    (now activated : datetime.t) (i : Z) :
  find_one (User.has_id user_id) (users db) = Some user ->
  User.premium_activated_at user = Some activated ->
  reported_status (get_calendar_status db user_id now)
    (datetime.strftime_ymd now + i) =
  if decide (-30 <= i < 60) then
    Some (gate_status (User.is_subscriber user) (User.trial_ends_at user)
            (datetime.replace_midnight activated)
            (datetime.replace_midnight now + datetime.timedelta_days i))
  else None.
Proof.
  intros Hu Hact.
  rewrite (reported_status_found _ _ _ _ _ Hu).
  rewrite (build_calendar_activated _ _ _ _ _ _ Hact).
  destruct (decide (-30 <= i < 60)); [|done].
  simpl. by rewrite status_day_info.
Qed.

Lemma reported_status_never_activated (db : DB) (user_id : string)
    (user : User.t) (now : datetime.t) (i : Z) :
  find_one (User.has_id user_id) (users db) = Some user ->
  User.premium_activated_at user = None ->
  reported_status (get_calendar_status db user_id now)
    (datetime.strftime_ymd now + i) =
  if decide (-30 <= i < 30) then Some bloqueado else None.
Proof.
  intros Hu Hact.
  rewrite (reported_status_found _ _ _ _ _ Hu).
  rewrite (build_calendar_never_activated _ _ _ _ _ Hact).
  by destruct (decide (-30 <= i < 30)).
Qed.







(** The decision of the gate in terms of days: without subscription and
    without [trial_ends_at], a day is unlocked exactly when it is one of the
    seven days that start at the day of activation. *)
Lemma gate_status_default_trial (activated : datetime.t) (check_day : Z) :
  gate_status false None (datetime.replace_midnight activated)
    (datetime.us_per_day * check_day) =
  if decide (0 <= check_day - datetime.strftime_ymd activated <= 6)
  then liberado else bloqueado.
Proof.
  unfold gate_status. rewrite replace_midnight_eq.
  unfold datetime.strftime_ymd, datetime.timedelta_days.
  generalize (activated / datetime.us_per_day). intros a.
  unfold datetime.us_per_day.
  destruct (decide (0 <= check_day - a <= 6)) as [Hin|Hout].
  - destruct (Z.leb_spec (86400000000 * a) (86400000000 * check_day));
      [|lia].
    destruct (Z.ltb_spec (86400000000 * check_day)
                (86400000000 * a + 7 * 86400000000)); [done | lia].
  - destruct (Z.leb_spec (86400000000 * a) (86400000000 * check_day));
      [|done].
    destruct (Z.ltb_spec (86400000000 * check_day)
                (86400000000 * a + 7 * 86400000000)); [lia | done].
Qed.

(** Take a user without subscription whose [trial_ends_at] is unset,
    and number the days from the day of activation (day 0).  For every day
    [k] from -1 to 7, the decision of the gate for day [k] is unlocked when
    [k] is one of 0 to 6 and blocked when [k] is 7 or -1; and when that day
    lies in the window the gate answers for (thirty days before today to
    fifty-nine days after), this is the status the answer reports for it. *)
Theorem trial_week (db : DB) (user_id : string) (user : User.t)
    (now activated : datetime.t) (k : Z) :
  find_one (User.has_id user_id) (users db) = Some user ->
  User.is_subscriber user = false ->
  User.premium_activated_at user = Some activated ->
  User.trial_ends_at user = None ->
  -1 <= k <= 7 ->
  let day0 := datetime.strftime_ymd activated in
  let today := datetime.strftime_ymd now in
  let expected := if decide (0 <= k <= 6) then liberado else bloqueado in
  gate_status (User.is_subscriber user) (User.trial_ends_at user)
    (datetime.replace_midnight activated)
    (datetime.replace_midnight activated + datetime.timedelta_days k) =
  expected /\
  (today - 30 <= day0 + k <= today + 59 ->
   reported_status (get_calendar_status db user_id now) (day0 + k) =
   Some expected).
Proof.
  intros Hu Hsub Hact Htrial Hk day0 today expected.
  assert (forall d, gate_status (User.is_subscriber user)
                      (User.trial_ends_at user)
                      (datetime.replace_midnight activated)
                      (datetime.us_per_day * (day0 + d)) =
                    if decide (0 <= d <= 6) then liberado else bloqueado)
    as Hgate.
  { intros d. rewrite Hsub, Htrial, gate_status_default_trial.
    subst day0.
    destruct (decide (0 <= d <= 6));
      [rewrite decide_True by lia | rewrite decide_False by lia]; done. }
  subst expected. split.
  - rewrite <- (Hgate k). f_equal.
    rewrite replace_midnight_eq. unfold datetime.timedelta_days.
    subst day0. unfold datetime.strftime_ymd. lia.
  - intros Hwin.
    replace (day0 + k) with (datetime.strftime_ymd now + (day0 + k - today))
      by (subst today; lia).
    rewrite (reported_status_activated _ _ _ _ _ _ Hu Hact).
    rewrite decide_True by lia. f_equal.
    rewrite <- (Hgate k). f_equal.
    rewrite replace_midnight_eq. unfold datetime.timedelta_days.
    subst today. unfold datetime.strftime_ymd. lia.
Qed.

Lemma trial_week_witness :
  gate_status false None
    (datetime.replace_midnight (sample_now - datetime.timedelta_days 2))
    (datetime.replace_midnight (sample_now - datetime.timedelta_days 2) +
     datetime.timedelta_days 6) = liberado /\
  reported_status (get_calendar_status sample_db "u4" sample_now)
    (datetime.strftime_ymd (sample_now - datetime.timedelta_days 2) + 6) =
  Some liberado.
Proof.
  destruct (trial_week sample_db "u4" user_trial sample_now
              (sample_now - datetime.timedelta_days 2) 6) as [Hgate Hrep].
  - reflexivity.
  - reflexivity.
  - reflexivity.
  - reflexivity.
  - lia.
  - split; [exact Hgate|]. apply Hrep. vm_compute. split; discriminate.
Defined.

(** The same user on the two days next to the trial week: the day before
    the activation and the eighth day are reported blocked. *)
Example trial_week_day_before :
  reported_status (get_calendar_status sample_db "u4" sample_now)
    (datetime.strftime_ymd (sample_now - datetime.timedelta_days 2) - 1) =
  Some bloqueado.
Proof. reflexivity. Qed.

Example trial_week_day_seven :
  reported_status (get_calendar_status sample_db "u4" sample_now)
    (datetime.strftime_ymd (sample_now - datetime.timedelta_days 2) + 7) =
  Some bloqueado.
Proof. reflexivity. Qed.





(** ** Premium ledger *)

Lemma with_users_same (db : DB) : with_users (users db) db = db.
Proof. by destruct db. Qed.

(** The expiry resolves to the expiry of the code when the document has
    one, and to the end of the trial otherwise. *)
Lemma effective_expiry_code (u : User.t) (e : datetime.t) :
  User.premium_code_expires_at u = Some e -> effective_expiry u = Some e.
Proof. unfold effective_expiry. by intros ->. Qed.

Lemma effective_expiry_trial (u : User.t) :
  User.premium_code_expires_at u = None ->
  effective_expiry u = User.trial_ends_at u.
Proof. unfold effective_expiry. by intros ->. Qed.

(** For a duration that is not negative, [days] is the number of whole days
    in it. *)
Lemma days_truncates (delta : Z) :
  0 <= delta ->
  0 <= datetime.days delta /\
  datetime.us_per_day * datetime.days delta <= delta <
  datetime.us_per_day * (datetime.days delta + 1).
Proof.
  intros Hd. unfold datetime.days.
  pose proof (Z.div_mod delta datetime.us_per_day) as Hdm.
  pose proof (Z.mod_pos_bound delta datetime.us_per_day) as Hb.
  unfold datetime.us_per_day in *.
  assert (0 <= delta / 86400000000) by (apply Z.div_pos; lia).
  lia.
Qed.

(** C4.  Let the user have [is_premium] set and an expiry, the expiry of
    the code if the document has one and the end of the trial otherwise.
    Then either the clock is past the expiry, the answer has status
    "expired" and the stored document has [is_premium] cleared (nothing
    else in the store changes); or the clock is not past the expiry, the
    store is unchanged and the answer has status "active" with
    [days_remaining] the number of whole days left until the expiry. *)
Theorem check_premium_status_premium (db : DB) (user_id : string)
    (user : User.t) (expires now : datetime.t) :
  find_one (User.has_id user_id) (users db) = Some user ->
  User.is_premium user = true ->
  match User.premium_code_expires_at user with
  | Some e => Some e
  | None => User.trial_ends_at user
  end = Some expires ->
  let db' := (check_premium_status db user_id now).1 in
  let answer := (check_premium_status db user_id now).2 in
  (expires < now /\
   (exists r, answer = Ok r /\
      PremiumStatus.status r = "expired" /\
      PremiumStatus.is_premium r = false /\
      PremiumStatus.expired_at r = Some expires) /\
   find_one (User.has_id user_id) (users db') =
     Some (User.set_not_premium user) /\
   User.is_premium (User.set_not_premium user) = false /\
   length (users db') = length (users db) /\
   premium_codes db' = premium_codes db /\
   daily_entries db' = daily_entries db /\
   payment_notifications db' = payment_notifications db)
  \/
  (now <= expires /\
   (exists r, answer = Ok r /\
      PremiumStatus.status r = "active" /\
      PremiumStatus.is_premium r = true /\
      PremiumStatus.expires_at r = Some expires /\
      PremiumStatus.days_remaining r =
        Some ((expires - now) / datetime.us_per_day)) /\
   0 <= (expires - now) / datetime.us_per_day /\
   datetime.us_per_day * ((expires - now) / datetime.us_per_day) <=
     expires - now <
   datetime.us_per_day * ((expires - now) / datetime.us_per_day + 1) /\
   db' = db).
Proof.
  intros Hu Hprem Hexp db' answer. subst db' answer.
  unfold check_premium_status. rewrite Hu, Hprem.
  change (effective_expiry user) with
    (match User.premium_code_expires_at user with
     | Some e => Some e
     | None => User.trial_ends_at user
     end).
  rewrite Hexp.
  destruct (Z.ltb_spec expires now) as [Hpast|Hnot]; simpl.
  - left. split; [done|]. split; [eauto 10|].
    split.
    { apply find_one_update_one; [done|].
      apply (find_one_matches _ _ _ Hu). }
    rewrite length_update_one. done.
  - right. split; [done|]. split; [eauto 10|].
    pose proof (days_truncates (expires - now)) as Hd.
    unfold datetime.days in Hd. split; [lia|]. split; [lia|done].
Qed.

Lemma check_premium_status_premium_witness :
  (check_premium_status sample_db "u5" sample_now).2 =
    Ok {| PremiumStatus.is_premium := false;
          PremiumStatus.status := "expired";
          PremiumStatus.message :=
            Some "Seu acesso premium expirou. Renove sua assinatura!";
          PremiumStatus.expired_at :=
            Some (sample_now - datetime.timedelta_days 1);
          PremiumStatus.expires_at := None;
          PremiumStatus.days_remaining := None |} /\
  find_one (User.has_id "u5")
    (users (check_premium_status sample_db "u5" sample_now).1) =
  Some (User.set_not_premium user_expired).
Proof.
  destruct (check_premium_status_premium sample_db "u5" user_expired
              (sample_now - datetime.timedelta_days 1) sample_now)
    as [(_ & _ & Hfind & _)|(Hle & _)].
  - reflexivity.
  - reflexivity.
  - reflexivity.
  - split; [reflexivity | exact Hfind].
  - exfalso. revert Hle. vm_compute. intros Hle. by apply Hle.
Defined.

(** The same request one and a half days before the expiry: the answer
    says that one day is left. *)
Example check_premium_status_active :
  (check_premium_status sample_db "u5"
     (sample_now - datetime.timedelta_days 3 + 43200000000)).2 =
  Ok {| PremiumStatus.is_premium := true;
        PremiumStatus.status := "active";
        PremiumStatus.message := None;
        PremiumStatus.expired_at := None;
        PremiumStatus.expires_at :=
          Some (sample_now - datetime.timedelta_days 1);
        PremiumStatus.days_remaining := Some 1 |}.
Proof. reflexivity. Qed.

Section LedgerFacts.
Context `{StrMethods}.

(** A redemption with a code whose [used] flag is set is refused and
    leaves the store as it was. *)
Lemma activate_premium_code_used (db : DB) (user_id : string)
    (code_data : option string) (now : datetime.t) (user : User.t)
    (premium_code : PremiumCode.t) :
  let code := upper (strip (default "" code_data)) in
  find_one (User.has_id user_id) (users db) = Some user ->
  find_one (PremiumCode.has_code code) (premium_codes db) =
    Some premium_code ->
  PremiumCode.used premium_code = true ->
  activate_premium_code db user_id code_data now =
  (db, HTTPException 400
         (if truthy code then "Código já foi utilizado por outro usuário."
          else "Código não fornecido")).
Proof.
  intros code Hu Hc Hused. unfold activate_premium_code. fold code.
  destruct (truthy code); simpl; [|done].
  by rewrite Hu, Hc, Hused.
Qed.

(** A redemption that succeeds leaves the code in the store with its
    [used] flag set. *)
Lemma activate_premium_code_marks_used (db db' : DB) (user_id : string)
    (code_data : option string) (now : datetime.t) (r : CodeActivation.t) :
  let code := upper (strip (default "" code_data)) in
  activate_premium_code db user_id code_data now = (db', Ok r) ->
  truthy code = true /\
  exists premium_code,
    find_one (PremiumCode.has_code code) (premium_codes db) =
      Some premium_code /\
    PremiumCode.used premium_code = false /\
    find_one (PremiumCode.has_code code) (premium_codes db') =
      Some (PremiumCode.set_used user_id now premium_code).
Proof.
  intros code. unfold activate_premium_code. fold code.
  destruct (truthy code); simpl; [|done].
  destruct (find_one (User.has_id user_id) (users db)); [|done].
  destruct (find_one (PremiumCode.has_code code) (premium_codes db))
    as [pc|] eqn:Hc; [|done].
  destruct (PremiumCode.used pc) eqn:Hused; [done|].
  intros [= <- _]. split; [done|]. exists pc. split; [done|]. split; [done|].
  simpl. apply find_one_update_one; [done|].
  apply (find_one_matches _ _ _ Hc).
Qed.

(** C5.  A redemption request that names an existing user and a code that
    exists with its [used] flag set fails with status 400 and returns the
    store as it was, so neither the user nor the code is modified.  In
    particular, once a redemption of a code has succeeded, a redemption of
    the same code by any existing user, the same or another, is refused in
    this way. *)
Theorem activate_premium_code_conflict (db : DB) (user_id : string)
    (code_data : option string) (now : datetime.t) (user : User.t) :
  let code := upper (strip (default "" code_data)) in
  let refused :=
    (db, HTTPException 400
           (if truthy code then "Código já foi utilizado por outro usuário."
            else "Código não fornecido")) in
  find_one (User.has_id user_id) (users db) = Some user ->
  (forall premium_code,
     find_one (PremiumCode.has_code code) (premium_codes db) =
       Some premium_code ->
     PremiumCode.used premium_code = true ->
     activate_premium_code db user_id code_data now = refused) /\
  (forall db0 first_user first_now r,
     activate_premium_code db0 first_user code_data first_now = (db, Ok r) ->
     activate_premium_code db user_id code_data now =
     (db, HTTPException 400 "Código já foi utilizado por outro usuário.")).
Proof.
  intros code refused Hu. split.
  - intros pc Hc Hused.
    by apply (activate_premium_code_used db user_id code_data now user pc).
  - intros db0 first_user first_now r Hfirst.
    apply activate_premium_code_marks_used in Hfirst
      as (Hcode & pc & _ & _ & Hc).
    rewrite (activate_premium_code_used db user_id code_data now user _
               Hu Hc eq_refl).
    by rewrite Hcode.
Qed.

End LedgerFacts.

Lemma activate_premium_code_conflict_witness :
  @activate_premium_code ascii_methods sample_db "u3"
    (Some " beluxab12cd34 ") sample_now =
  (sample_db,
   HTTPException 400 "Código já foi utilizado por outro usuário.") /\
  let db1 :=
    (@activate_premium_code ascii_methods sample_db "u3"
       (Some "BELUX0000FFFF") sample_now).1 in
  @activate_premium_code ascii_methods db1 "u4" (Some "BELUX0000FFFF")
    (sample_now + 1) =
  (db1, HTTPException 400 "Código já foi utilizado por outro usuário.").
Proof.
  split.
  - destruct (@activate_premium_code_conflict ascii_methods sample_db "u3"
                (Some " beluxab12cd34 ") sample_now user_registered
                eq_refl) as [Hused _].
    apply (Hused code_used); reflexivity.
  - set (db1 := (@activate_premium_code ascii_methods sample_db "u3"
                   (Some "BELUX0000FFFF") sample_now).1).
    destruct (@activate_premium_code_conflict ascii_methods db1 "u4"
                (Some "BELUX0000FFFF") (sample_now + 1) user_trial
                eq_refl) as [_ Hsecond].
    apply (Hsecond sample_db "u3" sample_now
             {| CodeActivation.message := "Código ativado com sucesso!";
                CodeActivation.expires_at :=
                  sample_now + datetime.timedelta_days 30;
                CodeActivation.days_remaining := 30 |}).
    reflexivity.
Defined.

Lemma count_match {A : Type} (q : A -> bool) (c : list A) (x : A) :
  find_one q c = Some x -> (1 <= count_documents q c)%nat.
Proof.
  unfold find_one, count_documents.
  induction c as [|y c IH]; simpl; [done|].
  destruct (q y); simpl; [lia | apply IH].
Qed.

Lemma has_email_create (new_id : string) (created : datetime.t)
    (name mail : string) (premium : bool)
    (activated trial : option datetime.t) (e : string) :
  User.has_email e
    (User.create new_id created name mail premium activated trial) =
  bool_decide (mail = e).
Proof.
  unfold User.has_email. simpl.
  destruct (decide (mail = e)) as [->|Hne].
  - by rewrite !bool_decide_eq_true_2.
  - rewrite !bool_decide_eq_false_2; [done..|]. congruence.
Qed.

Section AutoActivationFacts.
Context `{StrMethods}.

(** One call of [activate_premium_auto] on a store with at most one
    document for the email. *)
Lemma activate_premium_auto_once (db : DB) (user_data : UserData.t)
    (now : datetime.t) (new_id : string) (created : datetime.t) :
  let email := lower (strip (default "" (UserData.email user_data))) in
  truthy email = true ->
  truthy (strip (default "" (UserData.full_name user_data))) = true ->
  (count_documents (User.has_email email) (users db) <= 1)%nat ->
  exists db' r,
    activate_premium_auto db user_data now new_id created = (db', Ok r) /\
    count_documents (User.has_email email) (users db') = 1%nat /\
    find_one (User.has_email email) (users db') =
      Some (AutoActivation.user r) /\
    User.is_premium (AutoActivation.user r) = true /\
    User.premium_activated_at (AutoActivation.user r) = Some now /\
    User.trial_ends_at (AutoActivation.user r) =
      Some (now + datetime.timedelta_days 30) /\
    AutoActivation.expires_at r = now + datetime.timedelta_days 30.
Proof.
  intros email Hemail Hname Hcount.
  unfold activate_premium_auto. fold email. rewrite Hemail, Hname. simpl.
  destruct (find_one (User.has_email email) (users db)) as [u|] eqn:Hu.
  - simpl.
    rewrite (find_one_update_one _
               (User.set_premium now (now + datetime.timedelta_days 30))
               _ u Hu) by apply (find_one_matches _ _ _ Hu).
    eexists _, _. split; [reflexivity|]. simpl.
    rewrite count_update_one by done.
    pose proof (count_match _ _ _ Hu). split; [lia|]. split; [|done].
    apply find_one_update_one; [done|]. apply (find_one_matches _ _ _ Hu).
  - simpl.
    rewrite (find_one_insert_one_fresh _ _ _ Hu)
      by (rewrite has_email_create; by apply bool_decide_eq_true_2).
    eexists _, _. split; [reflexivity|]. simpl.
    rewrite count_insert_one, (count_no_match _ _ Hu), has_email_create.
    rewrite bool_decide_eq_true_2 by done. split; [done|]. split; [|done].
    apply find_one_insert_one_fresh; [done|].
    rewrite has_email_create. by apply bool_decide_eq_true_2.
Qed.

(** C6.  Two calls of [activate_premium_auto] with the same body, on a store
    that holds at most one user document for the email, both succeed; the
    store then holds exactly one document for the email, and after each
    call that document has [is_premium] set, [premium_activated_at] equal to
    the clock of that call and [trial_ends_at] thirty days after it. *)
Theorem activate_premium_auto_twice (db : DB) (user_data : UserData.t)
    (now1 now2 : datetime.t) (id1 id2 : string) (created1 created2 : datetime.t) :
  let email := lower (strip (default "" (UserData.email user_data))) in
  truthy email = true ->
  truthy (strip (default "" (UserData.full_name user_data))) = true ->
  (count_documents (User.has_email email) (users db) <= 1)%nat ->
  exists db1 r1 db2 r2,
    activate_premium_auto db user_data now1 id1 created1 = (db1, Ok r1) /\
    activate_premium_auto db1 user_data now2 id2 created2 = (db2, Ok r2) /\
    count_documents (User.has_email email) (users db2) = 1%nat /\
    find_one (User.has_email email) (users db1) =
      Some (AutoActivation.user r1) /\
    User.is_premium (AutoActivation.user r1) = true /\
    User.premium_activated_at (AutoActivation.user r1) = Some now1 /\
    User.trial_ends_at (AutoActivation.user r1) =
      Some (now1 + datetime.timedelta_days 30) /\
    find_one (User.has_email email) (users db2) =
      Some (AutoActivation.user r2) /\
    User.is_premium (AutoActivation.user r2) = true /\
    User.premium_activated_at (AutoActivation.user r2) = Some now2 /\
    User.trial_ends_at (AutoActivation.user r2) =
      Some (now2 + datetime.timedelta_days 30).
Proof.
  intros email Hemail Hname Hcount.
  destruct (activate_premium_auto_once db user_data now1 id1 created1
              Hemail Hname Hcount)
    as (db1 & r1 & Hcall1 & Hcount1 & Hfind1 & Hprem1 & Hact1 & Hexp1 & _).
  fold email in Hcount1, Hfind1.
  destruct (activate_premium_auto_once db1 user_data now2 id2 created2
              Hemail Hname)
    as (db2 & r2 & Hcall2 & Hcount2 & Hfind2 & Hprem2 & Hact2 & Hexp2 & _).
  { fold email. lia. }
  exists db1, r1, db2, r2. repeat split; done.
Qed.

End AutoActivationFacts.

Lemma activate_premium_auto_twice_witness :
  let body :=
    {| UserData.email := Some " Ana@X.com ";
       UserData.full_name := Some "Ana" |} in
  let db1 :=
    (@activate_premium_auto ascii_methods empty_db body sample_now
       "id1" sample_now).1 in
  let db2 :=
    (@activate_premium_auto ascii_methods db1 body (sample_now + 5)
       "id2" (sample_now + 5)).1 in
  count_documents (User.has_email "ana@x.com") (users db2) = 1%nat /\
  (User.trial_ends_at <$> find_one (User.has_email "ana@x.com") (users db2)) =
  Some (Some (sample_now + 5 + datetime.timedelta_days 30)).
Proof.
  intros body db1 db2.
  destruct (@activate_premium_auto_twice ascii_methods empty_db body
              sample_now (sample_now + 5) "id1" "id2" sample_now
              (sample_now + 5))
    as (d1 & r1 & d2 & r2 & Hcall1 & Hcall2 & Hcount & _ & _ & _ & _ &
        Hfind & _ & _ & Htrial).
  - reflexivity.
  - reflexivity.
  - vm_compute. lia.
  - subst db2 db1. rewrite Hcall1. simpl. rewrite Hcall2. simpl.
    split; [exact Hcount|].
    refine (eq_trans (f_equal (fmap User.trial_ends_at) Hfind) _).
    simpl. by rewrite Htrial.
Defined.

(** The second call finds the document of the first and rewrites it: the
    store still has one user, with the uuid of the first call. *)
Example activate_premium_auto_twice_users :
  let body :=
    {| UserData.email := Some " Ana@X.com ";
       UserData.full_name := Some "Ana" |} in
  let db1 :=
    (@activate_premium_auto ascii_methods empty_db body sample_now
       "id1" sample_now).1 in
  let db2 :=
    (@activate_premium_auto ascii_methods db1 body (sample_now + 5)
       "id2" (sample_now + 5)).1 in
  User.id <$> users db2 = ["id1"].
Proof. reflexivity. Qed.

(** The lookup is by the email after [strip().lower()], while
    [register_user] stores the email as it is given: a user registered as
    "Ana@X.com" is not found, and the store gets a second document, the one
    with the normalised email. *)
Example activate_premium_auto_after_register :
  let db1 := (register_user empty_db "Ana" "Ana@X.com" "id0" sample_now).1 in
  let db2 :=
    (@activate_premium_auto ascii_methods db1
       {| UserData.email := Some "Ana@X.com";
          UserData.full_name := Some "Ana" |}
       (sample_now + 5) "id1" (sample_now + 5)).1 in
  User.email <$> users db2 = [Some "Ana@X.com"; Some "ana@x.com"] /\
  User.is_premium <$> users db2 = [false; true].
Proof. split; reflexivity. Qed.

(** *** Emails stay unique

    The premise of C6 holds in every store that the handlers build from the
    empty one: a user document is inserted only after a lookup by its email
    found nothing, and no update writes the email. *)

Lemma unique_emails_empty : unique_emails empty_db.
Proof. intros e. unfold count_documents. simpl. lia. Qed.

Lemma unique_emails_update (db : DB) (p : User.t -> bool)
    (f : User.t -> User.t) :
  (forall e u, User.has_email e (f u) = User.has_email e u) ->
  unique_emails db ->
  unique_emails (with_users (update_one p f (users db)) db).
Proof.
  intros Hf Hdb e. simpl. rewrite count_update_one by apply Hf. apply Hdb.
Qed.

Lemma unique_emails_insert (db : DB) (new_id : string) (created : datetime.t)
    (name mail : string) (premium : bool)
    (activated trial : option datetime.t) :
  find_one (User.has_email mail) (users db) = None ->
  unique_emails db ->
  unique_emails
    (with_users
       (insert_one
          (User.create new_id created name mail premium activated trial)
          (users db)) db).
Proof.
  intros Hnone Hdb e. simpl. rewrite count_insert_one, has_email_create.
  destruct (decide (mail = e)) as [<-|Hne].
  - rewrite (count_no_match _ _ Hnone), bool_decide_eq_true_2 by done. lia.
  - rewrite bool_decide_eq_false_2 by done. specialize (Hdb e). lia.
Qed.

Lemma unique_emails_with_premium_codes (db : DB) (cs : list PremiumCode.t) :
  unique_emails db -> unique_emails (with_premium_codes cs db).
Proof. intros Hdb e. apply Hdb. Qed.

Lemma register_user_unique_emails (db : DB) (full_name email new_id : string)
    (created : datetime.t) :
  unique_emails db ->
  unique_emails (register_user db full_name email new_id created).1.
Proof.
  intros Hdb. unfold register_user.
  destruct (find_one (User.has_email email) (users db)) eqn:Hu; simpl;
    [done|]. by apply unique_emails_insert.
Qed.

Section UniqueEmails.
Context `{StrMethods}.

Lemma activate_premium_auto_unique_emails (db : DB) (user_data : UserData.t)
    (now : datetime.t) (new_id : string) (created : datetime.t) :
  unique_emails db ->
  unique_emails (activate_premium_auto db user_data now new_id created).1.
Proof.
  intros Hdb. unfold activate_premium_auto.
  destruct (negb _ || negb _); [done|].
  destruct (find_one _ (users db)) eqn:Hu.
  - match goal with |- context [find_one ?p (users ?d)] =>
      destruct (find_one p (users d)) end; simpl;
      by apply unique_emails_update.
  - match goal with |- context [find_one ?p (users ?d)] =>
      destruct (find_one p (users d)) end; simpl;
      by apply unique_emails_insert.
Qed.

Lemma generate_and_activate_code_unique_emails (db : DB)
    (user_data : UserData.t) (new_id : string) (created : datetime.t)
    (hex : string) (t_created t_used now : datetime.t) :
  unique_emails db ->
  unique_emails
    (generate_and_activate_code db user_data new_id created hex
       t_created t_used now).1.
Proof.
  intros Hdb. unfold generate_and_activate_code.
  destruct (negb (truthy _)); [done|].
  destruct (find_one _ (users db)) eqn:Hu.
  - match goal with |- context [find_one ?p (users ?d)] =>
      destruct (find_one p (users d)) end; simpl;
      apply (unique_emails_update (with_premium_codes _ db)); try done;
      by apply unique_emails_with_premium_codes.
  - destruct (negb (truthy _)); [done|].
    match goal with |- context [find_one ?p (users ?d)] =>
      destruct (find_one p (users d)) end; simpl;
      apply (unique_emails_update (with_premium_codes _ (with_users _ db)));
      try done;
      apply unique_emails_with_premium_codes;
      by apply unique_emails_insert.
Qed.

Lemma activate_premium_code_unique_emails (db : DB) (user_id : string)
    (code_data : option string) (now : datetime.t) :
  unique_emails db ->
  unique_emails (activate_premium_code db user_id code_data now).1.
Proof.
  intros Hdb. unfold activate_premium_code.
  destruct (negb (truthy _)); [done|].
  destruct (find_one _ (users db)); [|done].
  destruct (find_one _ (premium_codes db)) as [pc|]; [|done].
  destruct (PremiumCode.used pc); [done|]. simpl.
  apply (unique_emails_with_premium_codes (with_users _ db)).
  by apply unique_emails_update.
Qed.

End UniqueEmails.

Lemma check_premium_status_unique_emails (db : DB) (user_id : string)
    (now : datetime.t) :
  unique_emails db -> unique_emails (check_premium_status db user_id now).1.
Proof.
  intros Hdb. unfold check_premium_status.
  destruct (find_one _ (users db)) as [u|]; [|done].
  destruct (User.is_premium u); [|done].
  destruct (effective_expiry u) as [e|]; [|done].
  destruct (e <? now); [|done]. simpl. by apply unique_emails_update.
Qed.

Lemma activate_subscription_unique_emails (db : DB) (user_id : string)
    (now : datetime.t) :
  unique_emails db -> unique_emails (activate_subscription db user_id now).1.
Proof. intros Hdb. simpl. by apply unique_emails_update. Qed.

(** ** Payment webhook *)

(** C7.  Take a payment event that the webhook processes up to an approved
    payment that names an email.  If a user document with that email
    exists, it is rewritten with [is_premium] set and [trial_ends_at] seven
    days (not thirty) after the clock, and no document is added.  If none
    exists, the handler logs a warning and returns, and the collection of
    users is exactly as before. *)
Theorem mercadopago_webhook_approved (db : DB) (request : WebhookRequest)
    (access_token : option string) (sdk_get : string -> option PaymentData)
    (t_log t_act t_exp : datetime.t) (payment_id user_email : string)
    (payment_data : PaymentData) :
  is_payment_event request = true ->
  data_id request = Some payment_id ->
  truthy payment_id = true ->
  truthy_opt access_token = true ->
  sdk_get payment_id = Some payment_data ->
  pd_status payment_data = Some "approved" ->
  or_else (pd_metadata_user_email payment_data)
    (pd_external_reference payment_data) = Some user_email ->
  truthy user_email = true ->
  let out :=
    mercadopago_webhook db request access_token sdk_get t_log t_act t_exp in
  let db' := out.1.1 in
  (exists user user',
     find_one (User.has_email user_email) (users db) = Some user /\
     find_one (User.has_email user_email) (users db') = Some user' /\
     user' = User.set_premium_payment t_act
               (t_exp + datetime.timedelta_days 7) payment_id
               (pd_transaction_amount payment_data) user /\
     User.is_premium user' = true /\
     User.premium_activated_at user' = Some t_act /\
     User.trial_ends_at user' = Some (t_exp + 7 * datetime.us_per_day) /\
     User.trial_ends_at user' <> Some (t_exp + 30 * datetime.us_per_day) /\
     length (users db') = length (users db) /\
     wr_message out.1.2 = "Pagamento aprovado e usuário ativado")
  \/
  (find_one (User.has_email user_email) (users db) = None /\
   users db' = users db /\
   out.2 = [LogWebhookReceived request; LogUserNotFound user_email] /\
   levelname (LogUserNotFound user_email) = WARNING /\
   out.1.2 = {| wr_message := "Usuário não encontrado"; wr_error := false |}).
Proof.
  intros Hevent Hid Hpid Htoken Hsdk Hstatus Hmail Htruthy out db'.
  subst db' out. unfold mercadopago_webhook.
  rewrite Hevent, Hid, Hpid, Htoken, Hsdk, Hstatus, Hmail, Htruthy.
  rewrite bool_decide_eq_true_2 by done. simpl.
  destruct (find_one (User.has_email user_email) (users db)) as [user|] eqn:Hu.
  - left. exists user. eexists. split; [done|]. simpl. split.
    { apply find_one_update_one; [done|]. apply (find_one_matches _ _ _ Hu). }
    split; [done|]. split; [done|]. split; [done|]. split; [done|].
    split.
    { simpl. unfold datetime.timedelta_days, datetime.us_per_day.
      intros [= Heq]. lia. }
    by rewrite length_update_one.
  - right. done.
Qed.

Lemma mercadopago_webhook_approved_witness :
  User.trial_ends_at <$>
    find_one (User.has_email "u3@x.com")
      (users (mercadopago_webhook sample_db sample_request (Some "TOKEN")
                (sample_sdk "u3@x.com") sample_now (sample_now + 1)
                (sample_now + 2)).1.1) =
  Some (Some (sample_now + 2 + 7 * datetime.us_per_day)).
Proof.
  destruct (mercadopago_webhook_approved sample_db sample_request
              (Some "TOKEN") (sample_sdk "u3@x.com") sample_now
              (sample_now + 1) (sample_now + 2) "123456" "u3@x.com"
              (sample_payment "u3@x.com"))
    as [(u & u' & _ & Hfind & _ & _ & _ & Htrial & _)|(Hnone & _)].
  - reflexivity.
  - reflexivity.
  - reflexivity.
  - reflexivity.
  - reflexivity.
  - reflexivity.
  - reflexivity.
  - reflexivity.
  - rewrite Hfind. simpl. by rewrite Htrial.
  - exfalso. revert Hnone. vm_compute. discriminate.
Defined.

(** An approved payment for an email that no user has: the store gains the
    notification and nothing else, and the log ends with the warning. *)
Example mercadopago_webhook_unknown_email :
  mercadopago_webhook sample_db sample_request (Some "TOKEN")
    (sample_sdk "nobody@x.com") sample_now (sample_now + 1) (sample_now + 2) =
  (with_payment_notifications
     [ {| n_type := Some "payment"; n_action := Some "payment.updated";
          n_data := sample_request; n_created_at := sample_now |} ]
     sample_db,
   {| wr_message := "Usuário não encontrado"; wr_error := false |},
   [LogWebhookReceived sample_request; LogUserNotFound "nobody@x.com"]).
Proof. reflexivity. Qed.

Lemma mercadopago_webhook_unique_emails (db : DB) (request : WebhookRequest)
    (access_token : option string) (sdk_get : string -> option PaymentData)
    (t_log t_act t_exp : datetime.t) :
  unique_emails db ->
  unique_emails
    (mercadopago_webhook db request access_token sdk_get t_log t_act
       t_exp).1.1.
Proof.
  intros Hdb. unfold mercadopago_webhook.
  repeat match goal with
         | |- context [if ?b then _ else _] => destruct b
         | |- context [match ?o with Some _ => _ | None => _ end] =>
             destruct o
         end; simpl; try done.
  by apply (unique_emails_update (with_payment_notifications _ db)).
Qed.

(** ** Subscription *)

(** C10.  When no user document has the given id, [activate_subscription]
    returns the store as it was, nothing created and nothing modified, and
    still answers that the subscription was activated. *)
Theorem activate_subscription_unknown_user (db : DB) (user_id : string)
    (now : datetime.t) :
  find_one (User.has_id user_id) (users db) = None ->
  activate_subscription db user_id now =
  (db, Ok "Assinatura ativada com sucesso").
Proof.
  intros Hnone. unfold activate_subscription.
  by rewrite (update_one_no_match _ _ _ Hnone), with_users_same.
Qed.

Lemma activate_subscription_unknown_user_witness :
  activate_subscription sample_db "nobody" sample_now =
  (sample_db, Ok "Assinatura ativada com sucesso").
Proof.
  apply (activate_subscription_unknown_user sample_db "nobody" sample_now).
  reflexivity.
Defined.

(** For a user that exists the same request sets the flag. *)
Lemma activate_subscription_known_user (db : DB) (user_id : string)
    (now : datetime.t) (user : User.t) :
  find_one (User.has_id user_id) (users db) = Some user ->
  find_one (User.has_id user_id)
    (users (activate_subscription db user_id now).1) =
  Some (User.set_subscriber now user).
Proof.
  intros Hu. simpl. apply find_one_update_one; [done|].
  apply (find_one_matches _ _ _ Hu).
Qed.

(** ** Daily entries *)

Lemma Forall_update_one {A : Type} (P : A -> Prop) (p : A -> bool)
    (f : A -> A) (c : list A) :
  (forall x, P x -> p x = true -> P (f x)) ->
  Forall P c -> Forall P (update_one p f c).
Proof.
  intros Hf. induction 1 as [|y c Hy Hc IH]; simpl; [done|].
  destruct (p y) eqn:Hp; constructor; auto.
Qed.

(** C8.  On an entry that exists and whose two product lists have the same
    length, [analyze_product_in_entry] leaves them with the same length:
    when the analysis succeeds the stored entry has exactly the picture
    added at the end of [products_photos] and exactly the text added at the
    end of [products_analysis]; when it fails nothing is stored.  And an
    entry that [create_daily_entry] creates has both lists empty. *)
Theorem analyze_product_in_entry_balanced (db : DB) (entry_id : string)
    (image_base64 : string) (analysis : option string) (now : datetime.t)
    (entry : DailyEntry.t) :
  find_one (DailyEntry.has_id entry_id) (daily_entries db) = Some entry ->
  length (DailyEntry.products_photos entry) =
    length (DailyEntry.products_analysis entry) ->
  let out := analyze_product_in_entry db entry_id image_base64 analysis now in
  (exists entry',
     find_one (DailyEntry.has_id entry_id) (daily_entries out.1) =
       Some entry' /\
     length (DailyEntry.products_photos entry') =
       length (DailyEntry.products_analysis entry') /\
     match analysis with
     | Some text =>
         out.2 = Ok text /\
         DailyEntry.products_photos entry' =
           DailyEntry.products_photos entry ++ [image_base64] /\
         DailyEntry.products_analysis entry' =
           DailyEntry.products_analysis entry ++ [text]
     | None => out = (db, internal_error) /\ entry' = entry
     end) /\
  (forall (uid : string) (d : option datetime.t) (clock : datetime.t)
          (new_id : string) (created updated : datetime.t),
     let date_start := datetime.replace_midnight (default clock d) in
     match find_one
             (DailyEntry.of_user_on uid date_start
                (date_start + datetime.timedelta_days 1))
             (daily_entries db) with
     | Some existing =>
         create_daily_entry db uid d clock new_id created updated =
         (db, Ok existing)
     | None =>
         exists e,
           create_daily_entry db uid d clock new_id created updated =
           (with_daily_entries (insert_one e (daily_entries db)) db, Ok e) /\
           DailyEntry.products_photos e = [] /\
           DailyEntry.products_analysis e = []
     end).
Proof.
  intros He Hlen out. subst out. split.
  - unfold analyze_product_in_entry. rewrite He.
    destruct analysis as [text|]; simpl.
    + eexists. split.
      { apply find_one_update_one; [done|].
        apply (find_one_matches _ _ _ He). }
      simpl. rewrite !length_app, Hlen. done.
    + exists entry. done.
  - intros uid d clock new_id created updated date_start.
    subst date_start. unfold create_daily_entry.
    destruct d as [d0|]; unfold default; cbn [from_option]; unfold id;
      cbv zeta;
      (destruct (find_one (DailyEntry.of_user_on _ _ _) (daily_entries db));
       [done|]);
      eexists; split; done.
Qed.

Lemma analyze_product_in_entry_balanced_witness :
  DailyEntry.products_photos <$>
    find_one (DailyEntry.has_id "e1")
      (daily_entries
         (analyze_product_in_entry sample_db "e1" "photo1"
            (Some "analysis1") (sample_now + 7)).1) =
  Some ["photo0"; "photo1"] /\
  DailyEntry.products_analysis <$>
    find_one (DailyEntry.has_id "e1")
      (daily_entries
         (analyze_product_in_entry sample_db "e1" "photo1"
            (Some "analysis1") (sample_now + 7)).1) =
  Some ["analysis0"; "analysis1"].
Proof.
  destruct (analyze_product_in_entry_balanced sample_db "e1" "photo1"
              (Some "analysis1") (sample_now + 7) entry_today)
    as [(e' & Hfind & _ & _ & Hphotos & Htexts) _].
  - reflexivity.
  - reflexivity.
  - rewrite Hfind. simpl. by rewrite Hphotos, Htexts.
Defined.

(** The two handlers keep every entry of the store balanced. *)
Lemma analyze_product_in_entry_all_balanced (db : DB) (entry_id : string)
    (image_base64 : string) (analysis : option string) (now : datetime.t) :
  Forall balanced (daily_entries db) ->
  Forall balanced
    (daily_entries
       (analyze_product_in_entry db entry_id image_base64 analysis now).1).
Proof.
  intros Hdb. unfold analyze_product_in_entry.
  destruct (find_one _ (daily_entries db)) as [entry|] eqn:He; [|done].
  destruct analysis as [text|]; [|done]. simpl.
  assert (balanced entry) as Hentry.
  { unfold find_one in He. apply find_some in He as [Hin _].
    rewrite Forall_forall in Hdb. apply Hdb. by apply list_elem_of_In. }
  apply Forall_update_one; [|done].
  intros x _ _. unfold balanced in *. simpl. rewrite !length_app, Hentry.
  done.
Qed.

Lemma create_daily_entry_all_balanced (db : DB) (uid : string)
    (d : option datetime.t) (clock : datetime.t) (new_id : string)
    (created updated : datetime.t) :
  Forall balanced (daily_entries db) ->
  Forall balanced
    (daily_entries
       (create_daily_entry db uid d clock new_id created updated).1).
Proof.
  intros Hdb. unfold create_daily_entry.
  destruct (find_one _ (daily_entries db)); [done|]. simpl.
  unfold insert_one. apply Forall_app. split; [done|].
  by repeat constructor.
Qed.

(** * Further properties *)

(** ** Quiz scorer: the other branches *)

Section QuizBranches.
Context `{StrMethods}.

Lemma scores_eq (s t : Scores) :
  oily_score s = oily_score t -> dry_score s = dry_score t ->
  acne_score s = acne_score t -> sensitive_score s = sensitive_score t ->
  s = t.
Proof. destruct s, t. simpl. by intros -> -> -> ->. Qed.

(** An answer without "sim" leaves the four counters as they are. *)
Lemma score_answer_not_affirmative (s : Scores) (x : QuizAnswer) :
  str_in "sim" (lower (answer x)) = false -> score_answer s x = s.
Proof.
  intros Hno. unfold score_answer. rewrite Hno, !andb_false_r.
  destruct (str_in "ardência" (lower (question x)) ||
            str_in "sensível" (lower (question x))); by destruct s.
Qed.

(** The dry counter only moves in steps of two. *)
Lemma dry_score_even (answers : list QuizAnswer) (s : Scores) :
  exists n : nat,
    dry_score (fold_left score_answer answers s) = dry_score s + 2 * Z.of_nat n.
Proof.
  revert s. induction answers as [|x answers IH]; intros s; simpl.
  - exists 0%nat. lia.
  - destruct (IH (score_answer s x)) as [n Hn]. rewrite Hn.
    unfold score_answer. simpl.
    destruct (str_in "ressecamento" (lower (question x)) &&
              str_in "sim" (lower (answer x))).
    + exists (S n). lia.
    + exists n. lia.
Qed.

(** X1.  The branch "Mista" of [analyze_quiz] is never taken: it asks for a dry
    counter of at least 1 after the branch "Seca" has failed on a dry
    counter below 2, and the dry counter is even. *)
Theorem analyze_quiz_never_mista (answers : list QuizAnswer) :
  skin_type (analyze_quiz answers) <> "Mista".
Proof.
  unfold analyze_quiz.
  destruct (dry_score_even answers
              {| oily_score := 0; dry_score := 0; acne_score := 0;
                 sensitive_score := 0 |}) as [n Hn].
  fold (scores answers) in Hn. simpl in Hn.
  destruct (2 <=? acne_score (scores answers)); [done|].
  destruct (2 <=? sensitive_score (scores answers)); [done|].
  destruct (3 <=? oily_score (scores answers)); [done|].
  destruct (Z.leb_spec 2 (dry_score (scores answers))); [done|].
  destruct (1 <=? oily_score (scores answers)); [|done].
  destruct (Z.leb_spec 1 (dry_score (scores answers))); [lia|done].
Qed.

(** X3.  When no answer contains "sim", whatever the questions are, the result
    is the skin type "Normal"; the empty submission is one such case. *)
Theorem analyze_quiz_no_affirmative (answers : list QuizAnswer) :
  Forall (fun x => str_in "sim" (lower (answer x)) = false) answers ->
  skin_type (analyze_quiz answers) = "Normal".
Proof.
  intros Hno.
  assert (forall s, fold_left score_answer answers s = s) as Hfold.
  { induction Hno as [|x answers Hx _ IH]; intros s; simpl; [done|].
    by rewrite (score_answer_not_affirmative s x Hx). }
  unfold analyze_quiz, scores. by rewrite Hfold.
Qed.

Lemma score_answer_comm (s : Scores) (x y : QuizAnswer) :
  score_answer (score_answer s x) y = score_answer (score_answer s y) x.
Proof.
  apply scores_eq; unfold score_answer; simpl.
  - destruct (str_in "brilha" (lower (question x)) && _),
             (str_in "oleosidade" (lower (question x)) && _),
             (str_in "brilha" (lower (question y)) && _),
             (str_in "oleosidade" (lower (question y)) && _); lia.
  - destruct (str_in "ressecamento" (lower (question x)) && _),
             (str_in "ressecamento" (lower (question y)) && _); lia.
  - destruct (str_in "acne" (lower (question x)) && _),
             (str_in "acne" (lower (question y)) && _); lia.
  - destruct (str_in "ardência" (lower (question x)) || _),
             (str_in "sim" (lower (answer x))),
             (str_in "manchas" (lower (question x)) && _),
             (str_in "ardência" (lower (question y)) || _),
             (str_in "sim" (lower (answer y))),
             (str_in "manchas" (lower (question y)) && _); lia.
Qed.

(** X2.  The result of the quiz does not depend on the order of the answers. *)
Theorem analyze_quiz_permutation (answers answers' : list QuizAnswer) :
  Permutation answers answers' ->
  analyze_quiz answers = analyze_quiz answers'.
Proof.
  intros Hperm.
  assert (forall s, fold_left score_answer answers s =
                    fold_left score_answer answers' s) as Hfold.
  { induction Hperm as [|x l l' _ IH|x y l|l l' l'' _ IH1 _ IH2];
      intros s; simpl.
    - done.
    - apply IH.
    - by rewrite score_answer_comm.
    - by rewrite IH1, IH2. }
  unfold analyze_quiz, scores. by rewrite Hfold.
Qed.

End QuizBranches.

Lemma analyze_quiz_no_affirmative_witness :
  skin_type
    (@analyze_quiz ascii_methods
       [ {| question := "Sua pele brilha muito?"; answer := "Não" |};
         {| question := "Você tem acne?"; answer := "nunca" |} ]) = "Normal".
Proof.
  apply (@analyze_quiz_no_affirmative ascii_methods).
  repeat constructor.
Defined.

Lemma analyze_quiz_permutation_witness :
  @analyze_quiz ascii_methods quiz_two_acne =
  @analyze_quiz ascii_methods (rev quiz_two_acne).
Proof.
  apply (@analyze_quiz_permutation ascii_methods).
  apply Permutation_rev.
Defined.

(** ** Facial analysis *)

(** *** Splitting a text *)

Lemma split_on_not_nil (sep : ascii) (s : string) : split_on sep s <> [].
Proof.
  induction s as [|c s IH]; simpl; [done|].
  destruct (Ascii.eqb c sep); [done|]. by destruct (split_on sep s).
Qed.

Lemma has_char_cons (c a : ascii) (s : string) :
  has_char c (String a s) = Ascii.eqb c a || has_char c s.
Proof.
  unfold has_char.
  change (str_in (String c "") (String a s))
    with (String.prefix (String c "") (String a s) || str_in (String c "") s).
  f_equal. simpl. destruct (ascii_dec c a) as [->|Hne].
  - rewrite Ascii.eqb_refl. by destruct s.
  - by destruct (Ascii.eqb_spec c a).
Qed.

Lemma has_char_app (c : ascii) (s t : string) :
  has_char c (s +:+ t) = has_char c s || has_char c t.
Proof.
  induction s as [|a s IH].
  - simpl. unfold has_char at 2. simpl. by destruct (has_char c t).
  - change (String a s +:+ t) with (String a (s +:+ t)).
    rewrite !has_char_cons, IH. by rewrite orb_assoc.
Qed.

(** Joining the pieces of a split with the separator gives the text back. *)
Lemma join_with_split_on (sep : ascii) (s : string) :
  join_with sep (split_on sep s) = s.
Proof.
  induction s as [|c s IH]; simpl; [done|].
  pose proof (split_on_not_nil sep s) as Hne.
  destruct (Ascii.eqb_spec c sep) as [->|Hc].
  - destruct (split_on sep s) as [|p l]; [done|].
    change (join_with sep ("" :: p :: l))
      with ("" +:+ String sep (join_with sep (p :: l))).
    by rewrite IH.
  - destruct (split_on sep s) as [|p l]; [done|].
    rewrite <- IH. by destruct l.
Qed.

(** No piece of a split contains the separator. *)
Lemma split_on_pieces (sep : ascii) (s : string) :
  Forall (fun piece => has_char sep piece = false) (split_on sep s).
Proof.
  induction s as [|c s IH]; simpl.
  - by repeat constructor.
  - destruct (Ascii.eqb_spec c sep) as [->|Hc].
    + by constructor.
    + pose proof (split_on_not_nil sep s) as Hne.
      destruct (split_on sep s) as [|p l]; [done|].
      inversion IH as [|? ? Hp Hl]; subst. constructor; [|done].
      rewrite has_char_cons, Hp, orb_false_r.
      destruct (Ascii.eqb_spec sep c); congruence.
Qed.

Lemma append_assoc (s t u : string) : (s +:+ t) +:+ u = s +:+ (t +:+ u).
Proof.
  induction s as [|c s IH]; [done|].
  change (String c ((s +:+ t) +:+ u) = String c (s +:+ (t +:+ u))).
  by rewrite IH.
Qed.

Lemma join_with_snoc (sep : ascii) (l : list string) (x : string) :
  join_with sep (l ++ [x]) =
  match l with
  | [] => x
  | _ :: _ => (join_with sep l +:+ String sep EmptyString) +:+ x
  end.
Proof.
  induction l as [|p l IH]; [done|].
  destruct l as [|q l].
  - simpl. by rewrite append_assoc.
  - change (join_with sep ((p :: q :: l) ++ [x]))
      with (p +:+ String sep (join_with sep ((q :: l) ++ [x]))).
    rewrite IH.
    change (join_with sep (p :: q :: l))
      with (p +:+ String sep (join_with sep (q :: l))).
    by rewrite !append_assoc.
Qed.

(** X4.  The text that [line.split(":")[-1]] takes from a line: the line ends
    with it, it has no colon, and what comes before it in the line is empty
    or ends with a colon.  So of "TIPO DE PELE: Oleosa: com brilho" only
    " com brilho" is kept. *)
Theorem after_last_colon_spec (line : string) :
  has_char ":" (after_last_colon line) = false /\
  exists before,
    line = before +:+ after_last_colon line /\
    (before = "" \/ exists b, before = b +:+ ":").
Proof.
  unfold after_last_colon.
  pose proof (split_on_not_nil ":" line) as Hne.
  pose proof (split_on_pieces ":" line) as Hpieces.
  pose proof (join_with_split_on ":" line) as Hjoin.
  destruct (exists_last Hne) as (l & x & Hl).
  rewrite Hl in *. rewrite last_last.
  apply Forall_app in Hpieces as [_ Hx].
  apply Forall_inv in Hx. split; [done|].
  rewrite join_with_snoc in Hjoin. destruct l as [|p l].
  - exists "". split; [done|]. by left.
  - exists (join_with ":" (p :: l) +:+ ":"). split; [done|]. right. eauto.
Qed.

Section FacialAnalysisFacts.
Context `{StrMethods}.

Lemma parse_line_invariant (text line : string) (r : AIAnalysis.t) :
  line ∈ split_on "010" text ->
  parse_invariant text r -> parse_invariant text (parse_line r line).
Proof.
  intros Hline (H1 & H2 & H3 & H4 & H5 & H6 & H7 & H8 & H9).
  unfold parse_line.
  repeat match goal with
         | |- context [if str_in ?k (upper line) then _ else _] =>
             destruct (str_in k (upper line)) eqn:?
         end;
    unfold parse_invariant; simpl; repeat split; try done;
    right; exists line; done.
Qed.

Lemma parse_analysis_invariant (text : string) :
  parse_invariant text (parse_analysis text).
Proof.
  unfold parse_analysis.
  assert (forall l r,
            (forall line, line ∈ l -> line ∈ split_on "010" text) ->
            parse_invariant text r ->
            parse_invariant text (fold_left parse_line l r)) as Hfold.
  { induction l as [|line l IH]; intros r Hl Hr; simpl; [done|].
    apply IH.
    - intros line' Hin. apply Hl. by right.
    - apply parse_line_invariant; [|done]. apply Hl. by left. }
  apply Hfold; [done|].
  unfold parse_invariant, parsed_from. simpl. repeat split; by left.
Qed.

(** X5.  Every field that [analyze_face_with_ai] reads from the answer of the
    model is either its fixed initial value or the stripped text after the
    last colon of a line of the answer that contains the keyword of the
    field; the recommendations are the whole answer. *)
Theorem parse_analysis_fields (text : string) :
  parsed_from text "Mista" "TIPO DE PELE"
    (AIAnalysis.skin_type (parse_analysis text)) /\
  parsed_from text "Moderada" "OLEOSIDADE"
    (AIAnalysis.oiliness (parse_analysis text)) /\
  parsed_from text "Médios" "POROS"
    (AIAnalysis.pores (parse_analysis text)) /\
  parsed_from text "Lisa" "TEXTURA"
    (AIAnalysis.texture (parse_analysis text)) /\
  parsed_from text "Leves" "LINHAS FINAS"
    (AIAnalysis.fine_lines (parse_analysis text)) /\
  parsed_from text "Leves" "MANCHAS"
    (AIAnalysis.spots (parse_analysis text)) /\
  parsed_from text "Ausente" "ACNE"
    (AIAnalysis.acne (parse_analysis text)) /\
  parsed_from text "Baixa" "SENSIBILIDADE"
    (AIAnalysis.sensitivity (parse_analysis text)) /\
  AIAnalysis.recommendations (parse_analysis text) = text.
Proof.
  change (parse_invariant text (parse_analysis text)).
  unfold parse_analysis.
  assert (forall l r,
            (forall line, line ∈ l -> line ∈ split_on "010" text) ->
            parse_invariant text r ->
            parse_invariant text (fold_left parse_line l r)) as Hfold.
  { induction l as [|line l IH]; intros r Hl Hr; simpl; [done|].
    apply IH.
    - intros line' Hin. apply Hl. by right.
    - apply parse_line_invariant; [|done]. apply Hl. by left. }
  apply Hfold; [done|].
  unfold parse_invariant, parsed_from. simpl. repeat split; by left.
Qed.

(** X6.  When no line of the answer contains any of the eight keywords, the
    dictionary is the initial one. *)
Theorem parse_analysis_no_keyword (text : string) :
  Forall
    (fun line =>
       Forall (fun keyword => str_in keyword (upper line) = false)
         ["TIPO DE PELE"; "OLEOSIDADE"; "POROS"; "TEXTURA"; "LINHAS FINAS";
          "MANCHAS"; "ACNE"; "SENSIBILIDADE"])
    (split_on "010" text) ->
  parse_analysis text = AIAnalysis.initial text.
Proof.
  unfold parse_analysis. generalize (AIAnalysis.initial text).
  induction 1 as [|line l Hline _ IH]; simpl; [done|].
  rewrite <- IH at 2. f_equal. unfold parse_line.
  repeat match goal with
         | Hk : Forall _ (_ :: _) |- _ =>
             let H1 := fresh in let H2 := fresh in
             inversion Hk as [|? ? H1 H2]; subst; clear Hk; rewrite H1
         end.
  done.
Qed.

End FacialAnalysisFacts.

Section RecommendationFacts.
Context `{StrMethods}.

Lemma recommend_belux_products_not_nil (analysis : AIAnalysis.t) :
  Recommendation.products (recommend_belux_products analysis) <> [].
Proof.
  unfold recommend_belux_products.
  destruct (str_in "oleosa" _ || str_in "acneica" _ || str_in "alta" _);
    destruct (str_in "seca" _ || str_in "irregular" _ || str_in "áspera" _);
    destruct (str_in "manchas" _ || str_in "moderadas" _ ||
              str_in "intensas" _); done.
Qed.

(** X7.  [recommend_belux_products] always recommends something: the list of
    products is never empty, has no product twice, holds only the four
    products of the catalogue, and comes with a non-empty reasoning. *)
Theorem recommend_belux_products_sound (analysis : AIAnalysis.t) :
  let r := recommend_belux_products analysis in
  Recommendation.products r <> [] /\
  NoDup (Recommendation.products r) /\
  Recommendation.products r ⊆
    ["Sérum Oil Control Belux"; "Sérum Hidratante Belux";
     "Sérum Glow Face Belux"; "Nanovitaminacida Belux"] /\
  Recommendation.reasoning r <> "".
Proof.
  unfold recommend_belux_products.
  destruct (str_in "oleosa" _ || str_in "acneica" _ || str_in "alta" _);
    destruct (str_in "seca" _ || str_in "irregular" _ || str_in "áspera" _);
    destruct (str_in "manchas" _ || str_in "moderadas" _ ||
              str_in "intensas" _);
    cbn -[String.append]; (split; [done|]);
    (split; [by apply (bool_decide_unpack _); vm_compute|]);
    (split; [by apply (bool_decide_unpack _); vm_compute|]);
    by vm_compute.
Qed.

(** The recommendation is decided by the skin type, the oiliness, the
    texture and the spots alone: the acne finding, which the function reads,
    and the pores, the fine lines and the sensitivity have no say. *)
Theorem recommend_belux_products_reads (a b : AIAnalysis.t) :
  AIAnalysis.skin_type a = AIAnalysis.skin_type b ->
  AIAnalysis.oiliness a = AIAnalysis.oiliness b ->
  AIAnalysis.texture a = AIAnalysis.texture b ->
  AIAnalysis.spots a = AIAnalysis.spots b ->
  recommend_belux_products a = recommend_belux_products b.
Proof.
  intros Hskin Hoil Htexture Hspots. unfold recommend_belux_products.
  by rewrite Hskin, Hoil, Htexture, Hspots.
Qed.

End RecommendationFacts.

Lemma recommend_belux_products_reads_witness :
  @recommend_belux_products ascii_methods
    (AIAnalysis.set_acne "Severa" (AIAnalysis.initial "texto")) =
  @recommend_belux_products ascii_methods (AIAnalysis.initial "texto").
Proof.
  apply (@recommend_belux_products_reads ascii_methods); reflexivity.
Defined.

Lemma find_to_list_insert_one {A : Type} (p : A -> bool) (n : nat)
    (x : A) (c : list A) :
  p x = true ->
  find_to_list p n (insert_one x c) =
  if decide (length (find_to_list p n c) < n)%nat
  then find_to_list p n c ++ [x] else find_to_list p n c.
Proof.
  intros Hx. unfold find_to_list, insert_one.
  rewrite List.filter_app. simpl. rewrite Hx.
  destruct (decide (length (List.filter p c) < n)%nat) as [Hlt|Hge].
  - rewrite (take_ge (List.filter p c)) by lia.
    rewrite decide_True by done. apply take_ge. rewrite length_app. simpl. lia.
  - rewrite take_app_le by lia.
    rewrite decide_False; [done|]. rewrite length_take. lia.
Qed.

Section FacialAnalysisHandlerFacts.
Context `{StrMethods}.

(** X8.  [create_facial_analysis] serves only users that exist and have the
    premium or the subscriber flag set, and only when the model answers;
    whenever it raises, no collection has changed. *)
Theorem create_facial_analysis_guard (db : DB) (adb : AnalysisDB)
    (user_id image_base64 : string) (response : option string)
    (analysis_id : string) (analysis_created : datetime.t)
    (recommendation_id : string) (recommendation_created : datetime.t) :
  let out :=
    create_facial_analysis db adb user_id image_base64 response analysis_id
      analysis_created recommendation_id recommendation_created in
  match out.2 with
  | Ok _ =>
      exists user text,
        find_one (User.has_id user_id) (users db) = Some user /\
        (User.is_premium user = true \/ User.is_subscriber user = true) /\
        response = Some text
  | HTTPException status_code _ =>
      out.1 = adb /\
      (status_code = 404 <->
       find_one (User.has_id user_id) (users db) = None) /\
      (status_code = 403 <->
       exists user,
         find_one (User.has_id user_id) (users db) = Some user /\
         User.is_premium user = false /\ User.is_subscriber user = false)
  end.
Proof.
  unfold create_facial_analysis.
  destruct (find_one (User.has_id user_id) (users db)) as [user|]; simpl.
  - assert (forall text : string,
              (User.is_premium user = true \/ User.is_subscriber user = true) ->
              exists (u : User.t) (t : string),
                Some user = Some u /\
                (User.is_premium u = true \/ User.is_subscriber u = true) /\
                Some text = Some t) as Hok by eauto.
    assert (User.is_premium user = true \/ User.is_subscriber user = true ->
            (500 = 403 <->
             exists u, Some user = Some u /\ User.is_premium u = false /\
                       User.is_subscriber u = false)) as Hraise.
    { intros Hent. split; [done|]. intros (u & [= <-] & Hp & Hs).
      destruct Hent; congruence. }
    destruct (User.is_premium user) eqn:Hp,
             (User.is_subscriber user) eqn:Hs; simpl.
    + destruct response; simpl; [by apply Hok; left|].
      split; [done|]. split; [done|]. by apply Hraise; left.
    + destruct response; simpl; [by apply Hok; left|].
      split; [done|]. split; [done|]. by apply Hraise; left.
    + destruct response; simpl; [by apply Hok; right|].
      split; [done|]. split; [done|]. by apply Hraise; right.
    + split; [done|]. split; [done|]. split; [|done]. intros _.
      by exists user.
  - split; [done|]. split; [done|]. split; [done|].
    by intros (? & ? & _).
Qed.

(** X9.  When the user is entitled and the model answers, exactly one analysis
    and one recommendation are stored, at the end of their collections; the
    recommendation carries the id of the analysis, the analysis keeps the
    whole answer, and at least one product is recommended.  The analysis
    then shows at the end of the analyses of the user, unless the user has
    a hundred of them already: the listing stops at one hundred. *)
Theorem create_facial_analysis_stores (db : DB) (adb : AnalysisDB)
    (user_id image_base64 text : string)
    (analysis_id : string) (analysis_created : datetime.t)
    (recommendation_id : string) (recommendation_created : datetime.t)
    (user : User.t) :
  find_one (User.has_id user_id) (users db) = Some user ->
  User.is_premium user = true \/ User.is_subscriber user = true ->
  let out :=
    create_facial_analysis db adb user_id image_base64 (Some text)
      analysis_id analysis_created recommendation_id
      recommendation_created in
  exists analysis recommendation,
    out.2 = Ok {| FacialAnalysisResponse.analysis := analysis;
                  FacialAnalysisResponse.recommendations := recommendation |} /\
    facial_analyses out.1 = facial_analyses adb ++ [analysis] /\
    product_recommendations out.1 =
      product_recommendations adb ++ [recommendation] /\
    daily_routines out.1 = daily_routines adb /\
    quiz_results out.1 = quiz_results adb /\
    FacialAnalysis.id analysis = analysis_id /\
    FacialAnalysis.user_id analysis = user_id /\
    FacialAnalysis.recommendations analysis = text /\
    ProductRecommendation.analysis_id recommendation = analysis_id /\
    ProductRecommendation.user_id recommendation = user_id /\
    ProductRecommendation.products recommendation <> [] /\
    get_user_analyses out.1 user_id =
      if decide (length (get_user_analyses adb user_id) < 100)%nat
      then get_user_analyses adb user_id ++ [analysis]
      else get_user_analyses adb user_id.
Proof.
  intros Hu Hentitled out. subst out. unfold create_facial_analysis.
  rewrite Hu.
  assert (negb (User.is_premium user) && negb (User.is_subscriber user)
          = false) as ->.
  { destruct Hentitled as [-> | ->]; [done|]. apply andb_false_r. }
  simpl. eexists _, _. split; [reflexivity|]. simpl.
  repeat (split; [done|]).
  split.
  { destruct (parse_analysis_invariant text) as (_&_&_&_&_&_&_&_&Hrec).
    exact Hrec. }
  repeat (split; [done|]).
  split.
  { apply recommend_belux_products_not_nil. }
  unfold get_user_analyses. simpl.
  apply find_to_list_insert_one. simpl. by apply bool_decide_eq_true_2.
Qed.

(** X10.  The gate of [create_facial_analysis] is the flag, not the date: a user
    whose premium has run out is still served as long as [is_premium] is
    set, and is refused with 403 once [check_premium_status] has been asked
    after the expiry, unless the user is a subscriber. *)
Theorem create_facial_analysis_after_expiry (db : DB) (adb : AnalysisDB)
    (user_id image_base64 text : string)
    (analysis_id : string) (analysis_created : datetime.t)
    (recommendation_id : string) (recommendation_created : datetime.t)
    (user : User.t) (expires now : datetime.t) :
  find_one (User.has_id user_id) (users db) = Some user ->
  User.is_premium user = true ->
  User.is_subscriber user = false ->
  effective_expiry user = Some expires ->
  expires < now ->
  (exists r,
     (create_facial_analysis db adb user_id image_base64 (Some text)
        analysis_id analysis_created recommendation_id
        recommendation_created).2 = Ok r) /\
  create_facial_analysis (check_premium_status db user_id now).1 adb
    user_id image_base64 (Some text) analysis_id analysis_created
    recommendation_id recommendation_created =
  (adb, HTTPException 403 "Acesso premium necessário").
Proof.
  intros Hu Hprem Hsub Hexp Hpast. split.
  - unfold create_facial_analysis. rewrite Hu, Hprem. simpl. eauto.
  - unfold check_premium_status. rewrite Hu, Hprem, Hexp.
    destruct (Z.ltb_spec expires now); [|lia]. simpl.
    unfold create_facial_analysis. simpl.
    rewrite (find_one_update_one _ User.set_not_premium _ user Hu)
      by apply (find_one_matches _ _ _ Hu).
    simpl. by rewrite Hsub.
Qed.

End FacialAnalysisHandlerFacts.

Lemma parse_analysis_no_keyword_witness :
  @parse_analysis ascii_methods "Pele bonita hoje" =
  AIAnalysis.initial "Pele bonita hoje".
Proof.
  apply (@parse_analysis_no_keyword ascii_methods).
  repeat constructor.
Defined.

(** An answer in the layout the prompt asks for. *)
Example parse_analysis_sample :
  let r :=
    @parse_analysis ascii_methods
      "1. TIPO DE PELE: Oleosa
2. Oleosidade: Alta: zona T
7. ACNE: Leve" in
  (AIAnalysis.skin_type r, AIAnalysis.oiliness r, AIAnalysis.acne r,
   AIAnalysis.pores r) = ("Oleosa", "zona T", "Leve", "Médios").
Proof. reflexivity. Qed.

Lemma create_facial_analysis_stores_witness :
  get_user_analyses
    (@create_facial_analysis ascii_methods sample_db empty_analysis_db "u5"
       "selfie" (Some "1. TIPO DE PELE: Seca") "a1" sample_now "r1"
       sample_now).1 "u5" =
  [ {| FacialAnalysis.id := "a1"; FacialAnalysis.user_id := "u5";
       FacialAnalysis.image_base64 := "selfie";
       FacialAnalysis.skin_type := "Seca";
       FacialAnalysis.oiliness := "Moderada";
       FacialAnalysis.pores := "Médios"; FacialAnalysis.texture := "Lisa";
       FacialAnalysis.fine_lines := "Leves"; FacialAnalysis.spots := "Leves";
       FacialAnalysis.acne := "Ausente"; FacialAnalysis.sensitivity := "Baixa";
       FacialAnalysis.recommendations := "1. TIPO DE PELE: Seca";
       FacialAnalysis.created_at := sample_now |} ].
Proof.
  destruct (@create_facial_analysis_stores ascii_methods sample_db
              empty_analysis_db "u5" "selfie" "1. TIPO DE PELE: Seca" "a1"
              sample_now "r1" sample_now user_expired)
    as (a & r & Hok & _ & _ & _ & _ & _ & _ & _ & _ & _ & _ & Hlist).
  - reflexivity.
  - by left.
  - rewrite Hlist. simpl. f_equal.
    vm_compute in Hok. by injection Hok as <- _.
Defined.

Lemma create_facial_analysis_after_expiry_witness :
  @create_facial_analysis ascii_methods
    (check_premium_status sample_db "u5" sample_now).1 empty_analysis_db
    "u5" "selfie" (Some "1. TIPO DE PELE: Seca") "a1" sample_now "r1"
    sample_now =
  (empty_analysis_db, HTTPException 403 "Acesso premium necessário").
Proof.
  apply (@create_facial_analysis_after_expiry ascii_methods sample_db
           empty_analysis_db "u5" "selfie" "1. TIPO DE PELE: Seca" "a1"
           sample_now "r1" sample_now user_expired
           (sample_now - datetime.timedelta_days 1) sample_now).
  - reflexivity.
  - reflexivity.
  - reflexivity.
  - reflexivity.
  - vm_compute. reflexivity.
Defined.

(** ** Registration *)

Lemma find_one_insert_one_old {A : Type} (q : A -> bool) (x y : A)
    (c : list A) :
  find_one q c = Some y -> find_one q (insert_one x c) = Some y.
Proof.
  unfold find_one, insert_one.
  induction c as [|z c IH]; simpl; [done|]. by destruct (q z).
Qed.

Lemma has_id_create (new_id : string) (created : datetime.t)
    (name mail : string) (premium : bool)
    (activated trial : option datetime.t) :
  User.has_id new_id
    (User.create new_id created name mail premium activated trial) = true.
Proof. by apply bool_decide_eq_true_2. Qed.

(** X11.  [register_user] is idempotent by email: a second registration with the
    same email, under any name, changes nothing and answers with the user
    document of the first. *)
Theorem register_user_idempotent (db : DB) (full_name full_name' email : string)
    (new_id new_id' : string) (created created' : datetime.t) :
  let first := register_user db full_name email new_id created in
  register_user first.1 full_name' email new_id' created' = first.
Proof.
  unfold register_user.
  destruct (find_one (User.has_email email) (users db)) as [u|] eqn:Hu;
    simpl.
  - by rewrite Hu.
  - rewrite (find_one_insert_one_fresh _ _ _ Hu); [done|].
    rewrite has_email_create. by apply bool_decide_eq_true_2.
Qed.

(** X12.  A new registration gives no access: the user can be read back, has
    neither flag set, is told "no_premium" by [check_premium_status], is
    refused by [create_facial_analysis], and every day the calendar answers
    for is blocked. *)
Theorem register_user_no_access `{StrMethods} (db : DB) (adb : AnalysisDB)
    (full_name email new_id : string) (created now : datetime.t)
    (image_base64 : string) (response : option string)
    (analysis_id : string) (analysis_created : datetime.t)
    (recommendation_id : string) (recommendation_created : datetime.t)
    (i : Z) :
  find_one (User.has_email email) (users db) = None ->
  find_one (User.has_id new_id) (users db) = None ->
  -30 <= i < 30 ->
  let db' := (register_user db full_name email new_id created).1 in
  let user := User.create new_id created full_name email false None None in
  get_user db' new_id = Ok user /\
  (exists r,
     check_premium_status db' new_id now = (db', Ok r) /\
     PremiumStatus.status r = "no_premium" /\
     PremiumStatus.is_premium r = false) /\
  create_facial_analysis db' adb new_id image_base64 response analysis_id
    analysis_created recommendation_id recommendation_created =
  (adb, HTTPException 403 "Acesso premium necessário") /\
  reported_status (get_calendar_status db' new_id now)
    (datetime.strftime_ymd now + i) = Some bloqueado.
Proof.
  intros Hmail Hid Hi db' user.
  assert (find_one (User.has_id new_id) (users db') = Some user) as Hfind.
  { subst db'. unfold register_user. rewrite Hmail. simpl.
    apply find_one_insert_one_fresh; [done|]. apply has_id_create. }
  split; [|split; [|split]].
  - unfold get_user. by rewrite Hfind.
  - unfold check_premium_status. rewrite Hfind. simpl. eauto.
  - unfold create_facial_analysis. by rewrite Hfind.
  - rewrite (reported_status_never_activated _ _ _ _ _ Hfind eq_refl).
    by rewrite decide_True by lia.
Qed.

Lemma register_user_no_access_witness :
  get_user (register_user sample_db "Eva" "eva@x.com" "u9" sample_now).1 "u9"
  = Ok (User.create "u9" sample_now "Eva" "eva@x.com" false None None) /\
  reported_status
    (get_calendar_status
       (register_user sample_db "Eva" "eva@x.com" "u9" sample_now).1 "u9"
       sample_now)
    (datetime.strftime_ymd sample_now + 0) = Some bloqueado.
Proof.
  destruct (@register_user_no_access ascii_methods sample_db
              empty_analysis_db "Eva" "eva@x.com" "u9" sample_now sample_now
              "selfie" None "a1" sample_now "r1" sample_now 0)
    as (Hget & _ & _ & Hcal).
  - reflexivity.
  - reflexivity.
  - lia.
  - split; [exact Hget | exact Hcal].
Defined.

(** ** Redeeming codes *)

Lemma with_premium_codes_same (db : DB) :
  with_premium_codes (premium_codes db) db = db.
Proof. by destruct db. Qed.

Section RedeemFacts.
Context `{StrMethods}.

(** X13.  A redemption that raises changes nothing; the status is 404 exactly
    when a code was given and the user does not exist, and 400 otherwise. *)
Theorem activate_premium_code_errors (db : DB) (user_id : string)
    (code_data : option string) (now : datetime.t) :
  let out := activate_premium_code db user_id code_data now in
  let code := upper (strip (default "" code_data)) in
  match out.2 with
  | Ok _ => True
  | HTTPException status_code _ =>
      out.1 = db /\
      (status_code = 404 /\ truthy code = true /\
       find_one (User.has_id user_id) (users db) = None
       \/
       status_code = 400 /\
       (truthy code = false \/
        exists user,
          find_one (User.has_id user_id) (users db) = Some user /\
          forall premium_code,
            find_one (PremiumCode.has_code code) (premium_codes db) =
              Some premium_code ->
            PremiumCode.used premium_code = true))
  end.
Proof.
  unfold activate_premium_code.
  destruct (truthy (upper (strip (default "" code_data)))) eqn:Hcode; simpl.
  - destruct (find_one (User.has_id user_id) (users db)) as [user|] eqn:Hu;
      simpl.
    + destruct (find_one _ (premium_codes db)) as [pc|] eqn:Hc; simpl.
      * destruct (PremiumCode.used pc) eqn:Hused; simpl; [|done].
        split; [done|]. right. split; [done|]. right. exists user.
        split; [done|]. by intros ? [= <-].
      * split; [done|]. right. split; [done|]. right. exists user.
        split; [done|]. done.
    + split; [done|]. by left.
  - split; [done|]. right. split; [done|]. by left.
Qed.

Lemma activate_premium_code_success (db : DB) (user_id : string)
    (code_data : option string) (now : datetime.t) (user : User.t)
    (premium_code : PremiumCode.t) :
  let code := upper (strip (default "" code_data)) in
  let expires := now + datetime.timedelta_days 30 in
  truthy code = true ->
  find_one (User.has_id user_id) (users db) = Some user ->
  find_one (PremiumCode.has_code code) (premium_codes db) =
    Some premium_code ->
  PremiumCode.used premium_code = false ->
  let out := activate_premium_code db user_id code_data now in
  out.2 = Ok {| CodeActivation.message := "Código ativado com sucesso!";
                CodeActivation.expires_at := expires;
                CodeActivation.days_remaining := 30 |} /\
  find_one (User.has_id user_id) (users out.1) =
    Some (User.set_premium_code now expires code user) /\
  find_one (PremiumCode.has_code code) (premium_codes out.1) =
    Some (PremiumCode.set_used user_id now premium_code) /\
  length (users out.1) = length (users db) /\
  length (premium_codes out.1) = length (premium_codes db) /\
  daily_entries out.1 = daily_entries db /\
  payment_notifications out.1 = payment_notifications db.
Proof.
  intros code expires Hcode Hu Hc Hused out. subst out.
  unfold activate_premium_code. fold code. rewrite Hcode, Hu, Hc, Hused.
  simpl.
  assert (find_one (User.has_id user_id)
            (update_one (User.has_id user_id)
               (User.set_premium_code now (now + datetime.timedelta_days 30)
                  code) (users db)) =
          Some (User.set_premium_code now expires code user)) as Hfind.
  { apply find_one_update_one; [done|]. apply (find_one_matches _ _ _ Hu). }
  split; [done|]. split; [done|]. split.
  { apply find_one_update_one; [done|]. apply (find_one_matches _ _ _ Hc). }
  rewrite !length_update_one. done.
Qed.

(** X14.  A redemption by an existing user of a code that exists and is unused
    succeeds and answers with thirty days.  The user document then has
    premium from the clock of the call until thirty days later, with the
    code on it; the code document is marked used by that user at that time;
    no document is added or removed, and the entries and the payment
    notifications are untouched. *)
Theorem activate_premium_code_grants (db : DB) (user_id : string)
    (code_data : option string) (now : datetime.t) (user : User.t)
    (premium_code : PremiumCode.t) :
  let code := upper (strip (default "" code_data)) in
  let expires := now + datetime.timedelta_days 30 in
  truthy code = true ->
  find_one (User.has_id user_id) (users db) = Some user ->
  find_one (PremiumCode.has_code code) (premium_codes db) =
    Some premium_code ->
  PremiumCode.used premium_code = false ->
  let out := activate_premium_code db user_id code_data now in
  out.2 = Ok {| CodeActivation.message := "Código ativado com sucesso!";
                CodeActivation.expires_at := expires;
                CodeActivation.days_remaining := 30 |} /\
  find_one (User.has_id user_id) (users out.1) =
    Some (User.set_premium_code now expires code user) /\
  find_one (PremiumCode.has_code code) (premium_codes out.1) =
    Some (PremiumCode.set_used user_id now premium_code) /\
  length (users out.1) = length (users db) /\
  length (premium_codes out.1) = length (premium_codes db) /\
  daily_entries out.1 = daily_entries db /\
  payment_notifications out.1 = payment_notifications db.
Proof.
  intros code expires Hcode Hu Hc Hused out. subst out.
  unfold activate_premium_code. fold code. rewrite Hcode, Hu, Hc, Hused.
  simpl.
  assert (find_one (User.has_id user_id)
            (update_one (User.has_id user_id)
               (User.set_premium_code now (now + datetime.timedelta_days 30)
                  code) (users db)) =
          Some (User.set_premium_code now expires code user)) as Hfind.
  { apply find_one_update_one; [done|]. apply (find_one_matches _ _ _ Hu). }
  split; [done|]. split; [done|]. split.
  { apply find_one_update_one; [done|]. apply (find_one_matches _ _ _ Hc). }
  rewrite !length_update_one. done.
Qed.

End RedeemFacts.

Lemma activate_premium_code_grants_witness :
  find_one (User.has_id "u3")
    (users (@activate_premium_code ascii_methods sample_db "u3"
              (Some " belux0000ffff") sample_now).1) =
  Some (User.set_premium_code sample_now
          (sample_now + datetime.timedelta_days 30) "BELUX0000FFFF"
          user_registered).
Proof.
  destruct (@activate_premium_code_grants ascii_methods sample_db "u3"
              (Some " belux0000ffff") sample_now user_registered code_fresh)
    as (_ & Hfind & _).
  - reflexivity.
  - reflexivity.
  - reflexivity.
  - reflexivity.
  - exact Hfind.
Defined.

(** ** Minting codes *)

Lemma find_one_insert_one_none {A : Type} (q : A -> bool) (x : A)
    (c : list A) :
  find_one q c = None -> q x = false -> find_one q (insert_one x c) = None.
Proof.
  unfold find_one, insert_one.
  induction c as [|z c IH]; simpl; intros Hn Hx.
  - by rewrite Hx.
  - destruct (q z); [done|]. by apply IH.
Qed.

Section MintFacts.
Context `{StrMethods}.

(** The admin password is compared with the environment variable as it is:
    a wrong password is refused with 403 and nothing is stored, and a
    request is accepted exactly when the two are equal, which includes a
    request without password on a server where the variable is not set. *)
Theorem generate_premium_code_password (db : DB)
    (admin_password env_password : option string) (hex : string)
    (now : datetime.t) :
  let out := generate_premium_code db admin_password env_password hex now in
  (admin_password <> env_password ->
   out = (db, HTTPException 403 "Acesso negado")) /\
  (admin_password = env_password ->
   exists r,
     out.2 = Ok r /\
     AdminCode.code r = "BELUX" +:+ upper hex /\
     users out.1 = users db /\
     premium_codes out.1 =
       premium_codes db ++
       [ {| PremiumCode.code := AdminCode.code r;
            PremiumCode.created_at := now; PremiumCode.used := false;
            PremiumCode.used_by := None; PremiumCode.used_at := None |} ]).
Proof.
  unfold generate_premium_code. split; intros Hpw.
  - by rewrite bool_decide_eq_false_2.
  - rewrite bool_decide_eq_true_2 by done. simpl. eauto.
Qed.

(** X15.  The life of a code: minted by the admin, it is redeemed by the first
    existing user who presents it, who gets thirty days of premium, and it
    is refused to every existing user who presents it afterwards.  The
    premises say that the code is new in the store and that it reads the
    same after [strip().upper()]. *)
Theorem generate_premium_code_single_use (db : DB) (password : option string)
    (hex : string) (t0 t1 t2 : datetime.t) (first second : string)
    (first_user second_user : User.t) :
  let code := "BELUX" +:+ upper hex in
  upper (strip code) = code ->
  find_one (PremiumCode.has_code code) (premium_codes db) = None ->
  find_one (User.has_id first) (users db) = Some first_user ->
  find_one (User.has_id second) (users db) = Some second_user ->
  first <> second ->
  let db1 := (generate_premium_code db password password hex t0).1 in
  let out1 := activate_premium_code db1 first (Some code) t1 in
  let out2 := activate_premium_code out1.1 second (Some code) t2 in
  out1.2 = Ok {| CodeActivation.message := "Código ativado com sucesso!";
                 CodeActivation.expires_at := t1 + datetime.timedelta_days 30;
                 CodeActivation.days_remaining := 30 |} /\
  find_one (User.has_id first) (users out1.1) =
    Some (User.set_premium_code t1 (t1 + datetime.timedelta_days 30) code
            first_user) /\
  out2 = (out1.1,
          HTTPException 400 "Código já foi utilizado por outro usuário.") /\
  find_one (User.has_id second) (users out1.1) = Some second_user.
Proof.
  intros code Hnorm Hfresh Hfirst Hsecond Hne db1 out1 out2.
  set (minted := {| PremiumCode.code := code; PremiumCode.created_at := t0;
                    PremiumCode.used := false; PremiumCode.used_by := None;
                    PremiumCode.used_at := None |}).
  assert (db1 = with_premium_codes (insert_one minted (premium_codes db)) db)
    as Hdb1.
  { subst db1. unfold generate_premium_code.
    by rewrite bool_decide_eq_true_2. }
  assert (truthy (upper (strip (default "" (Some code)))) = true) as Htruthy.
  { simpl. by rewrite Hnorm. }
  assert (find_one (PremiumCode.has_code
                      (upper (strip (default "" (Some code)))))
            (premium_codes db1) = Some minted) as Hminted.
  { simpl. rewrite Hnorm, Hdb1. simpl.
    apply find_one_insert_one_fresh; [done|]. by apply bool_decide_eq_true_2. }
  assert (users db1 = users db) as Husers by (by rewrite Hdb1).
  assert (find_one (User.has_id first) (users db1) = Some first_user)
    as Hfirst1 by (by rewrite Husers).
  destruct (activate_premium_code_success db1 first (Some code) t1 first_user
              minted Htruthy Hfirst1 Hminted eq_refl)
    as (Hok & Hfind & Hcode & _).
  fold out1 in Hok, Hfind, Hcode. simpl in Hfind. rewrite Hnorm in Hfind.
  split; [done|]. split; [done|].
  assert (find_one (User.has_id second) (users out1.1) = Some second_user)
    as Hsecond1.
  { subst out1. unfold activate_premium_code.
    rewrite Htruthy, Husers, Hfirst, Hminted. simpl.
    clear -Hsecond Hne. induction (users db) as [|u l IH]; [done|].
    simpl in *. unfold User.has_id in *.
    destruct (decide (User.id u = first)) as [Hf|Hf].
    - rewrite (bool_decide_eq_true_2 _ Hf). simpl.
      rewrite bool_decide_eq_false_2 by congruence.
      rewrite bool_decide_eq_false_2 in Hsecond by congruence. done.
    - rewrite (bool_decide_eq_false_2 _ Hf). simpl.
      destruct (bool_decide (User.id u = second)); [done|]. by apply IH. }
  split; [|done]. subst out2.
  rewrite (activate_premium_code_used out1.1 second (Some code) t2
             second_user _ Hsecond1 Hcode eq_refl).
  by rewrite Htruthy.
Qed.

(** X16.  A code that [generate_and_activate_code] mints is born used: whenever
    the call succeeds on a store where the code is new, a redemption of
    that code by any existing user is refused. *)
Theorem generate_and_activate_code_born_used (db db' : DB)
    (user_data : UserData.t) (new_id : string) (created : datetime.t)
    (hex : string) (t_created t_used now : datetime.t)
    (r : GeneratedCode.t) (user_id : string) (code_data : option string)
    (later : datetime.t) (user : User.t) :
  generate_and_activate_code db user_data new_id created hex t_created
    t_used now = (db', Ok r) ->
  find_one (PremiumCode.has_code (GeneratedCode.code r)) (premium_codes db)
    = None ->
  upper (strip (default "" code_data)) = GeneratedCode.code r ->
  find_one (User.has_id user_id) (users db') = Some user ->
  activate_premium_code db' user_id code_data later =
  (db', HTTPException 400 "Código já foi utilizado por outro usuário.").
Proof.
  intros Hgen Hfresh Hnorm Hu.
  assert (GeneratedCode.code r = "BELUX" +:+ upper hex /\
          exists minted,
            find_one (PremiumCode.has_code ("BELUX" +:+ upper hex))
              (premium_codes db') = Some minted /\
            PremiumCode.used minted = true) as (Hcode & minted & Hm & Hused).
  { revert Hgen Hfresh. unfold generate_and_activate_code.
    destruct (negb (truthy _)); [done|].
    destruct (find_one _ (users db)) as [u|].
    - match goal with |- context [find_one ?p (users ?d)] =>
        destruct (find_one p (users d)) end; [|done].
      intros [= <- <-]. simpl. intros Hfresh. split; [done|].
      eexists. split.
      { apply find_one_insert_one_fresh; [done|].
        by apply bool_decide_eq_true_2. }
      reflexivity.
    - destruct (negb (truthy _)); [done|].
      match goal with |- context [find_one ?p (users ?d)] =>
        destruct (find_one p (users d)) end; [|done].
      intros [= <- <-]. simpl. intros Hfresh. split; [done|].
      eexists. split.
      { apply find_one_insert_one_fresh; [done|].
        by apply bool_decide_eq_true_2. }
      reflexivity. }
  rewrite Hcode in Hnorm.
  rewrite (activate_premium_code_used db' user_id code_data later user
             minted Hu); [|by rewrite Hnorm|done].
  by rewrite Hnorm.
Qed.

End MintFacts.

Lemma generate_premium_code_single_use_witness :
  let db1 :=
    (@generate_premium_code ascii_methods sample_db None None "99aa00ff"
       sample_now).1 in
  let out1 :=
    @activate_premium_code ascii_methods db1 "u3" (Some "BELUX99AA00FF")
      (sample_now + 1) in
  @activate_premium_code ascii_methods out1.1 "u4" (Some "BELUX99AA00FF")
    (sample_now + 2) =
  (out1.1, HTTPException 400 "Código já foi utilizado por outro usuário.").
Proof.
  destruct (@generate_premium_code_single_use ascii_methods
              sample_db None "99aa00ff" sample_now
              (sample_now + 1) (sample_now + 2) "u3" "u4" user_registered
              user_trial)
    as (_ & _ & Hrefused & _).
  - reflexivity.
  - reflexivity.
  - reflexivity.
  - reflexivity.
  - discriminate.
  - exact Hrefused.
Defined.

Lemma generate_and_activate_code_born_used_witness :
  let out :=
    @generate_and_activate_code ascii_methods sample_db
      {| UserData.email := Some "u3@x.com"; UserData.full_name := None |}
      "id9" sample_now "1a2b3c4d" sample_now sample_now sample_now in
  @activate_premium_code ascii_methods out.1 "u4" (Some "belux1a2b3c4d")
    (sample_now + 1) =
  (out.1, HTTPException 400 "Código já foi utilizado por outro usuário.").
Proof.
  intros out.
  destruct out as [db' res] eqn:Hout.
  assert (exists r, res = Ok r /\ GeneratedCode.code r = "BELUX1A2B3C4D")
    as (r & -> & Hcode).
  { vm_compute in Hout. injection Hout as _ <-. eexists. split; reflexivity. }
  apply (@generate_and_activate_code_born_used ascii_methods sample_db db'
           {| UserData.email := Some "u3@x.com"; UserData.full_name := None |}
           "id9" sample_now "1a2b3c4d" sample_now sample_now sample_now r
           "u4" (Some "belux1a2b3c4d") (sample_now + 1) user_trial).
  - exact Hout.
  - rewrite Hcode. reflexivity.
  - rewrite Hcode. reflexivity.
  - vm_compute in Hout. injection Hout as <- _. reflexivity.
Defined.

(** ** Payments *)

(** X17.  [validate_payment] has three outcomes and never adds a user: 400 when
    the email is missing or empty or the payment is not confirmed, 404 when
    no user has the email, both without a change; otherwise the first user
    with the email gets premium until seven days after the clock and is
    returned. *)
Theorem validate_payment_outcomes (db : DB) (email : option string)
    (confirmed : bool) (t_act t_exp : datetime.t) :
  let out := validate_payment db email confirmed t_act t_exp in
  match out.2 with
  | HTTPException status_code _ =>
      out.1 = db /\
      (status_code = 400 /\ (truthy_opt email = false \/ confirmed = false)
       \/
       status_code = 404 /\ confirmed = true /\
       exists e, email = Some e /\ truthy e = true /\
                 find_one (User.has_email e) (users db) = None)
  | Ok updated_user =>
      confirmed = true /\
      exists e user,
        email = Some e /\ truthy e = true /\
        find_one (User.has_email e) (users db) = Some user /\
        updated_user =
          User.set_premium t_act (t_exp + datetime.timedelta_days 7) user /\
        find_one (User.has_email e) (users out.1) = Some updated_user /\
        length (users out.1) = length (users db)
  end.
Proof.
  unfold validate_payment. destruct email as [e|]; simpl.
  - destruct (truthy e) eqn:He; simpl.
    + destruct confirmed; simpl.
      * destruct (find_one (User.has_email e) (users db)) as [user|] eqn:Hu.
        -- simpl.
           rewrite (find_one_update_one _
                      (User.set_premium t_act
                         (t_exp + datetime.timedelta_days 7)) _ user Hu)
             by apply (find_one_matches _ _ _ Hu).
           simpl. split; [done|]. exists e, user.
           repeat (split; [done|]). split.
           { apply find_one_update_one; [done|].
             apply (find_one_matches _ _ _ Hu). }
           by rewrite length_update_one.
        -- simpl. split; [done|]. right. eauto 10.
      * split; [done|]. left. eauto.
    + split; [done|]. left. eauto.
  - split; [done|]. left. eauto.
Qed.

(** ** Status of the premium *)

(** X18.  After [check_premium_status] has answered "expired", every later call,
    at any time, answers "no_premium" and changes nothing: the expiry is
    reported once. *)
Theorem check_premium_status_expired_once (db : DB) (user_id : string)
    (now later : datetime.t) (r : PremiumStatus.t) :
  (check_premium_status db user_id now).2 = Ok r ->
  PremiumStatus.status r = "expired" ->
  let db' := (check_premium_status db user_id now).1 in
  exists r',
    check_premium_status db' user_id later = (db', Ok r') /\
    PremiumStatus.status r' = "no_premium" /\
    PremiumStatus.is_premium r' = false.
Proof.
  unfold check_premium_status.
  destruct (find_one (User.has_id user_id) (users db)) as [user|] eqn:Hu;
    [|done].
  destruct (User.is_premium user) eqn:Hprem;
    [|by intros [= <-]].
  destruct (effective_expiry user) as [e|]; [|by intros [= <-]].
  destruct (e <? now); [|by intros [= <-]].
  simpl. intros _ _.
  rewrite (find_one_update_one _ User.set_not_premium _ user Hu)
    by apply (find_one_matches _ _ _ Hu).
  simpl. eauto.
Qed.

Lemma check_premium_status_expired_once_witness :
  (check_premium_status (check_premium_status sample_db "u5" sample_now).1
     "u5" (sample_now - datetime.timedelta_days 10)).2 =
  Ok {| PremiumStatus.is_premium := false;
        PremiumStatus.status := "no_premium";
        PremiumStatus.message :=
          Some "Você precisa de acesso premium para usar esta área.";
        PremiumStatus.expired_at := None;
        PremiumStatus.expires_at := None;
        PremiumStatus.days_remaining := None |}.
Proof.
  destruct (check_premium_status_expired_once sample_db "u5" sample_now
              (sample_now - datetime.timedelta_days 10)
              {| PremiumStatus.is_premium := false;
                 PremiumStatus.status := "expired";
                 PremiumStatus.message :=
                   Some "Seu acesso premium expirou. Renove sua assinatura!";
                 PremiumStatus.expired_at :=
                   Some (sample_now - datetime.timedelta_days 1);
                 PremiumStatus.expires_at := None;
                 PremiumStatus.days_remaining := None |})
    as (r' & Hcall & _).
  - reflexivity.
  - reflexivity.
  - rewrite Hcall. simpl. vm_compute in Hcall. by injection Hcall as <-.
Defined.

(** ** Payment webhook: what every notification does *)

(** X19.  Whatever the notification is, the webhook records it, once, at the end
    of the notifications; it never adds or removes a user and never touches
    the codes or the entries; and for an event that is not a payment event
    the users are exactly as before. *)
Theorem mercadopago_webhook_records (db : DB) (request : WebhookRequest)
    (access_token : option string) (sdk_get : string -> option PaymentData)
    (t_log t_act t_exp : datetime.t) :
  let out :=
    mercadopago_webhook db request access_token sdk_get t_log t_act t_exp in
  payment_notifications out.1.1 =
    payment_notifications db ++
    [ {| n_type := event_type request; n_action := action request;
         n_data := request; n_created_at := t_log |} ] /\
  length (users out.1.1) = length (users db) /\
  premium_codes out.1.1 = premium_codes db /\
  daily_entries out.1.1 = daily_entries db /\
  (is_payment_event request = false ->
   users out.1.1 = users db /\
   out.1.2 = {| wr_message := "Evento recebido"; wr_error := false |}).
Proof.
  unfold mercadopago_webhook.
  repeat match goal with
         | |- context [if ?b then _ else _] => destruct b eqn:?
         | |- context [match ?o with Some _ => _ | None => _ end] =>
             destruct o eqn:?
         end; simpl; rewrite ?length_update_one; repeat split; done.
Qed.

(** ** Calendar gate: explicit end of the trial, and the flags of a day *)





Section CalendarAfterGrant.
Context `{StrMethods}.


End CalendarAfterGrant.


(** X22.  A subscription alone unlocks nothing: for a user whose premium was
    never activated, [activate_subscription] sets the flag, the calendar
    then answers with [is_subscriber] true, and every day it answers for is
    still blocked. *)
Theorem subscription_without_premium_blocked (db : DB) (user_id : string)
    (user : User.t) (t now : datetime.t) (i : Z) :
  find_one (User.has_id user_id) (users db) = Some user ->
  User.premium_activated_at user = None ->
  -30 <= i < 30 ->
  let db' := (activate_subscription db user_id t).1 in
  exists resp,
    get_calendar_status db' user_id now = Ok resp /\
    CalendarStatus.is_subscriber resp = true /\
    CalendarStatus.calendar_status resp !! (datetime.strftime_ymd now + i) =
      Some blocked_day.
Proof.
  intros Hu Hact Hi db'.
  pose proof (activate_subscription_known_user db user_id t user Hu) as Hfind.
  fold db' in Hfind.
  unfold get_calendar_status. rewrite Hfind. eexists. split; [done|].
  simpl. split; [done|].
  rewrite (build_calendar_never_activated db' user_id
             (User.set_subscriber t user) now i Hact).
  by rewrite decide_True by lia.
Qed.

Lemma subscription_without_premium_blocked_witness :
  exists resp,
    get_calendar_status (activate_subscription sample_db "u3" sample_now).1
      "u3" sample_now = Ok resp /\
    CalendarStatus.is_subscriber resp = true /\
    CalendarStatus.calendar_status resp !! (datetime.strftime_ymd sample_now + 0)
      = Some blocked_day.
Proof.
  apply (subscription_without_premium_blocked sample_db "u3" user_registered
           sample_now sample_now 0).
  - reflexivity.
  - reflexivity.
  - lia.
Defined.





(** ** Daily entries: one per day, and what an update touches *)

Lemma replace_midnight_same_day (d d' : datetime.t) :
  datetime.strftime_ymd d = datetime.strftime_ymd d' ->
  datetime.replace_midnight d = datetime.replace_midnight d'.
Proof.
  unfold datetime.strftime_ymd. intros Hday.
  by rewrite !replace_midnight_eq, Hday.
Qed.

Lemma of_user_on_create (new_id : string) (created updated : datetime.t)
    (uid : string) (d : datetime.t) :
  DailyEntry.of_user_on uid (datetime.replace_midnight d)
    (datetime.replace_midnight d + datetime.timedelta_days 1)
    (DailyEntry.create new_id created updated uid
       (datetime.replace_midnight d) default_checklist) = true.
Proof.
  unfold DailyEntry.of_user_on. simpl.
  rewrite bool_decide_eq_true_2 by done. simpl.
  apply andb_true_intro. split.
  - apply Z.leb_le. lia.
  - apply Z.ltb_lt. unfold datetime.timedelta_days, datetime.us_per_day. lia.
Qed.

(** X24.  [create_daily_entry] keeps one entry per user and day: a second call
    for the same user, with any date of the same day, changes nothing and
    answers with the entry the first call answered with. *)
Theorem create_daily_entry_same_day (db : DB) (uid : string)
    (d d' : option datetime.t) (clock clock' : datetime.t)
    (new_id new_id' : string) (created updated created' updated' : datetime.t) :
  datetime.strftime_ymd (default clock' d') =
    datetime.strftime_ymd (default clock d) ->
  let first := create_daily_entry db uid d clock new_id created updated in
  create_daily_entry first.1 uid d' clock' new_id' created' updated' = first.
Proof.
  intros Hday first. subst first. unfold create_daily_entry.
  assert (match d' with
          | Some x => datetime.replace_midnight x
          | None => datetime.replace_midnight clock'
          end = datetime.replace_midnight (default clock d)) as ->.
  { rewrite <- (replace_midnight_same_day _ _ Hday). by destruct d'. }
  assert (match d with
          | Some x => datetime.replace_midnight x
          | None => datetime.replace_midnight clock
          end = datetime.replace_midnight (default clock d)) as ->
    by (by destruct d).
  cbv zeta.
  destruct (find_one
              (DailyEntry.of_user_on uid
                 (datetime.replace_midnight (default clock d))
                 (datetime.replace_midnight (default clock d) +
                  datetime.timedelta_days 1)) (daily_entries db))
    as [existing|] eqn:He; simpl.
  - by rewrite He.
  - rewrite (find_one_insert_one_fresh _ _ _ He); [done|].
    apply of_user_on_create.
Qed.

Lemma create_daily_entry_same_day_witness :
  let first :=
    create_daily_entry sample_db "u3" None sample_now "e2" sample_now
      sample_now in
  create_daily_entry first.1 "u3" (Some (sample_now + 3600000000))
    (sample_now + 7) "e3" (sample_now + 7) (sample_now + 7) = first.
Proof.
  apply (create_daily_entry_same_day sample_db "u3" None
           (Some (sample_now + 3600000000)) sample_now (sample_now + 7)
           "e2" "e3" sample_now sample_now (sample_now + 7) (sample_now + 7)).
  reflexivity.
Defined.

(** An update with a non-empty photo of the face, on an entry that exists
    and with a body in which no other key is null: the photo is stored, and
    with it the answer of the model or, when the model fails, the fixed
    fallback text. *)
Lemma update_daily_entry_photo_stored (db : DB) (entry_id : string)
    (update : DailyEntryUpdate.t) (response : option string)
    (now : datetime.t) (entry : DailyEntry.t) (photo : string) :
  find_one (DailyEntry.has_id entry_id) (daily_entries db) = Some entry ->
  DailyEntryUpdate.face_photo_base64 update = Some (Some photo) ->
  truthy photo = true ->
  let out := update_daily_entry db entry_id update response now in
  exists updated,
    out.2 = Ok updated /\
    find_one (DailyEntry.has_id entry_id) (daily_entries out.1) =
      Some updated /\
    DailyEntry.face_photo_base64 updated = Some photo /\
    DailyEntry.face_analysis updated =
      Some (match response with
            | Some text => text
            | None => face_analysis_fallback
            end) /\
    DailyEntry.updated_at updated = now.
Proof.
  intros He Hphoto Htruthy out. subst out. unfold update_daily_entry.
  rewrite He, Hphoto, Htruthy. simpl.
  rewrite (find_one_update_one _ _ _ entry He)
    by apply (find_one_matches _ _ _ He).
  eexists. split; [reflexivity|]. simpl. rewrite Hphoto.
  split; [|by destruct response].
  apply find_one_update_one; [done|]. apply (find_one_matches _ _ _ He).
Qed.

(** X26.  An update never writes [products_analysis]: when the body carries a
    list of product photos, the entry gets that list and keeps its
    analyses, so the two lists stay in step only if the new list has as
    many photos as there are analyses. *)
Theorem update_daily_entry_products (db : DB) (entry_id : string)
    (update : DailyEntryUpdate.t) (response : option string)
    (now : datetime.t) (entry : DailyEntry.t) (photos : list string) :
  find_one (DailyEntry.has_id entry_id) (daily_entries db) = Some entry ->
  DailyEntryUpdate.products_photos update = Some photos ->
  let out := update_daily_entry db entry_id update response now in
  exists updated,
    out.2 = Ok updated /\
    find_one (DailyEntry.has_id entry_id) (daily_entries out.1) =
      Some updated /\
    DailyEntry.products_photos updated = photos /\
    DailyEntry.products_analysis updated =
      DailyEntry.products_analysis entry /\
    (balanced updated <->
     length photos = length (DailyEntry.products_analysis entry)).
Proof.
  intros He Hphotos out. subst out. unfold update_daily_entry.
  rewrite He. simpl.
  rewrite (find_one_update_one _ _ _ entry He)
    by apply (find_one_matches _ _ _ He).
  eexists. split; [reflexivity|]. simpl. split.
  { apply find_one_update_one; [done|]. apply (find_one_matches _ _ _ He). }
  unfold balanced. simpl. by rewrite Hphotos.
Qed.

Lemma update_daily_entry_photo_stored_witness :
  DailyEntry.face_analysis <$>
    find_one (DailyEntry.has_id "e1")
      (daily_entries
         (update_daily_entry sample_db "e1"
            {| DailyEntryUpdate.face_photo_base64 := Some (Some "selfie");
               DailyEntryUpdate.products_photos := None;
               DailyEntryUpdate.observations := None;
               DailyEntryUpdate.checklist := None |}
            None (sample_now + 9)).1) =
  Some (Some face_analysis_fallback).
Proof.
  destruct (update_daily_entry_photo_stored sample_db "e1"
              {| DailyEntryUpdate.face_photo_base64 := Some (Some "selfie");
                 DailyEntryUpdate.products_photos := None;
                 DailyEntryUpdate.observations := None;
                 DailyEntryUpdate.checklist := None |}
              None (sample_now + 9) entry_today "selfie")
    as (updated & _ & Hfind & _ & Hanalysis & _).
  - reflexivity.
  - reflexivity.
  - reflexivity.
  - rewrite Hfind. simpl. by rewrite Hanalysis.
Defined.



(** The entry of the sample store has one photo and one analysis; an
    update that sends two photos leaves it with two photos and one
    analysis. *)
Lemma update_daily_entry_products_witness :
  exists updated,
    find_one (DailyEntry.has_id "e1")
      (daily_entries
         (update_daily_entry sample_db "e1"
            {| DailyEntryUpdate.face_photo_base64 := None;
               DailyEntryUpdate.products_photos := Some ["p1"; "p2"];
               DailyEntryUpdate.observations := None;
               DailyEntryUpdate.checklist := None |}
            None (sample_now + 9)).1) = Some updated /\
    balanced entry_today /\ ~ balanced updated.
Proof.
  destruct (update_daily_entry_products sample_db "e1"
              {| DailyEntryUpdate.face_photo_base64 := None;
                 DailyEntryUpdate.products_photos := Some ["p1"; "p2"];
                 DailyEntryUpdate.observations := None;
                 DailyEntryUpdate.checklist := None |}
              None (sample_now + 9) entry_today ["p1"; "p2"])
    as (updated & _ & Hfind & _ & _ & Hbalanced).
  - reflexivity.
  - reflexivity.
  - exists updated. split; [exact Hfind|]. split; [reflexivity|].
    intros Hb. apply Hbalanced in Hb. discriminate Hb.
Defined.

(** ** Routines *)

(** X27.  [create_routine] adds seven routines at the end of the collection, for
    the days 1 to 7 in this order, each for the given user, dated [day - 1]
    days after the clock of its turn, with the five tasks unchecked.  It
    does so for any [user_id], known or not, and again at every call: two
    calls leave fourteen routines. *)
Theorem create_routine_seven (adb : AnalysisDB) (user_id : string)
    (new_id new_id' : Z -> string) (clock clock' : Z -> datetime.t) :
  let out := create_routine adb user_id new_id clock in
  let again := create_routine out.1 user_id new_id' clock' in
  exists routines,
    daily_routines out.1 = daily_routines adb ++ routines /\
    DailyRoutine.day <$> routines = [1; 2; 3; 4; 5; 6; 7] /\
    Forall
      (fun r =>
         DailyRoutine.user_id r = user_id /\
         DailyRoutine.id r = new_id (DailyRoutine.day r) /\
         DailyRoutine.date r =
           clock (DailyRoutine.day r) +
           datetime.timedelta_days (DailyRoutine.day r - 1) /\
         DailyRoutine.checklist r = base_checklist /\
         DailyRoutine.completed r = false /\
         DailyRoutine.photo_base64 r = None)
      routines /\
    length (daily_routines again.1) = (length (daily_routines adb) + 14)%nat.
Proof.
  intros out again. eexists. split; [reflexivity|].
  split; [reflexivity|]. split.
  - repeat constructor.
  - subst again out. simpl. rewrite !length_app. simpl. lia.
Qed.

(** X28.  [analyze_product_photo] never fails: when the model fails the answer is
    the fixed fallback text, and when no routine has the given id nothing
    is stored and the answer is the analysis all the same. *)
Theorem analyze_product_photo_total (adb : AnalysisDB)
    (routine_id image_base64 : string) (response : option string) :
  let out := analyze_product_photo adb routine_id image_base64 response in
  let analysis :=
    match response with
    | Some text => text
    | None => product_analysis_fallback
    end in
  out.2 = Ok analysis /\
  match find_one (DailyRoutine.has_id routine_id) (daily_routines adb) with
  | Some routine =>
      find_one (DailyRoutine.has_id routine_id) (daily_routines out.1) =
      Some (DailyRoutine.set_product image_base64 analysis routine)
  | None => out.1 = adb
  end.
Proof.
  intros out analysis. subst out. unfold analyze_product_photo.
  assert (analyze_product_with_ai response = analysis) as ->
    by (by destruct response).
  split; [done|].
  destruct (find_one _ (daily_routines adb)) as [routine|] eqn:Hr; simpl.
  - apply find_one_update_one; [done|]. apply (find_one_matches _ _ _ Hr).
  - rewrite (update_one_no_match _ _ _ Hr). by destruct adb.
Qed.

(** ** The reprocessing script *)

Lemma find_one_update_one_oid (x y : string) (f : Analysis.t -> Analysis.t)
    (c : list Analysis.t) :
  (forall a, Analysis._id (f a) = Analysis._id a) ->
  find_one (Analysis.has_oid x) (update_one (Analysis.has_oid y) f c) =
  if decide (x = y) then f <$> find_one (Analysis.has_oid x) c
  else find_one (Analysis.has_oid x) c.
Proof.
  intros Hf. unfold find_one, Analysis.has_oid.
  induction c as [|a c IH]; simpl.
  - by destruct (decide (x = y)).
  - destruct (decide (Analysis._id a = y)) as [Hay|Hay].
    + rewrite (bool_decide_eq_true_2 _ Hay). simpl. rewrite Hf.
      destruct (decide (x = y)) as [->|Hxy].
      * by rewrite (bool_decide_eq_true_2 _ Hay).
      * rewrite bool_decide_eq_false_2 by congruence. done.
    + rewrite (bool_decide_eq_false_2 _ Hay). simpl.
      destruct (decide (Analysis._id a = x)) as [Hax|Hax].
      * rewrite (bool_decide_eq_true_2 _ Hax).
        rewrite decide_False by congruence. done.
      * rewrite (bool_decide_eq_false_2 _ Hax). apply IH.
Qed.

Lemma oid_update_one (p : Analysis.t -> bool) (f : Analysis.t -> Analysis.t)
    (c : list Analysis.t) :
  (forall a, Analysis._id (f a) = Analysis._id a) ->
  Analysis._id <$> update_one p f c = Analysis._id <$> c.
Proof.
  intros Hf. induction c as [|a c IH]; [done|]. cbn [update_one].
  destruct (p a); rewrite !fmap_cons; [by rewrite Hf | by rewrite IH].
Qed.

Lemma find_one_by_oid (c : list Analysis.t) (a : Analysis.t) :
  NoDup (Analysis._id <$> c) -> a ∈ c ->
  find_one (Analysis.has_oid (Analysis._id a)) c = Some a.
Proof.
  unfold find_one, Analysis.has_oid.
  induction c as [|b c IH]; intros Hnd Hin; [by apply elem_of_nil in Hin|].
  rewrite fmap_cons in Hnd. apply NoDup_cons in Hnd as [Hb Hnd].
  simpl. apply elem_of_cons in Hin as [->|Hin].
  - by rewrite bool_decide_eq_true_2.
  - rewrite bool_decide_eq_false_2; [by apply IH|].
    intros Heq. apply Hb. rewrite Heq. by apply list_elem_of_fmap_2.
Qed.

Lemma NoDup_oid_filter (p : Analysis.t -> bool) (c : list Analysis.t) :
  NoDup (Analysis._id <$> c) -> NoDup (Analysis._id <$> List.filter p c).
Proof.
  induction c as [|b c IH]; simpl; [done|].
  intros [Hb Hnd]%NoDup_cons. destruct (p b); [|by apply IH].
  rewrite fmap_cons. apply NoDup_cons. split; [|by apply IH].
  intros (a & Ha & Hin)%list_elem_of_fmap. apply Hb. rewrite Ha.
  apply list_elem_of_fmap_2. apply list_elem_of_In.
  apply list_elem_of_In in Hin. by apply filter_In in Hin as [? _].
Qed.

(** The loop, from any state and over any list of documents with distinct
    ids. *)
Lemma reprocess_loop (ai : nat -> option string)
    (clock : nat -> datetime.t * datetime.t) (l : list Analysis.t)
    (s : ReprocessState) :
  NoDup (Analysis._id <$> l) ->
  let s' := fold_left (reprocess_turn ai clock) l s in
  (updated_count s' + error_count s' =
   updated_count s + error_count s + length l)%nat /\
  Analysis._id <$> rs_analyses s' = Analysis._id <$> rs_analyses s /\
  (forall k a, l !! k = Some a ->
     find_one (Analysis.has_oid (Analysis._id a)) (rs_analyses s') =
     reprocessed_as ai clock (rs_turn s + k) <$>
       find_one (Analysis.has_oid (Analysis._id a)) (rs_analyses s)) /\
  (forall x, x ∉ Analysis._id <$> l ->
     find_one (Analysis.has_oid x) (rs_analyses s') =
     find_one (Analysis.has_oid x) (rs_analyses s)).
Proof.
  revert s. induction l as [|a0 l IH]; intros s Hnd; cbn [fold_left length].
  - split; [lia|]. split; [done|]. split; [|done]. by intros k a.
  - rewrite fmap_cons in Hnd. apply NoDup_cons in Hnd as [Ha0 Hnd].
    destruct (IH (reprocess_turn ai clock s a0) Hnd)
      as (Hcount & Hids & Hseen & Hother).
    assert (forall x,
              find_one (Analysis.has_oid x)
                (rs_analyses (reprocess_turn ai clock s a0)) =
              if decide (x = Analysis._id a0)
              then reprocessed_as ai clock (rs_turn s) <$>
                     find_one (Analysis.has_oid x) (rs_analyses s)
              else find_one (Analysis.has_oid x) (rs_analyses s)) as Hturn.
    { intros x. unfold reprocess_turn, reprocessed_as.
      destruct (ai (rs_turn s)) as [response|]; simpl.
      - by apply find_one_update_one_oid.
      - destruct (decide (x = Analysis._id a0)); [|done].
        by destruct (find_one _ (rs_analyses s)). }
    assert (rs_turn (reprocess_turn ai clock s a0) = S (rs_turn s)) as Hi.
    { unfold reprocess_turn. by destruct (ai (rs_turn s)). }
    split; [|split; [|split]].
    + rewrite Hcount. unfold reprocess_turn.
      destruct (ai (rs_turn s)); simpl; lia.
    + rewrite Hids. unfold reprocess_turn.
      destruct (ai (rs_turn s)); simpl; [|done]. by apply oid_update_one.
    + intros [|k] a Hk; simpl in Hk.
      * injection Hk as <-. rewrite (Hother _ Ha0), Hturn.
        rewrite decide_True by done. by rewrite Nat.add_0_r.
      * rewrite (Hseen k a Hk), Hturn, Hi.
        rewrite decide_False.
        { by replace (S (rs_turn s) + k)%nat with (rs_turn s + S k)%nat
            by lia. }
        intros Heq. apply Ha0. rewrite <- Heq.
        apply list_elem_of_fmap_2. by eapply list_elem_of_lookup_2.
    + intros x Hx. rewrite Hother, Hturn.
      * rewrite decide_False; [done|]. intros ->. apply Hx.
        rewrite fmap_cons. by left.
      * intros Hin. apply Hx. rewrite fmap_cons. by right.
Qed.

(** X29.  A run of the script over a collection: every document with a photo is
    asked to the model once, in the order of the collection; the two
    counters add up to the number of these documents; a document whose call
    succeeded gets the answer, the two dates and the mark [reprocessed], a
    document whose call failed and every document without photo stay as
    they were; no document is added, removed or moved. *)
Theorem update_all_analyses_spec (collection : list Analysis.t)
    (ai : nat -> option string) (clock : nat -> datetime.t * datetime.t) :
  NoDup (Analysis._id <$> collection) ->
  let s := update_all_analyses collection ai clock in
  let analyses := List.filter Analysis.has_photo collection in
  (updated_count s + error_count s = length analyses)%nat /\
  Analysis._id <$> rs_analyses s = Analysis._id <$> collection /\
  (forall k a, analyses !! k = Some a ->
     find_one (Analysis.has_oid (Analysis._id a)) (rs_analyses s) =
     Some (reprocessed_as ai clock (S k) a)) /\
  (forall a, a ∈ collection -> Analysis.photo_base64 a = None ->
     find_one (Analysis.has_oid (Analysis._id a)) (rs_analyses s) = Some a).
Proof.
  intros Hnd s analyses.
  destruct (reprocess_loop ai clock analyses
              {| rs_analyses := collection; updated_count := 0;
                 error_count := 0; rs_turn := 1 |}
              (NoDup_oid_filter _ _ Hnd))
    as (Hcount & Hids & Hseen & Hother).
  subst s. unfold update_all_analyses. fold analyses.
  cbn [updated_count error_count rs_turn rs_analyses Nat.add] in *.
  split; [lia|]. split; [done|]. split.
  - intros k a Hk. rewrite (Hseen k a Hk).
    rewrite find_one_by_oid; [done|done|].
    apply list_elem_of_lookup_2 in Hk. apply list_elem_of_In in Hk.
    apply filter_In in Hk as [Hin _]. by apply list_elem_of_In.
  - intros a Hin Hphoto. rewrite Hother; [by apply find_one_by_oid|].
    intros (b & Hb & Hbin)%list_elem_of_fmap.
    apply list_elem_of_In, filter_In in Hbin as [Hbin Hbphoto].
    apply list_elem_of_In in Hbin.
    pose proof (find_one_by_oid collection a Hnd Hin) as Hfa.
    pose proof (find_one_by_oid collection b Hnd Hbin) as Hfb.
    rewrite Hb in Hfa. rewrite Hfa in Hfb. injection Hfb as ->.
    unfold Analysis.has_photo in Hbphoto. by rewrite Hphoto in Hbphoto.
Qed.

Lemma update_all_analyses_spec_witness :
  let s := update_all_analyses sample_analyses sample_ai sample_clock in
  (updated_count s + error_count s = 2)%nat /\
  find_one (Analysis.has_oid "o3") (rs_analyses s) =
    Some (sample_analysis "o3" (Some "p3")).
Proof.
  intros s.
  destruct (update_all_analyses_spec sample_analyses sample_ai sample_clock)
    as (Hcount & _ & Hseen & _).
  - apply (bool_decide_unpack _). vm_compute. reflexivity.
  - split; [exact Hcount|].
    exact (Hseen 1%nat (sample_analysis "o3" (Some "p3")) eq_refl).
Defined.

Example update_all_analyses_sample :
  update_all_analyses sample_analyses sample_ai sample_clock =
  {| rs_analyses :=
       [ Analysis.set_reprocessed "nova análise" (sample_now + 1)
           (sample_now + 2) (sample_analysis "o1" (Some "p1"));
         sample_analysis "o2" None; sample_analysis "o3" (Some "p3") ];
     updated_count := 1; error_count := 1; rs_turn := 3 |}.
Proof. reflexivity. Qed.

(** ** Emails stay unique in every store the handlers build *)

Lemma unique_emails_same_users (db db' : DB) :
  users db' = users db -> unique_emails db -> unique_emails db'.
Proof. intros Hu Hdb e. rewrite Hu. apply Hdb. Qed.

Lemma validate_payment_unique_emails (db : DB) (email : option string)
    (confirmed : bool) (t_act t_exp : datetime.t) :
  unique_emails db ->
  unique_emails (validate_payment db email confirmed t_act t_exp).1.
Proof.
  intros Hdb. unfold validate_payment.
  destruct email as [e|]; [|done].
  destruct (negb (truthy e) || negb confirmed); [done|].
  destruct (find_one (User.has_email e) (users db)); [|done].
  match goal with |- context [find_one ?p (users ?d)] =>
    destruct (find_one p (users d)) end; simpl;
    by apply unique_emails_update.
Qed.

Section ReachableFacts.
Context `{StrMethods}.

(** X30.  However many requests are handled, one after the other, and whatever
    they are, no two user documents ever carry the same email. *)
Theorem reachable_unique_emails (db : DB) :
  reachable db -> unique_emails db.
Proof.
  induction 1.
  - apply unique_emails_empty.
  - by apply register_user_unique_emails.
  - by apply activate_premium_auto_unique_emails.
  - by apply activate_premium_code_unique_emails.
  - by apply generate_and_activate_code_unique_emails.
  - eapply unique_emails_same_users; [|done].
    unfold generate_premium_code. by destruct (negb _).
  - by apply check_premium_status_unique_emails.
  - by apply activate_subscription_unique_emails.
  - by apply mercadopago_webhook_unique_emails.
  - by apply validate_payment_unique_emails.
  - eapply unique_emails_same_users; [|done].
    unfold create_daily_entry. by destruct (find_one _ _).
  - eapply unique_emails_same_users; [|done].
    unfold update_daily_entry.
    destruct (find_one _ (daily_entries db)); [|done].
    match goal with |- context [find_one ?p (daily_entries ?d)] =>
      destruct (find_one p (daily_entries d)) end; done.
  - eapply unique_emails_same_users; [|done].
    unfold analyze_product_in_entry.
    destruct (find_one _ _); [|done]. by destruct analysis.
Qed.

End ReachableFacts.

Lemma reachable_unique_emails_witness :
  unique_emails
    (@activate_premium_auto ascii_methods
       (register_user empty_db "Ana" "ana@x.com" "id0" sample_now).1
       {| UserData.email := Some "Ana@X.com ";
          UserData.full_name := Some "Ana" |}
       (sample_now + 5) "id1" (sample_now + 5)).1.
Proof.
  apply (@reachable_unique_emails ascii_methods).
  apply reach_activate_premium_auto, reach_register_user, reach_empty.
Defined.
